(** * A minimal ORM over sqlite3: shallow embedding of [main.py]

    The development follows the layout of the program.

    - Python values, host types and exceptions used by the program.
    - [sqlite3]: a model of the database engine, restricted to the three
      statement shapes that the program issues (CREATE TABLE IF NOT EXISTS,
      INSERT INTO .. VALUES, SELECT * FROM .. [WHERE ..]).  The engine takes
      the SQL text as the program builds it: the text is tokenised, parsed
      and interpreted.
    - [OrmField] and its three subclasses, the metaclass [OrmModelMeta]
      and the base class [OrmModel] with [save], [all] and [filter].
    - The properties of the specification, one theorem each.

    Conventions.  Every method of the program opens a connection to the
    database file at [_db_path]; the state that the definitions thread
    is the content of that file together with the log of the calls made
    on its connections.  Text is ASCII.  The engine is a model of
    SQLite; where SQLite does more than the model covers, the model
    answers [Unmodelled] rather than guess. *)

From Stdlib Require Import ZArith Ascii String List Bool Lia Permutation.
From Stdlib Require Import Floats.SpecFloat.
From stdpp Require Import base option list gmap strings.

Local Open Scope Z_scope.
Local Open Scope string_scope.
Local Open Scope list_scope.

(** ** Python values *)

(** Host types that can occur as [expected_type] of a field or as the type
    of an attribute value.  [Tobject c] stands for any other class [c]. *)
Inductive PyType : Type :=
| Tint
| Tstr
| Tfloat
| Tbool
| TNoneType
| Tobject (c : string).

(** Values held by instance attributes and passed as statement parameters.
    A Python [float] is an IEEE-754 value, kept here as a [spec_float];
    [PyObj c] is an object of any other class [c]. *)
Inductive PyValue : Type :=
| PyNone
| PyBool (b : bool)
| PyInt (z : Z)
| PyFloat (f : spec_float)
| PyStr (s : string)
| PyObj (c : string).

(** [type(v)] *)
Definition type (v : PyValue) : PyType :=
  match v with
  | PyNone => TNoneType
  | PyBool _ => Tbool
  | PyInt _ => Tint
  | PyFloat _ => Tfloat
  | PyStr _ => Tstr
  | PyObj c => Tobject c
  end.

Definition PyType_eqb (a b : PyType) : bool :=
  match a, b with
  | Tint, Tint | Tstr, Tstr | Tfloat, Tfloat
  | Tbool, Tbool | TNoneType, TNoneType => true
  | Tobject c, Tobject d => String.eqb c d
  | _, _ => false
  end.

(** [isinstance(v, t)]: [bool] is a subclass of [int]; the other host
    types are unrelated. *)
Definition isinstance (v : PyValue) (t : PyType) : bool :=
  match type v, t with
  | Tbool, Tint => true
  | a, b => PyType_eqb a b
  end.

(** [str(t)] for a class object, as an f-string interpolates it. *)
Definition type_name (t : PyType) : string :=
  match t with
  | Tint => "int"
  | Tstr => "str"
  | Tfloat => "float"
  | Tbool => "bool"
  | TNoneType => "NoneType"
  | Tobject c => c
  end.

Definition type_repr (t : PyType) : string :=
  "<class '" +:+ type_name t +:+ "'>".

(** Reasons of the errors that the database engine reports. *)
Inductive op_reason : Type :=
| SyntaxError
| NoSuchTable
| NoSuchColumn
| DuplicateColumn
| MultiplePrimaryKeys
| AutoincrementNotInteger
| ReservedName
| ValueCount
| DatabaseFull.

(** Exceptions.  [TypeError] is the one raised by [save]; the others come
    from the database driver.  [Unmodelled] marks a request that leaves
    the fragment of SQLite covered by the engine model below (coercion
    between storage classes by type affinity, declared types other than
    INTEGER, TEXT and REAL, the internal [sqlite_] tables, random rowid
    allocation): the model takes no position on its outcome. *)
Inductive exn : Type :=
| TypeError (msg : string)
| OperationalError (r : op_reason)
| IntegrityError
| ProgrammingError
| OverflowError
| Unmodelled.

Inductive result (A : Type) : Type :=
| Ok (a : A)
| Raise (e : exn).
Arguments Ok {A} a.
Arguments Raise {A} e.

#[export] Instance result_ret : MRet result := fun A a => Ok a.
#[export] Instance result_bind : MBind result := fun A B f m =>
  match m with
  | Ok a => f a
  | Raise e => Raise e
  end.

(** ** Strings *)

Definition is_upper (c : ascii) : bool :=
  let n := N_of_ascii c in ((65 <=? n) && (n <=? 90))%N.

Definition is_lower (c : ascii) : bool :=
  let n := N_of_ascii c in ((97 <=? n) && (n <=? 122))%N.

Definition is_digit (c : ascii) : bool :=
  let n := N_of_ascii c in ((48 <=? n) && (n <=? 57))%N.

Definition lower_char (c : ascii) : ascii :=
  if is_upper c then ascii_of_N (N_of_ascii c + 32) else c.

(** [s.lower()], on ASCII text. *)
Fixpoint lower (s : string) : string :=
  match s with
  | EmptyString => EmptyString
  | String c s' => String (lower_char c) (lower s')
  end.

(** [sep.join(l)] *)
Definition join (sep : string) (l : list string) : string :=
  String.concat sep l.

(** ** Dictionaries with insertion order *)

(** A Python [dict] with string keys: an association list whose keys are
    pairwise distinct, in insertion order. *)
Definition dict (V : Type) : Type := list (string * V).

Fixpoint dict_get {V} (d : dict V) (k : string) : option V :=
  match d with
  | [] => None
  | (k', v) :: d' => if String.eqb k' k then Some v else dict_get d' k
  end.

(** [d[k] = v]: an existing key keeps its position. *)
Fixpoint dict_set {V} (d : dict V) (k : string) (v : V) : dict V :=
  match d with
  | [] => [(k, v)]
  | (k', v') :: d' =>
      if String.eqb k' k then (k', v) :: d' else (k', v') :: dict_set d' k v
  end.

Definition keys {V} (d : dict V) : list string := map fst d.
Definition values {V} (d : dict V) : list V := map snd d.

(** ** The database engine *)

Module sqlite3.

(** Storage classes of SQLite (BLOB is not used by the program). *)
Inductive value : Type :=
| Null
| Integer (z : Z)
| Real (f : spec_float)
| Text (s : string).

(** *** Tokens *)

Inductive token : Type :=
| TWord (w : string)
| TLParen
| TRParen
| TComma
| TStar
| TEq
| TQMark.

Definition ident_char (c : ascii) : bool :=
  is_upper c || is_lower c || is_digit c || Ascii.eqb c "_".

Definition is_space (c : ascii) : bool :=
  let n := N_of_ascii c in ((n =? 32) || (n =? 9) || (n =? 10) || (n =? 13))%N.

(** Characters that end a word: white space ([Some None]) and the
    punctuation of the fragment ([Some (Some t)]); any other character is
    not part of the fragment. *)
Definition delimiter (c : ascii) : option (option token) :=
  if is_space c then Some None
  else if Ascii.eqb c "(" then Some (Some TLParen)
  else if Ascii.eqb c ")" then Some (Some TRParen)
  else if Ascii.eqb c "," then Some (Some TComma)
  else if Ascii.eqb c "*" then Some (Some TStar)
  else if Ascii.eqb c "=" then Some (Some TEq)
  else if Ascii.eqb c "?" then Some (Some TQMark)
  else None.

Definition flush (cur : string) (ts : list token) : list token :=
  match cur with
  | EmptyString => ts
  | _ => TWord cur :: ts
  end.

Definition emit (d : option token) (ts : list token) : list token :=
  match d with
  | Some t => t :: ts
  | None => ts
  end.

(** [lex cur s]: the tokens of [s], where [cur] is the word read so far. *)
Fixpoint lex (cur : string) (s : string) : option (list token) :=
  match s with
  | EmptyString => Some (flush cur [])
  | String c s' =>
      if ident_char c then lex (cur +:+ String c EmptyString) s'
      else match delimiter c with
           | Some d =>
               match lex EmptyString s' with
               | Some ts => Some (flush cur (emit d ts))
               | None => None
               end
           | None => None
           end
  end.

Definition tokenize (s : string) : option (list token) := lex EmptyString s.

(** *** Names *)

(** The keywords of SQLite.  Some of them are accepted by SQLite as
    names; the model refuses them all. *)
Definition keywords : list string :=
  [ "abort"; "action"; "add"; "after"; "all"; "alter"; "always"; "analyze";
    "and"; "as"; "asc"; "attach"; "autoincrement"; "before"; "begin";
    "between"; "by"; "cascade"; "case"; "cast"; "check"; "collate";
    "column"; "commit"; "conflict"; "constraint"; "create"; "cross";
    "current"; "current_date"; "current_time"; "current_timestamp";
    "database"; "default"; "deferrable"; "deferred"; "delete"; "desc";
    "detach"; "distinct"; "do"; "drop"; "each"; "else"; "end"; "escape";
    "except"; "exclude"; "exclusive"; "exists"; "explain"; "fail"; "false";
    "filter"; "first"; "following"; "for"; "foreign"; "from"; "full";
    "generated"; "glob"; "group"; "groups"; "having"; "if"; "ignore";
    "immediate"; "in"; "index"; "indexed"; "initially"; "inner"; "insert";
    "instead"; "intersect"; "into"; "is"; "isnull"; "join"; "key"; "last";
    "left"; "like"; "limit"; "match"; "materialized"; "natural"; "no";
    "not"; "nothing"; "notnull"; "null"; "nulls"; "of"; "offset"; "oid";
    "on"; "or"; "order"; "others"; "outer"; "over"; "partition"; "plan";
    "pragma"; "preceding"; "primary"; "query"; "raise"; "range";
    "recursive"; "references"; "regexp"; "reindex"; "release"; "rename";
    "replace"; "restrict"; "returning"; "right"; "rollback"; "row";
    "rowid"; "rows"; "savepoint"; "select"; "set"; "table"; "temp";
    "temporary"; "then"; "ties"; "to"; "transaction"; "trigger"; "true";
    "unbounded"; "union"; "unique"; "update"; "using"; "vacuum"; "values";
    "view"; "virtual"; "when"; "where"; "window"; "with"; "without";
    "_rowid_" ].

Definition is_keyword (w : string) : bool :=
  existsb (String.eqb (lower w)) keywords.

Definition all_chars (p : ascii -> bool) (s : string) : bool :=
  forallb p (list_ascii_of_string s).

(** A word that the engine takes as the name of a table, of a column or
    of a type: letters, digits and underscores, not starting with a
    digit, and not a keyword. *)
Definition sql_name (w : string) : bool :=
  match w with
  | EmptyString => false
  | String c _ => negb (is_digit c) && all_chars ident_char w && negb (is_keyword w)
  end.

(** [kw k w]: the word [w] is the keyword [k] (given in lower case). *)
Definition kw (k w : string) : bool := String.eqb (lower w) k.

(** Names are compared without regard to the case of ASCII letters. *)
Definition name_eqb (a b : string) : bool := String.eqb (lower a) (lower b).

(** *** Statements *)

Record column_def : Type := mk_column
  { col_name : string;
    col_type : string;
    col_pk : bool;
    col_auto : bool }.

Inductive stmt : Type :=
| CreateTable (name : string) (cols : list column_def)
| Insert (name : string) (cols : list string) (nvalues : nat)
| Select (name : string) (conds : list string).

Definition is_comma (t : token) : bool :=
  match t with TComma => true | _ => false end.

Definition is_and (t : token) : bool :=
  match t with TWord w => kw "and" w | _ => false end.

Definition is_rparen (t : token) : bool :=
  match t with TRParen => true | _ => false end.

(** The segments of [ts] between the separators; like [str.split], the
    result has one segment more than there are separators. *)
Fixpoint split_on (sep : token -> bool) (ts : list token) : list (list token) :=
  match ts with
  | [] => [[]]
  | t :: ts' =>
      if sep t then [] :: split_on sep ts'
      else match split_on sep ts' with
           | seg :: segs => (t :: seg) :: segs
           | [] => [[t]]
           end
  end.

(** [unsnoc l = Some (l', x)] when [l = l' ++ [x]]. *)
Fixpoint unsnoc {A} (l : list A) : option (list A * A) :=
  match l with
  | [] => None
  | x :: l' =>
      match unsnoc l' with
      | None => Some ([], x)
      | Some (l'', y) => Some (x :: l'', y)
      end
  end.

(** [name TYPE], [name TYPE PRIMARY KEY] or
    [name TYPE PRIMARY KEY AUTOINCREMENT]. *)
Definition parse_column (ts : list token) : option column_def :=
  match ts with
  | [TWord n; TWord ty] =>
      if sql_name n && sql_name ty then Some (mk_column n ty false false)
      else None
  | [TWord n; TWord ty; TWord p; TWord k] =>
      if sql_name n && sql_name ty && kw "primary" p && kw "key" k
      then Some (mk_column n ty true false) else None
  | [TWord n; TWord ty; TWord p; TWord k; TWord a] =>
      if sql_name n && sql_name ty && kw "primary" p && kw "key" k
         && kw "autoincrement" a
      then Some (mk_column n ty true true) else None
  | _ => None
  end.

Definition parse_name (ts : list token) : option string :=
  match ts with
  | [TWord n] => if sql_name n then Some n else None
  | _ => None
  end.

Definition parse_placeholder (ts : list token) : option unit :=
  match ts with
  | [TQMark] => Some tt
  | _ => None
  end.

(** [column = ?] *)
Definition parse_condition (ts : list token) : option string :=
  match ts with
  | [TWord n; TEq; TQMark] => if sql_name n then Some n else None
  | _ => None
  end.

(** After CREATE: [TABLE IF NOT EXISTS name ( column, .. )]. *)
Definition parse_create (ts : list token) : option stmt :=
  match ts with
  | TWord t :: TWord i :: TWord n :: TWord e :: TWord name :: TLParen :: rest =>
      if kw "table" t && kw "if" i && kw "not" n && kw "exists" e
         && sql_name name
      then match unsnoc rest with
           | Some (body, TRParen) =>
               cols ← mapM parse_column (split_on is_comma body);
               Some (CreateTable name cols)
           | _ => None
           end
      else None
  | _ => None
  end.

(** The tokens before the first closing parenthesis, and those after it. *)
Fixpoint until_rparen (ts : list token) : option (list token * list token) :=
  match ts with
  | [] => None
  | TRParen :: ts' => Some ([], ts')
  | t :: ts' =>
      match until_rparen ts' with
      | Some (a, b) => Some (t :: a, b)
      | None => None
      end
  end.

(** After INSERT: [INTO name ( column, .. ) VALUES ( ?, .. )]. *)
Definition parse_insert (ts : list token) : option stmt :=
  match ts with
  | TWord i :: TWord name :: TLParen :: rest =>
      if kw "into" i && sql_name name
      then match until_rparen rest with
           | Some (colts, TWord v :: TLParen :: rest') =>
               if kw "values" v
               then match unsnoc rest' with
                    | Some (qs, TRParen) =>
                        cols ← mapM parse_name (split_on is_comma colts);
                        ps ← mapM parse_placeholder (split_on is_comma qs);
                        Some (Insert name cols (length ps))
                    | _ => None
                    end
               else None
           | _ => None
           end
      else None
  | _ => None
  end.

(** After SELECT: [* FROM name] or [* FROM name WHERE c = ? AND ..]. *)
Definition parse_select (ts : list token) : option stmt :=
  match ts with
  | TStar :: TWord f :: TWord name :: rest =>
      if kw "from" f && sql_name name
      then match rest with
           | [] => Some (Select name [])
           | TWord w :: conds =>
               if kw "where" w
               then cs ← mapM parse_condition (split_on is_and conds);
                    Some (Select name cs)
               else None
           | _ => None
           end
      else None
  | _ => None
  end.

Definition parse (ts : list token) : option stmt :=
  match ts with
  | TWord w :: rest =>
      if kw "create" w then parse_create rest
      else if kw "insert" w then parse_insert rest
      else if kw "select" w then parse_select rest
      else None
  | _ => None
  end.

(** [prepare sql]: the statement that the text denotes, if it belongs to
    the fragment. *)
Definition prepare (sql : string) : option stmt :=
  ts ← tokenize sql; parse ts.

(** *** Tables and rows *)

Inductive affinity : Type := AffInteger | AffText | AffReal.

(** The column affinity of a declared type; only the three type names
    that the program uses are covered. *)
Definition affinity_of (ty : string) : option affinity :=
  if kw "integer" ty then Some AffInteger
  else if kw "text" ty then Some AffText
  else if kw "real" ty then Some AffReal
  else None.

(** A row is kept with its rowid; the rows of a table are kept in the
    order of their rowids, which is the order in which a scan of the
    table returns them. *)
Definition row : Type := (Z * list value)%type.

Record table : Type := mk_table
  { columns : list column_def;
    rows : list row }.

(** The tables of a database file, by lower-cased name. *)
Abbreviation database := (gmap string table).

(** A value that the column stores as it is: NULL, or a value of the
    storage class of the column.  Other combinations are coerced by
    SQLite and are outside the model. *)
Definition fits (a : affinity) (v : value) : bool :=
  match v, a with
  | Null, _ => true
  | Integer _, AffInteger => true
  | Text _, AffText => true
  | Real _, AffReal => true
  | _, _ => false
  end.

Definition fits_column (c : column_def) (v : value) : bool :=
  match affinity_of (col_type c) with
  | Some a => fits a v
  | None => false
  end.

(** The comparison [a = b] of SQL, taken as a truth value: NULL is equal
    to nothing, reals compare as IEEE-754 numbers, text byte by byte. *)
Definition eqb (a b : value) : bool :=
  match a, b with
  | Integer x, Integer y => (x =? y)%Z
  | Real x, Real y => SFeqb x y
  | Text x, Text y => String.eqb x y
  | _, _ => false
  end.

Definition int64 (z : Z) : bool := ((- 2 ^ 63 <=? z) && (z <? 2 ^ 63))%Z.

(** Binding of a Python value to a statement parameter. *)
Definition adapt (v : PyValue) : result value :=
  match v with
  | PyNone => Ok Null
  | PyBool b => Ok (Integer (if b then 1 else 0))
  | PyInt z => if int64 z then Ok (Integer z) else Raise OverflowError
  | PyFloat S754_nan => Ok Null
  | PyFloat f => Ok (Real f)
  | PyStr s => Ok (Text s)
  | PyObj _ => Raise ProgrammingError
  end.

(** The Python value of a column of a result row. *)
Definition to_python (v : value) : PyValue :=
  match v with
  | Null => PyNone
  | Integer z => PyInt z
  | Real f => PyFloat f
  | Text s => PyStr s
  end.

Fixpoint adapt_all (vs : list PyValue) : result (list value) :=
  match vs with
  | [] => Ok []
  | v :: vs' =>
      match adapt v with
      | Raise e => Raise e
      | Ok x =>
          match adapt_all vs' with
          | Raise e => Raise e
          | Ok xs => Ok (x :: xs)
          end
      end
  end.

Fixpoint has_dup (l : list string) : bool :=
  match l with
  | [] => false
  | x :: l' => existsb (String.eqb x) l' || has_dup l'
  end.

(** Names starting with [sqlite_] belong to the engine. *)
Definition internal_name (n : string) : bool :=
  String.prefix "sqlite_" (lower n).

(** The primary-key column of a table, with its position. *)
Fixpoint pk_column (cols : list column_def) : option (nat * column_def) :=
  match cols with
  | [] => None
  | c :: cs =>
      if col_pk c then Some (O, c)
      else prod_map S id <$> pk_column cs
  end.

(** An INTEGER PRIMARY KEY column is an alias of the rowid. *)
Definition is_rowid_alias (c : column_def) : bool :=
  col_pk c && kw "integer" (col_type c).

Definition largest_rowid (rs : list row) : option Z :=
  match rs with
  | [] => None
  | r :: rs' => Some (fold_right (fun r m => Z.max (fst r) m) (fst r) rs')
  end.

Definition max_rowid : Z := 2 ^ 63 - 1.

(** The rowid given to a row that does not bring its own.  With
    AUTOINCREMENT the rowid is one more than the largest rowid in use
    (at least 1) and the table is full when that is exhausted; without it
    SQLite falls back to a random search, which is not modelled. *)
Definition next_rowid (auto : bool) (rs : list row) : result Z :=
  match largest_rowid rs with
  | None => Ok 1
  | Some m =>
      if auto then
        if (Z.max 0 m <? max_rowid)%Z then Ok (Z.max 0 m + 1)
        else Raise (OperationalError DatabaseFull)
      else
        if (m <? max_rowid)%Z then Ok (m + 1) else Raise Unmodelled
  end.

Fixpoint insert_row (r : row) (rs : list row) : list row :=
  match rs with
  | [] => [r]
  | r' :: rs' =>
      if (fst r <? fst r')%Z then r :: rs else r' :: insert_row r rs'
  end.

(** The value supplied for the column [n] by an insert that names the
    columns [cols] and brings the values [vals]; NULL when not named. *)
Fixpoint supplied (cols : list string) (vals : list value) (n : string) : value :=
  match cols, vals with
  | c :: cs, v :: vs => if name_eqb c n then v else supplied cs vs n
  | _, _ => Null
  end.

(** *** Execution of a statement *)

Definition create_table (name : string) (cols : list column_def)
    (d : database) : result database :=
  if internal_name name then Raise (OperationalError ReservedName)
  else match d !! lower name with
  | Some _ => Ok d
  | None =>
      if has_dup (map (fun c => lower (col_name c)) cols)
      then Raise (OperationalError DuplicateColumn)
      else if (1 <? length (List.filter col_pk cols))%nat
      then Raise (OperationalError MultiplePrimaryKeys)
      else if existsb (fun c => col_auto c && negb (kw "integer" (col_type c))) cols
      then Raise (OperationalError AutoincrementNotInteger)
      else if forallb (fun c => bool_decide (is_Some (affinity_of (col_type c)))) cols
      then Ok (<[lower name := mk_table cols []]> d)
      else Raise Unmodelled
  end.

(** The row that an insert stores, with its rowid. *)
Definition new_row (t : table) (vals : list value) : result row :=
  match pk_column (columns t) with
  | None => rid ← next_rowid false (rows t); Ok (rid, vals)
  | Some (j, c) =>
      let v := nth j vals Null in
      if is_rowid_alias c then
        match v with
        | Null =>
            rid ← next_rowid (col_auto c) (rows t);
            Ok (rid, <[j := Integer rid]> vals)
        | Integer r =>
            if existsb (fun r' => (fst r' =? r)%Z) (rows t)
            then Raise IntegrityError else Ok (r, vals)
        | _ => Raise Unmodelled
        end
      else
        if existsb (fun r' => eqb (nth j (snd r') Null) v) (rows t)
        then Raise IntegrityError
        else rid ← next_rowid false (rows t); Ok (rid, vals)
  end.

Fixpoint find_column (cols : list column_def) (n : string)
    : option (nat * column_def) :=
  match cols with
  | [] => None
  | c :: cs =>
      if name_eqb (col_name c) n then Some (O, c)
      else prod_map S id <$> find_column cs n
  end.

Definition insert (name : string) (cols : list string) (vals : list value)
    (d : database) : result database :=
  match d !! lower name with
  | None => Raise (OperationalError NoSuchTable)
  | Some t =>
      let stored := map (fun c => supplied cols vals (col_name c)) (columns t) in
      if forallb (fun c => fits_column c (supplied cols vals (col_name c)))
           (columns t)
      then r ← new_row t stored;
           Ok (<[lower name := mk_table (columns t) (insert_row r (rows t))]> d)
      else Raise Unmodelled
  end.

(** [column = value] for every condition. *)
Definition satisfies (t : table) (conds : list string) (vals : list value)
    (r : row) : bool :=
  forallb (fun '(n, v) =>
             match find_column (columns t) n with
             | Some (j, _) => eqb (nth j (snd r) Null) v
             | None => false
             end) (combine conds vals).

Definition select (name : string) (conds : list string) (vals : list value)
    (d : database) : result (list (list value)) :=
  match d !! lower name with
  | None => Raise (OperationalError NoSuchTable)
  | Some t =>
      if forallb (fun '(n, v) =>
                    match find_column (columns t) n with
                    | Some (_, c) => fits_column c v
                    | None => false
                    end) (combine conds vals)
      then Ok (map snd (List.filter (satisfies t conds vals) (rows t)))
      else Raise Unmodelled
  end.

(** Errors found when the statement is compiled against the schema,
    before any parameter is bound. *)
Definition compile (s : stmt) (d : database) : result unit :=
  match s with
  | CreateTable name cols => _ ← create_table name cols d; Ok tt
  | Insert name cols n =>
      if internal_name name then Raise Unmodelled
      else match d !! lower name with
      | None => Raise (OperationalError NoSuchTable)
      | Some t =>
          if negb (forallb (fun c => bool_decide (is_Some (find_column (columns t) c))) cols)
          then Raise (OperationalError NoSuchColumn)
          else if negb (length cols =? n)%nat
          then Raise (OperationalError ValueCount)
          else Ok tt
      end
  | Select name conds =>
      if internal_name name then Raise Unmodelled
      else match d !! lower name with
      | None => Raise (OperationalError NoSuchTable)
      | Some t =>
          if negb (forallb (fun c => bool_decide (is_Some (find_column (columns t) c))) conds)
          then Raise (OperationalError NoSuchColumn)
          else Ok tt
      end
  end.

(** The number of [?] in the statement. *)
Definition placeholders (s : stmt) : nat :=
  match s with
  | CreateTable _ _ => O
  | Insert _ _ n => n
  | Select _ conds => length conds
  end.

Definition step (s : stmt) (vals : list value) (d : database)
    : result (database * list (list value)) :=
  match s with
  | CreateTable name cols => d' ← create_table name cols d; Ok (d', [])
  | Insert name cols _ => d' ← insert name cols vals d; Ok (d', [])
  | Select name conds => rs ← select name conds vals d; Ok (d, rs)
  end.

(** One statement against the database: the text is prepared, compiled
    against the schema, the parameters are bound, and the statement runs.
    A statement that fails leaves the database as it was. *)
Definition run (sql : string) (params : list PyValue) (d : database)
    : result (database * list (list value)) :=
  match prepare sql with
  | None => Raise (OperationalError SyntaxError)
  | Some s =>
      _ ← compile s d;
      if (length params =? placeholders s)%nat
      then vals ← adapt_all params; step s vals d
      else Raise ProgrammingError
  end.

(** *** Connections *)

(** What a connection was asked to do, in order. *)
Inductive event : Type :=
| Execute (sql : string) (params : list PyValue)
| Commit.

(** The state seen through [sqlite3.connect(path)]: the tables of the
    database file at [path], and the log of the calls made on
    connections to it. *)
Record connection : Type := mk_connection
  { tables : database;
    trace : list event }.

(** The rows that a cursor holds, each a tuple of Python values. *)
Definition cursor : Type := list (list PyValue).

End sqlite3.

(** ** Computations on a connection *)

(** The body of a [with sqlite3.connect(path) as conn] block: it may
    change the state of the connection and either returns or raises.
    Statements take effect one at a time and a failed statement changes
    nothing, so the rollback that the block performs when it is left by
    an exception has nothing to undo. *)
Definition M (A : Type) : Type :=
  sqlite3.connection -> result A * sqlite3.connection.

#[export] Instance M_ret : MRet M := fun A a c => (Ok a, c).
#[export] Instance M_bind : MBind M := fun A B f m c =>
  match m c with
  | (Ok a, c') => f a c'
  | (Raise e, c') => (Raise e, c')
  end.

Definition raise {A} (e : exn) : M A := fun c => (Raise e, c).

(** [conn.execute(sql, params)] *)
Definition execute (sql : string) (params : list PyValue) : M sqlite3.cursor :=
  fun c =>
    let log := sqlite3.trace c ++ [sqlite3.Execute sql params] in
    match sqlite3.run sql params (sqlite3.tables c) with
    | Ok (d, rs) =>
        (Ok (map (map sqlite3.to_python) rs), sqlite3.mk_connection d log)
    | Raise e => (Raise e, sqlite3.mk_connection (sqlite3.tables c) log)
    end.

(** [conn.commit()] *)
Definition commit : M unit :=
  fun c =>
    (Ok tt, sqlite3.mk_connection (sqlite3.tables c)
              (sqlite3.trace c ++ [sqlite3.Commit])).

(** [cursor.fetchall()] *)
Definition fetchall (cur : sqlite3.cursor) : list (list PyValue) := cur.

(** ** Fields *)

(** [class OrmField] *)
Record OrmField : Type := mk_OrmField
  { primary_key : bool;
    sql_type : string;
    expected_type : PyType }.

(** [class OrmInteger(OrmField)] *)
Definition OrmInteger (primary_key : bool) : OrmField :=
  mk_OrmField primary_key "INTEGER" Tint.

(** [class OrmText(OrmField)] *)
Definition OrmText (primary_key : bool) : OrmField :=
  mk_OrmField primary_key "TEXT" Tstr.

(** [class OrmFloat(OrmField)] *)
Definition OrmFloat (primary_key : bool) : OrmField :=
  mk_OrmField primary_key "REAL" Tfloat.

(** ** Record types *)

(** A value bound in the body of a class statement: a field, or anything
    else (a method, a constant such as [_db_path]). *)
Inductive attribute : Type :=
| Field (f : OrmField)
| Other (v : PyValue).

(** A class created by [OrmModelMeta], with the attributes that the
    metaclass sets on it. *)
Record class : Type := mk_class
  { __name__ : string;
    _fields : dict OrmField;
    _table_name : string }.

(** Truth value of a variable that holds [None] or a string. *)
Definition truthy (s : option string) : bool :=
  match s with
  | Some (String _ _) => true
  | _ => false
  end.

Module OrmModelMeta.

(** The column clause of one field, as the loop of [_create_table]
    builds it. *)
Definition field_definition (field_name : string) (field : OrmField) : string :=
  let field_definition := field_name +:+ " " +:+ sql_type field in
  if primary_key field then
    if String.eqb (sql_type field) "INTEGER"
    then field_definition +:+ " PRIMARY KEY AUTOINCREMENT"
    else field_definition +:+ " PRIMARY KEY"
  else field_definition.

(** The loop of [_create_table] over [cls._fields.items()], from the
    state [(pk, fields)] of the variables [primary_key] and [fields]. *)
Fixpoint scan (items : dict OrmField) (pk : option string) (fields : list string)
    : option string * list string :=
  match items with
  | [] => (pk, fields)
  | (field_name, field) :: items' =>
      scan items'
        (if primary_key field then Some field_name else pk)
        (fields ++ [field_definition field_name field])
  end.

(** The list [fields] when the statement is built. *)
Definition column_clauses (cls : class) : list string :=
  let '(pk, fields) := scan (_fields cls) None [] in
  if negb (truthy pk)
  then "id INTEGER PRIMARY KEY AUTOINCREMENT" :: fields
  else fields.

Definition create_table_sql (cls : class) : string :=
  let fields_sql := join ", " (column_clauses cls) in
  "CREATE TABLE IF NOT EXISTS " +:+ _table_name cls +:+ " (" +:+ fields_sql +:+ ")".

(** [OrmModelMeta._create_table(cls)] *)
Definition _create_table (cls : class) : M unit :=
  _ ← execute (create_table_sql cls) [];
  commit.

(** [{k: v for k, v in dct.items() if isinstance(v, OrmField)}] *)
Fixpoint own_fields (dct : dict attribute) : dict OrmField :=
  match dct with
  | [] => []
  | (k, Field f) :: dct' => (k, f) :: own_fields dct'
  | (_, Other _) :: dct' => own_fields dct'
  end.

(** [OrmModelMeta.__new__(mcs, name, bases, dct)]: the class with its
    [_fields] and [_table_name], after the creation of its table unless
    its name is [OrmModel].  The metaclass and the bases do not enter the
    computation and are left out. *)
Definition __new__ (name : string) (dct : dict attribute) : M class :=
  let cls := mk_class name (own_fields dct) (lower name) in
  if negb (String.eqb name "OrmModel")
  then _ ← _create_table cls; mret cls
  else mret cls.

End OrmModelMeta.

(** ** Record instances *)

(** An instance of a record type, with the attributes set on it. *)
Record instance : Type := mk_instance
  { __class__ : class;
    __dict__ : gmap string PyValue }.

(** [setattr(self, name, v)] *)
Definition setattr (self : instance) (name : string) (v : PyValue) : instance :=
  mk_instance (__class__ self) (<[name := v]> (__dict__ self)).

(** [getattr(self, name)]: the attribute of the instance; failing that,
    the attribute of the class, which for a field name is the field
    object. *)
Definition getattr (self : instance) (name : string) : PyValue :=
  match __dict__ self !! name with
  | Some v => v
  | None => PyObj "OrmField"
  end.

(** [kwargs.get(name)] *)
Definition kwargs_get (kwargs : dict PyValue) (name : string) : PyValue :=
  match dict_get kwargs name with
  | Some v => v
  | None => PyNone
  end.

Module OrmModel.

(** [OrmModel.__init__(self, **kwargs)] *)
Definition __init__ (cls : class) (kwargs : dict PyValue) : instance :=
  fold_left (fun self field_name =>
               setattr self field_name (kwargs_get kwargs field_name))
    (keys (_fields cls)) (mk_instance cls ∅).

(** The text of the [TypeError] raised by [save]. *)
Definition type_error (field_name : string) (field : OrmField)
    (field_value : PyValue) : string :=
  "Поле '" +:+ field_name +:+ "' должно " +:+
  "соответствовать типу " +:+ type_repr (expected_type field) +:+ ", " +:+
  "получен " +:+ type_repr (type field_value) +:+ ".".

(** The loop of [save] over [self._fields], from the state
    [fields_to_insert]; [field] is [self._fields[field_name]]. *)
Fixpoint collect (self : instance) (items : dict OrmField)
    (fields_to_insert : dict PyValue) : result (dict PyValue) :=
  match items with
  | [] => Ok fields_to_insert
  | (field_name, field) :: items' =>
      let field_value := getattr self field_name in
      if negb (primary_key field)
         && negb (isinstance field_value (expected_type field))
      then Raise (TypeError (type_error field_name field field_value))
      else collect self items' (dict_set fields_to_insert field_name field_value)
  end.

Definition insert_sql (table_name : string) (fields_to_insert : dict PyValue)
    : string :=
  let columns := join ", " (keys fields_to_insert) in
  let placeholders := join ", " (repeat "?" (length fields_to_insert)) in
  "INSERT INTO " +:+ table_name +:+ " (" +:+ columns +:+ ")" +:+
  "VALUES (" +:+ placeholders +:+ ")".

(** [OrmModel.save(self)] *)
Definition save (self : instance) : M unit :=
  let cls := __class__ self in
  match collect self (_fields cls) [] with
  | Raise e => raise e
  | Ok fields_to_insert =>
      let sql := insert_sql (_table_name cls) fields_to_insert in
      _ ← execute sql (values fields_to_insert);
      commit
  end.

Definition select_sql (table_name : string) : string :=
  "SELECT * FROM " +:+ table_name.

(** [OrmModel.all(cls)] *)
Definition all (cls : class) : M (list (list PyValue)) :=
  cur ← execute (select_sql (_table_name cls)) [];
  mret (fetchall cur).

Definition filter_sql (table_name : string) (kwargs : dict PyValue) : string :=
  let conditions := join " AND " (map (fun k => k +:+ " = ?") (keys kwargs)) in
  "SELECT * FROM " +:+ table_name +:+ " WHERE " +:+ conditions.

(** [OrmModel.filter(cls, **kwargs)] *)
Definition filter (cls : class) (kwargs : dict PyValue) : M (list (list PyValue)) :=
  cur ← execute (filter_sql (_table_name cls) kwargs) (values kwargs);
  mret (fetchall cur).

End OrmModel.

(** ** Schemas and expected tables *)

(** The statements that a connection was asked to execute, in order. *)
Definition statements (c : sqlite3.connection) : list (string * list PyValue) :=
  flat_map (fun e => match e with
                     | sqlite3.Execute sql params => [(sql, params)]
                     | sqlite3.Commit => []
                     end) (sqlite3.trace c).

(** The table that backs a record type, if the database has it. *)
Definition table_of (cls : class) (c : sqlite3.connection) : option sqlite3.table :=
  sqlite3.tables c !! lower (_table_name cls).

(** A field made by one of the three field classes. *)
Definition declared (f : OrmField) : bool :=
  match expected_type f with
  | Tint => String.eqb (sql_type f) "INTEGER"
  | Tstr => String.eqb (sql_type f) "TEXT"
  | Tfloat => String.eqb (sql_type f) "REAL"
  | _ => false
  end.

(** A non-primary-key field whose current value fails the check of [save]. *)
Definition mismatch (self : instance) (item : string * OrmField) : bool :=
  negb (primary_key (snd item))
  && negb (isinstance (getattr self (fst item)) (expected_type (snd item))).

(** ** The text of a statement as words and delimiters *)

(** The statements that the program builds are sequences of words and
    single delimiter characters; this is the form in which their tokens
    are read off. *)
Inductive piece : Type :=
| Word (w : string)
| Delim (c : ascii).

Definition render_piece (p : piece) : string :=
  match p with
  | Word w => w
  | Delim c => String c EmptyString
  end.

Fixpoint render (ps : list piece) : string :=
  match ps with
  | [] => EmptyString
  | p :: ps' => render_piece p +:+ render ps'
  end.

Definition is_word (w : string) : bool :=
  match w with
  | EmptyString => false
  | _ => sqlite3.all_chars sqlite3.ident_char w
  end.

(** Words are made of word characters and no two words are adjacent. *)
Fixpoint spaced (ps : list piece) : bool :=
  match ps with
  | [] => true
  | Word w :: ps' =>
      is_word w
      && match ps' with Word _ :: _ => false | _ => true end
      && spaced ps'
  | Delim c :: ps' =>
      match sqlite3.delimiter c with Some _ => spaced ps' | None => false end
  end.

Fixpoint piece_tokens (ps : list piece) : list sqlite3.token :=
  match ps with
  | [] => []
  | Word w :: ps' => sqlite3.TWord w :: piece_tokens ps'
  | Delim c :: ps' =>
      match sqlite3.delimiter c with
      | Some d => sqlite3.emit d (piece_tokens ps')
      | None => piece_tokens ps'
      end
  end.

(** [sep.join], on lists of pieces and on lists of tokens. *)
Fixpoint join_lists {A} (sep : list A) (ls : list (list A)) : list A :=
  match ls with
  | [] => []
  | [l] => l
  | l :: ls' => l ++ sep ++ join_lists sep ls'
  end.

(** ** The statements of the program as pieces *)

Definition sp : piece := Delim " ".

Definition comma : list piece := [Delim ","; sp].

Definition has_primary_key (cls : class) : bool :=
  existsb (fun item => primary_key (snd item)) (_fields cls).

Definition clause_pieces (item : string * OrmField) : list piece :=
  [Word (fst item); sp; Word (sql_type (snd item))]
  ++ (if primary_key (snd item) then
        if String.eqb (sql_type (snd item)) "INTEGER"
        then [sp; Word "PRIMARY"; sp; Word "KEY"; sp; Word "AUTOINCREMENT"]
        else [sp; Word "PRIMARY"; sp; Word "KEY"]
      else []).

Definition id_pieces : list piece :=
  [Word "id"; sp; Word "INTEGER"; sp; Word "PRIMARY"; sp; Word "KEY"; sp;
   Word "AUTOINCREMENT"].

Definition clauses (cls : class) : list (list piece) :=
  (if has_primary_key cls then [] else [id_pieces])
  ++ map clause_pieces (_fields cls).

Definition create_pieces (cls : class) : list piece :=
  Word "CREATE" :: sp :: Word "TABLE" :: sp :: Word "IF" :: sp :: Word "NOT"
  :: sp :: Word "EXISTS" :: sp :: Word (_table_name cls) :: sp :: Delim "("
  :: join_lists comma (clauses cls) ++ [Delim ")"].

Definition insert_pieces (table_name : string) (cols : list string) : list piece :=
  Word "INSERT" :: sp :: Word "INTO" :: sp :: Word table_name :: sp :: Delim "("
  :: join_lists comma (map (fun n => [Word n]) cols)
  ++ Delim ")" :: Word "VALUES" :: sp :: Delim "("
  :: join_lists comma (repeat [Delim "?"] (length cols)) ++ [Delim ")"].

Definition select_pieces (table_name : string) : list piece :=
  [Word "SELECT"; sp; Delim "*"; sp; Word "FROM"; sp; Word table_name].

Definition filter_pieces (table_name : string) (cols : list string) : list piece :=
  select_pieces table_name ++ sp :: Word "WHERE" :: sp
  :: join_lists [sp; Word "AND"; sp]
       (map (fun n => [Word n; sp; Delim "="; sp; Delim "?"]) cols).

(** ** Schemas *)

(** The column that a field declares. *)
Definition field_column (item : string * OrmField) : sqlite3.column_def :=
  sqlite3.mk_column (fst item) (sql_type (snd item)) (primary_key (snd item))
    (primary_key (snd item) && String.eqb (sql_type (snd item)) "INTEGER").

Definition id_column : sqlite3.column_def :=
  sqlite3.mk_column "id" "INTEGER" true true.

(** The columns of the table of a record type: one per declared field,
    after the synthesized [id] when no field is marked primary key. *)
Definition table_columns (cls : class) : list sqlite3.column_def :=
  (if has_primary_key cls then [] else [id_column])
  ++ map field_column (_fields cls).

(** A record type that the database accepts: the table name and the
    field names are names of SQL and not reserved, the fields are made by
    the three field classes, the columns have distinct names, and at most
    one field is marked primary key. *)
Definition schema_ok (cls : class) : bool :=
  sqlite3.sql_name (_table_name cls)
  && negb (sqlite3.internal_name (_table_name cls))
  && forallb (fun item => sqlite3.sql_name (fst item) && declared (snd item))
       (_fields cls)
  && negb (sqlite3.has_dup
             (map (fun c => lower (sqlite3.col_name c)) (table_columns cls)))
  && (length (List.filter (fun item => primary_key (snd item)) (_fields cls))
      <=? 1)%nat.

(** ** Example record types *)

(** The scenario of the specification: fields name, age and score, no
    primary key. *)
Definition person_dct : dict attribute :=
  [("name", Field (OrmText false)); ("age", Field (OrmInteger false));
   ("score", Field (OrmFloat false))].

Definition Person : class :=
  mk_class "Person" (OrmModelMeta.own_fields person_dct) "person".

(** The example of the source: an INTEGER primary key and three fields. *)
Definition some_table_dct : dict attribute :=
  [("pk", Field (OrmInteger true)); ("field_1", Field (OrmText false));
   ("field_2", Field (OrmInteger false)); ("field_3", Field (OrmFloat false))].

Definition SomeTable : class :=
  mk_class "SomeTable" (OrmModelMeta.own_fields some_table_dct) "sometable".

(** A record type with a TEXT primary key. *)
Definition tag_dct : dict attribute :=
  [("code", Field (OrmText true)); ("label", Field (OrmText false))].

Definition Tag : class :=
  mk_class "Tag" (OrmModelMeta.own_fields tag_dct) "tag".


(** A connection to a database file that does not exist yet. *)
Definition new_file : sqlite3.connection := sqlite3.mk_connection ∅ [].

(** 4.5 and 3.0 *)
Definition f4_5 : spec_float := S754_finite false 9 (-1).
Definition f3_0 : spec_float := S754_finite false 3 0.

(** Instances used in the examples. *)
Definition ann : instance :=
  OrmModel.__init__ Person
    [("name", PyStr "Ann"); ("age", PyInt 30); ("score", PyFloat f4_5)].

Definition bo : instance :=
  OrmModel.__init__ Person
    [("name", PyStr "Bo"); ("age", PyInt 25); ("score", PyFloat f3_0)].

(** The age is text, the score is missing. *)
Definition ill_typed : instance :=
  OrmModel.__init__ Person [("name", PyStr "Ann"); ("age", PyStr "thirty")].


(** The database after the declaration of [Person]. *)
Definition person_db : sqlite3.connection :=
  snd (OrmModelMeta.__new__ "Person" person_dct new_file).

(** ** Rows expected from [save] *)

(** The storage value that the driver binds for a Python value. *)
Definition value_of (v : PyValue) : sqlite3.value :=
  match v with
  | PyNone => sqlite3.Null
  | PyBool b => sqlite3.Integer (if b then 1 else 0)
  | PyInt z => sqlite3.Integer z
  | PyFloat S754_nan => sqlite3.Null
  | PyFloat f => sqlite3.Real f
  | PyStr s => sqlite3.Text s
  | PyObj _ => sqlite3.Null
  end.

(** A value that the driver can bind: not an integer outside 64 bits,
    not an object of a class unknown to the driver. *)
Definition bindable (v : PyValue) : bool :=
  match sqlite3.adapt v with
  | Ok _ => true
  | Raise _ => false
  end.

Definition is_null (x : sqlite3.value) : bool :=
  match x with
  | sqlite3.Null => true
  | _ => false
  end.

(** The current values of the fields of an instance, in declaration
    order. *)
Definition current_values (self : instance) : list PyValue :=
  map (fun item => getattr self (fst item)) (_fields (__class__ self)).

(** What the column of a field holds in the row that [save] adds with
    rowid [rid]: the value supplied, as bound by the driver; for an
    INTEGER primary key supplied as null, the key assigned by the
    database, which is the rowid. *)
Definition stored_value (rid : Z) (item : string * OrmField) (v : PyValue)
    : sqlite3.value :=
  if primary_key (snd item) && String.eqb (sql_type (snd item)) "INTEGER"
     && is_null (value_of v)
  then sqlite3.Integer rid
  else value_of v.

(** The row that [save] adds: the columns of the fields in declaration
    order, after the assigned [id] when no field is marked primary key. *)
Definition expected_row (self : instance) (rid : Z) : list sqlite3.value :=
  (if has_primary_key (__class__ self) then [] else [sqlite3.Integer rid])
  ++ map (fun item => stored_value rid item (getattr self (fst item)))
       (_fields (__class__ self)).

(** The primary key [x] is already the key of a row of the table. *)
Definition key_taken (t : sqlite3.table) (x : sqlite3.value) : bool :=
  match sqlite3.pk_column (sqlite3.columns t) with
  | Some (j, col) =>
      if sqlite3.is_rowid_alias col then
        match x with
        | sqlite3.Integer r =>
            existsb (fun r' => (fst r' =? r)%Z) (sqlite3.rows t)
        | _ => false
        end
      else existsb (fun r' => sqlite3.eqb (nth j (snd r') sqlite3.Null) x)
             (sqlite3.rows t)
  | None => false
  end.

(** The null that the insert stores in the synthesized [id] column before
    the database assigns the key. *)
Definition pad_null (cls : class) : list sqlite3.value :=
  if has_primary_key cls then [] else [sqlite3.Null].

(** The dictionary [fields_to_insert] that [save] builds when every
    field passes the check. *)
Definition fields_to_insert (self : instance) : dict PyValue :=
  map (fun item => (fst item, getattr self (fst item))) (_fields (__class__ self)).

(** The outcome of [save] once the fields have passed the check, in
    terms of the engine: the parameters are bound and the row is
    inserted. *)
Definition insert_outcome (self : instance) (c : sqlite3.connection)
    : result (gmap string sqlite3.table) :=
  vals ← sqlite3.adapt_all (current_values self);
  sqlite3.insert (_table_name (__class__ self))
    (keys (_fields (__class__ self))) vals (sqlite3.tables c).

(** More examples: the database after the declaration of [SomeTable], of
    [Tag] and of [Empty], and instances with an explicit key. *)
Definition some_table_db : sqlite3.connection :=
  snd (OrmModelMeta.__new__ "SomeTable" some_table_dct new_file).

Definition tag_db : sqlite3.connection :=
  snd (OrmModelMeta.__new__ "Tag" tag_dct new_file).


(** An integer that does not fit in 64 bits. *)
Definition large_record : instance :=
  OrmModel.__init__ SomeTable
    [("field_1", PyStr "text"); ("field_2", PyInt (2 ^ 63));
     ("field_3", PyFloat f3_0)].

Definition keyed_record : instance :=
  OrmModel.__init__ SomeTable
    [("pk", PyInt 1); ("field_1", PyStr "text"); ("field_2", PyInt 42);
     ("field_3", PyFloat f3_0)].

(** The check of [save] passes: every field is marked primary key or
    holds an instance of its expected type. *)
Definition well_typed (self : instance) : bool :=
  forallb (fun item => primary_key (snd item)
                       || isinstance (getattr self (fst item))
                            (expected_type (snd item)))
    (_fields (__class__ self)).

(** ** Reading rows *)

(** The tuple that [all] and [filter] return for a stored row. *)
Definition tuple_of (r : sqlite3.row) : list PyValue :=
  map sqlite3.to_python (snd r).

(** [for self in selfs: self.save()] *)
Fixpoint save_all (selfs : list instance) : M unit :=
  match selfs with
  | [] => mret tt
  | self :: rest => _ ← OrmModel.save self; save_all rest
  end.


(** The comparison of one criterion of [filter] against a stored row:
    the column named [k] is equal, in the sense of SQL, to the value [v]
    as the driver binds it. *)
Definition criterion_holds (t : sqlite3.table) (r : sqlite3.row)
    (kv : string * PyValue) : bool :=
  match sqlite3.find_column (sqlite3.columns t) (fst kv) with
  | Some (j, _) => sqlite3.eqb (nth j (snd r) sqlite3.Null) (value_of (snd kv))
  | None => false
  end.

(** A criterion that the engine model covers: the key is a name of SQL
    and a column of the table, and the value can be bound and is null or
    of the storage class of the column. *)
Definition criterion_ok (t : sqlite3.table) (kv : string * PyValue) : bool :=
  sqlite3.sql_name (fst kv) && bindable (snd kv)
  && match sqlite3.find_column (sqlite3.columns t) (fst kv) with
     | Some (_, col) => sqlite3.fits_column col (value_of (snd kv))
     | None => false
     end.

(** The database after [Tag(label='a').save()]: the key is null. *)
Definition tag_saved : sqlite3.connection :=
  snd (OrmModel.save (OrmModel.__init__ Tag [("label", PyStr "a")]) tag_db).

(** The database of the scenario: Ann and Bo saved. *)
Definition people_db : sqlite3.connection := snd (save_all [ann; bo] person_db).

(** A text that does not start with a word character closes the word
    read so far. *)
Definition closes (s : string) : Prop :=
  match s with
  | EmptyString => True
  | String c _ => sqlite3.ident_char c = false
  end.

(** The field is marked primary key. *)
Definition is_pk (item : string * OrmField) : bool := primary_key (snd item).

(** ** More examples, and records as they are read back *)

(** [Person] declared again with one more field. *)
Definition person_v2_dct : dict attribute :=
  person_dct ++ [("email", Field (OrmText false))].

Definition Person_v2 : class :=
  mk_class "Person" (OrmModelMeta.own_fields person_v2_dct) "person".

(** Two fields marked primary key. *)
Definition two_keys_dct : dict attribute :=
  [("a", Field (OrmInteger true)); ("b", Field (OrmText true))].

(** A field named [id] and no primary key. *)
Definition id_field_dct : dict attribute :=
  [("id", Field (OrmInteger false)); ("name", Field (OrmText false))].

(** The base class, as [OrmModelMeta.__new__] makes it. *)
Definition OrmModel_class : class := mk_class "OrmModel" [] "ormmodel".

(** An instance of the second declaration of [Person]. *)
Definition ann_v2 : instance :=
  OrmModel.__init__ Person_v2
    [("name", PyStr "Ann"); ("age", PyInt 30); ("score", PyFloat f4_5);
     ("email", PyStr "ann@example.org")].

(** The Python value read from a column that stores [v]. *)
Definition read_back (v : PyValue) : PyValue := sqlite3.to_python (value_of v).


(** The elements of a list with their positions, counted from 1. *)
Definition numbered {A} (l : list A) : list (A * Z) :=
  combine l (map Z.of_nat (seq 1 (length l))).

(** The tuple read for an instance saved under the synthesized key [i]. *)
Definition record_of (p : instance * Z) : list PyValue :=
  PyInt (snd p) :: map read_back (current_values (fst p)).

(** The row stored for an instance saved under the synthesized key [i]. *)
Definition keyed_row (p : instance * Z) : sqlite3.row :=
  (snd p, sqlite3.Integer (snd p) :: map value_of (current_values (fst p))).

(** ** Validation in [save] *)

Section Validation.

Variable self : instance.

Lemma collect_raises pre n f post acc :
  forallb (fun item => negb (mismatch self item)) pre = true ->
  mismatch self (n, f) = true ->
  OrmModel.collect self (pre ++ (n, f) :: post) acc
  = Raise (TypeError (OrmModel.type_error n f (getattr self n))).
Proof.
  revert acc. induction pre as [|[m g] pre IH]; intros acc Hpre Hbad.
  - simpl. unfold mismatch in Hbad. simpl in Hbad. now rewrite Hbad.
  - simpl in Hpre. apply andb_prop in Hpre as [Hm Hpre].
    simpl. unfold mismatch in Hm. simpl in Hm.
    apply negb_true_iff in Hm. rewrite Hm. now apply IH.
Qed.


(** The items before the first one that satisfies [p]. *)
Lemma first_split {A} (p : A -> bool) (l : list A) :
  existsb p l = true ->
  exists pre x post,
    l = pre ++ x :: post /\ forallb (fun y => negb (p y)) pre = true /\ p x = true.
Proof.
  induction l as [|a l IH]; simpl; [discriminate|].
  destruct (p a) eqn:Ha; intros H.
  - now exists [], a, l.
  - destruct (IH H) as (pre & x & post & -> & Hpre & Hx).
    exists (a :: pre), x, post. simpl. rewrite Ha. now repeat split.
Qed.

Lemma save_raises c pre n f post :
  _fields (__class__ self) = pre ++ (n, f) :: post ->
  forallb (fun item => negb (mismatch self item)) pre = true ->
  mismatch self (n, f) = true ->
  OrmModel.save self c
  = (Raise (TypeError (OrmModel.type_error n f (getattr self n))), c).
Proof.
  intros Hf Hpre Hbad. unfold OrmModel.save. rewrite Hf.
  now rewrite (collect_raises _ _ _ _ _ Hpre Hbad).
Qed.

End Validation.

(** ** Connections: the statements of [execute] and [commit] *)

Lemma statements_app (c : sqlite3.connection) d es :
  statements (sqlite3.mk_connection d (sqlite3.trace c ++ es))
  = statements c ++ statements (sqlite3.mk_connection d es).
Proof. unfold statements. simpl. now rewrite flat_map_app. Qed.


(** ** Instances built by [__init__] *)

Lemma init_fold kwargs names self0 :
  __class__ (fold_left (fun self field_name =>
                setattr self field_name (kwargs_get kwargs field_name))
                names self0) = __class__ self0
  /\ forall n, __dict__ (fold_left (fun self field_name =>
                setattr self field_name (kwargs_get kwargs field_name))
                names self0) !! n
       = if bool_decide (n ∈ names) then Some (kwargs_get kwargs n)
         else __dict__ self0 !! n.
Proof.
  revert self0. induction names as [|m names IH]; intros self0; simpl.
  - split; [reflexivity|]. intros n. reflexivity.
  - destruct (IH (setattr self0 m (kwargs_get kwargs m))) as [Hc Hd].
    split; [now rewrite Hc|]. intros n. rewrite Hd. simpl.
    destruct (decide (n ∈ names)) as [Hin|Hin].
    + rewrite !bool_decide_eq_true_2; [reflexivity| |assumption].
      apply elem_of_cons. now right.
    + rewrite (bool_decide_eq_false_2 _ Hin).
      destruct (decide (m = n)) as [->|Hne].
      * rewrite lookup_insert_eq. rewrite bool_decide_eq_true_2; [reflexivity|].
        apply elem_of_cons. now left.
      * rewrite lookup_insert_ne by assumption.
        rewrite bool_decide_eq_false_2; [reflexivity|].
        intros H. apply elem_of_cons in H as [->|H]; tauto.
Qed.

Lemma init_class cls kwargs : __class__ (OrmModel.__init__ cls kwargs) = cls.
Proof.
  unfold OrmModel.__init__.
  now destruct (init_fold kwargs (keys (_fields cls)) (mk_instance cls ∅)).
Qed.

Lemma getattr_init cls kwargs n :
  In n (keys (_fields cls)) ->
  getattr (OrmModel.__init__ cls kwargs) n = kwargs_get kwargs n.
Proof.
  intros Hin. unfold getattr, OrmModel.__init__.
  destruct (init_fold kwargs (keys (_fields cls)) (mk_instance cls ∅)) as [_ Hd].
  rewrite Hd. rewrite bool_decide_eq_true_2; [reflexivity|].
  now apply list_elem_of_In.
Qed.

(** ** The column clauses of [_create_table] *)

Lemma scan_fields items pk acc :
  snd (OrmModelMeta.scan items pk acc)
  = acc ++ map (fun item => OrmModelMeta.field_definition (fst item) (snd item)) items.
Proof.
  revert pk acc. induction items as [|[n f] items IH]; intros pk acc; simpl.
  - now rewrite app_nil_r.
  - rewrite IH. now rewrite <- app_assoc.
Qed.

Lemma scan_primary_key items pk acc :
  Forall (fun item => fst item <> EmptyString) items ->
  truthy (fst (OrmModelMeta.scan items pk acc))
  = truthy pk || existsb (fun item => primary_key (snd item)) items.
Proof.
  revert pk acc. induction items as [|[n f] items IH]; intros pk acc Hne; simpl.
  - now rewrite orb_false_r.
  - inversion Hne as [|? ? Hn Hrest]; subst. rewrite (IH _ _ Hrest). simpl in Hn.
    destruct (primary_key f); simpl; [|reflexivity].
    destruct n; [contradiction|]. simpl. now rewrite orb_true_r.
Qed.

Lemma column_clauses_spec cls :
  Forall (fun item => fst item <> EmptyString) (_fields cls) ->
  OrmModelMeta.column_clauses cls
  = (if existsb (fun item => primary_key (snd item)) (_fields cls) then []
     else ["id INTEGER PRIMARY KEY AUTOINCREMENT"])
    ++ map (fun item => OrmModelMeta.field_definition (fst item) (snd item))
         (_fields cls).
Proof.
  intros Hne. unfold OrmModelMeta.column_clauses.
  pose proof (scan_fields (_fields cls) None []) as Hs.
  pose proof (scan_primary_key (_fields cls) None [] Hne) as Hp.
  destruct (OrmModelMeta.scan (_fields cls) None []) as [pk fields].
  simpl in Hs, Hp. subst fields. rewrite Hp.
  now destruct (existsb _ (_fields cls)).
Qed.

(** ** Strings *)

Lemma append_cons a s t : String a s +:+ t = String a (s +:+ t).
Proof. reflexivity. Qed.

Lemma append_nil_l s : EmptyString +:+ s = s.
Proof. reflexivity. Qed.

Lemma append_nil_r s : s +:+ EmptyString = s.
Proof. induction s as [|a s IH]; [reflexivity|]. now rewrite append_cons, IH. Qed.

Lemma append_assoc s t u : (s +:+ t) +:+ u = s +:+ t +:+ u.
Proof.
  induction s as [|a s IH]; [reflexivity|]. now rewrite !append_cons, IH.
Qed.

(** ** Tokens of a rendered text *)

Lemma render_app ps qs : render (ps ++ qs) = render ps +:+ render qs.
Proof.
  induction ps as [|p ps IH]; simpl; [reflexivity|].
  now rewrite IH, append_assoc.
Qed.

Lemma render_join sep pss :
  render (join_lists sep pss) = join (render sep) (map render pss).
Proof.
  unfold join. induction pss as [|ps pss IH]; [reflexivity|].
  destruct pss as [|qs pss]; [reflexivity|].
  change (join_lists sep (ps :: qs :: pss))
    with (ps ++ sep ++ join_lists sep (qs :: pss)).
  rewrite !render_app, IH. reflexivity.
Qed.

Lemma delimiter_not_ident c d :
  sqlite3.delimiter c = Some d -> sqlite3.ident_char c = false.
Proof.
  destruct c as [[] [] [] [] [] [] [] []]; vm_compute; congruence.
Qed.

Lemma lex_word cur w s :
  sqlite3.all_chars sqlite3.ident_char w = true ->
  sqlite3.lex cur (w +:+ s) = sqlite3.lex (cur +:+ w) s.
Proof.
  revert cur. induction w as [|a w IH]; intros cur Hw.
  - now rewrite append_nil_l, append_nil_r.
  - unfold sqlite3.all_chars in Hw. simpl in Hw.
    apply andb_prop in Hw as [Ha Hw]. rewrite append_cons. simpl. rewrite Ha.
    rewrite (IH _ Hw). f_equal.
    now rewrite append_assoc.
Qed.

Lemma lex_closes cur s :
  closes s -> sqlite3.lex cur s = sqlite3.flush cur <$> sqlite3.lex EmptyString s.
Proof.
  destruct s as [|c s]; simpl; intros Hc; [reflexivity|].
  rewrite Hc. destruct (sqlite3.delimiter c); [|reflexivity].
  now destruct (sqlite3.lex EmptyString s).
Qed.

Lemma render_closes ps :
  spaced ps = true ->
  match ps with Word _ :: _ => False | _ => True end ->
  closes (render ps).
Proof.
  destruct ps as [|[w|c] ps]; simpl; try tauto.
  destruct (sqlite3.delimiter c) eqn:Hd; [|discriminate].
  intros _ _. now apply delimiter_not_ident with o.
Qed.

Lemma lex_render ps :
  spaced ps = true -> sqlite3.tokenize (render ps) = Some (piece_tokens ps).
Proof.
  unfold sqlite3.tokenize.
  induction ps as [|[w|c] ps IH]; simpl; intros Hs; [reflexivity| |].
  - apply andb_prop in Hs as [Hs Hps]. apply andb_prop in Hs as [Hw Hnext].
    assert (Hall : sqlite3.all_chars sqlite3.ident_char w = true)
      by (destruct w; [discriminate|exact Hw]).
    rewrite (lex_word _ _ _ Hall), append_nil_l.
    rewrite lex_closes.
    + rewrite (IH Hps). simpl. now destruct w.
    + apply render_closes; [assumption|]. now destruct ps as [|[|] ?].
  - destruct (sqlite3.delimiter c) eqn:Hd; [|discriminate].
    rewrite (delimiter_not_ident _ _ Hd), append_nil_l. now rewrite (IH Hs).
Qed.

Lemma piece_tokens_app ps qs :
  piece_tokens (ps ++ qs) = piece_tokens ps ++ piece_tokens qs.
Proof.
  induction ps as [|[w|c] ps IH]; simpl; [reflexivity| |].
  - now rewrite IH.
  - rewrite IH. now destruct (sqlite3.delimiter c) as [[t|]|].
Qed.

Lemma piece_tokens_join sep pss :
  piece_tokens (join_lists sep pss)
  = join_lists (piece_tokens sep) (map piece_tokens pss).
Proof.
  induction pss as [|ps pss IH]; [reflexivity|].
  destruct pss as [|qs pss]; [reflexivity|].
  change (join_lists sep (ps :: qs :: pss))
    with (ps ++ sep ++ join_lists sep (qs :: pss)).
  now rewrite !piece_tokens_app, IH.
Qed.

Lemma spaced_app_delim ps c qs :
  spaced ps = true -> spaced (Delim c :: qs) = true ->
  spaced (ps ++ Delim c :: qs) = true.
Proof.
  intros Hps Hqs. induction ps as [|[w|d] ps IH]; [exact Hqs| |].
  - simpl in Hps. apply andb_prop in Hps as [Hps Hrest].
    apply andb_prop in Hps as [Hw Hnext].
    change ((Word w :: ps) ++ Delim c :: qs) with (Word w :: (ps ++ Delim c :: qs)).
    cbn [spaced]. rewrite Hw, (IH Hrest).
    now destruct ps as [|[|] ?].
  - simpl in Hps. simpl. destruct (sqlite3.delimiter d); [|discriminate].
    now apply IH.
Qed.

Lemma spaced_join c sep pss :
  Forall (fun ps => spaced ps = true) pss ->
  (forall qs, spaced qs = true -> spaced (Delim c :: sep ++ qs) = true) ->
  spaced (join_lists (Delim c :: sep) pss) = true.
Proof.
  intros Hall Hsep. induction Hall as [|ps pss Hps Hall IH]; [reflexivity|].
  destruct pss as [|qs pss]; [exact Hps|].
  change (join_lists (Delim c :: sep) (ps :: qs :: pss))
    with (ps ++ Delim c :: (sep ++ join_lists (Delim c :: sep) (qs :: pss))).
  apply spaced_app_delim; [assumption|]. now apply Hsep.
Qed.

(** ** Splitting a list of tokens *)

Lemma unsnoc_app {A} (l : list A) x : sqlite3.unsnoc (l ++ [x]) = Some (l, x).
Proof.
  induction l as [|a l IH]; [reflexivity|]. simpl. now rewrite IH.
Qed.

Lemma split_on_none sep ts :
  forallb (fun t => negb (sep t)) ts = true -> sqlite3.split_on sep ts = [ts].
Proof.
  induction ts as [|t ts IH]; [reflexivity|]. simpl. intros H.
  apply andb_prop in H as [Ht Hts]. apply negb_true_iff in Ht.
  now rewrite Ht, (IH Hts).
Qed.

Lemma split_on_app sep ts s rest :
  forallb (fun t => negb (sep t)) ts = true -> sep s = true ->
  sqlite3.split_on sep (ts ++ s :: rest) = ts :: sqlite3.split_on sep rest.
Proof.
  intros Hts Hs. induction ts as [|t ts IH]; simpl.
  - now rewrite Hs.
  - simpl in Hts. apply andb_prop in Hts as [Ht Hts]. apply negb_true_iff in Ht.
    now rewrite Ht, (IH Hts).
Qed.

Lemma split_on_join sep s segs :
  sep s = true -> segs <> [] ->
  Forall (fun ts => forallb (fun t => negb (sep t)) ts = true) segs ->
  sqlite3.split_on sep (join_lists [s] segs) = segs.
Proof.
  intros Hs Hne Hall. induction Hall as [|ts segs Hts Hall IH]; [congruence|].
  destruct segs as [|ts' segs]; [now apply split_on_none|].
  change (join_lists [s] (ts :: ts' :: segs))
    with (ts ++ s :: join_lists [s] (ts' :: segs)).
  rewrite (split_on_app _ _ _ _ Hts Hs). f_equal. now apply IH.
Qed.

Lemma until_rparen_app ts rest :
  forallb (fun t => negb (sqlite3.is_rparen t)) ts = true ->
  sqlite3.until_rparen (ts ++ sqlite3.TRParen :: rest) = Some (ts, rest).
Proof.
  induction ts as [|t ts IH]; [reflexivity|]. simpl. intros H.
  apply andb_prop in H as [Ht Hts]. rewrite (IH Hts).
  now destruct t.
Qed.

(** ** Names and keywords *)

Lemma sql_name_word w : sqlite3.sql_name w = true -> is_word w = true.
Proof.
  destruct w as [|a w]; [discriminate|]. unfold sqlite3.sql_name, is_word.
  intros H. apply andb_prop in H as [H _]. now apply andb_prop in H as [_ H].
Qed.

Lemma sql_name_not_keyword k w :
  existsb (String.eqb k) sqlite3.keywords = true ->
  sqlite3.sql_name w = true -> sqlite3.kw k w = false.
Proof.
  intros Hk Hw. unfold sqlite3.kw. destruct (String.eqb (lower w) k) eqn:E; [|reflexivity].
  apply String.eqb_eq in E. destruct w as [|a w]; [discriminate|].
  unfold sqlite3.sql_name in Hw. apply andb_prop in Hw as [_ Hw].
  apply negb_true_iff in Hw. unfold sqlite3.is_keyword in Hw.
  rewrite E in Hw. congruence.
Qed.

(** ** The CREATE TABLE statement *)

Lemma field_definition_render item :
  OrmModelMeta.field_definition (fst item) (snd item) = render (clause_pieces item).
Proof.
  destruct item as [n f]. unfold OrmModelMeta.field_definition, clause_pieces.
  simpl fst; simpl snd.
  destruct (primary_key f); [destruct (String.eqb (sql_type f) "INTEGER")|];
    rewrite render_app; simpl render; rewrite ?append_assoc, ?append_nil_r;
    reflexivity.
Qed.

Lemma names_nonempty (fields : dict OrmField) :
  forallb (fun item => sqlite3.sql_name (fst item) && declared (snd item)) fields = true ->
  Forall (fun item => fst item <> EmptyString) fields.
Proof.
  intros H. apply List.Forall_forall. intros [n f] Hin.
  rewrite forallb_forall in H. specialize (H _ Hin). simpl in *.
  apply andb_prop in H as [H _]. now destruct n.
Qed.

Lemma column_clauses_render cls :
  Forall (fun item => fst item <> EmptyString) (_fields cls) ->
  OrmModelMeta.column_clauses cls = map render (clauses cls).
Proof.
  intros Hne. rewrite (column_clauses_spec _ Hne). unfold clauses, has_primary_key.
  rewrite map_app, map_map. f_equal.
  - now destruct (existsb _ (_fields cls)).
  - apply map_ext. intros item. apply field_definition_render.
Qed.

Lemma create_table_sql_render cls :
  Forall (fun item => fst item <> EmptyString) (_fields cls) ->
  OrmModelMeta.create_table_sql cls = render (create_pieces cls).
Proof.
  intros Hne. unfold OrmModelMeta.create_table_sql, create_pieces.
  rewrite (column_clauses_render _ Hne).
  change (render (?a :: ?l)) with (render_piece a +:+ render l).
  cbn [render].
  rewrite render_app, render_join. simpl render. simpl render_piece.
  rewrite ?append_assoc. reflexivity.
Qed.

Lemma declared_sql_type f :
  declared f = true ->
  sql_type f = "INTEGER" \/ sql_type f = "TEXT" \/ sql_type f = "REAL".
Proof.
  unfold declared. destruct (expected_type f); try discriminate;
    intros H; apply String.eqb_eq in H; tauto.
Qed.

Lemma mapM_map {A B} (f : A -> option B) (g : A -> B) (l : list A) :
  Forall (fun x => f x = Some (g x)) l -> mapM f l = Some (map g l).
Proof.
  induction 1 as [|x l Hx _ IH]; [reflexivity|].
  simpl. rewrite Hx. simpl. now rewrite IH.
Qed.

Section CreateTable.

Variable cls : class.
Hypothesis Hname : sqlite3.sql_name (_table_name cls) = true.
Hypothesis Hfields :
  forallb (fun item => sqlite3.sql_name (fst item) && declared (snd item))
    (_fields cls) = true.

Lemma field_in item :
  In item (_fields cls) ->
  sqlite3.sql_name (fst item) = true /\ declared (snd item) = true.
Proof.
  intros Hin. rewrite forallb_forall in Hfields.
  now apply andb_prop, Hfields.
Qed.

Lemma clause_spaced item :
  In item (_fields cls) -> spaced (clause_pieces item) = true.
Proof.
  intros Hin. destruct (field_in _ Hin) as [Hn Hd].
  apply sql_name_word in Hn. unfold clause_pieces.
  destruct (declared_sql_type _ Hd) as [E|[E|E]]; rewrite E;
    destruct (primary_key (snd item)); simpl; now rewrite Hn.
Qed.

Lemma clause_tokens item :
  In item (_fields cls) ->
  sqlite3.parse_column (piece_tokens (clause_pieces item)) = Some (field_column item)
  /\ forallb (fun t => negb (sqlite3.is_comma t)) (piece_tokens (clause_pieces item)) = true.
Proof.
  intros Hin. destruct (field_in _ Hin) as [Hn Hd].
  unfold clause_pieces, field_column.
  destruct (declared_sql_type _ Hd) as [E|[E|E]]; rewrite E;
    destruct (primary_key (snd item)); simpl; rewrite Hn; now split.
Qed.

Lemma clauses_spaced : Forall (fun ps => spaced ps = true) (clauses cls).
Proof.
  unfold clauses. apply Forall_app. split.
  - destruct (has_primary_key cls); repeat constructor.
  - apply List.Forall_forall. intros ps Hin. apply in_map_iff in Hin as (item & <- & Hin).
    now apply clause_spaced.
Qed.

Lemma create_spaced : spaced (create_pieces cls) = true.
Proof.
  unfold create_pieces. cbn [spaced].
  rewrite (sql_name_word _ Hname). simpl.
  apply spaced_app_delim; [|reflexivity].
  apply spaced_join; [apply clauses_spaced|]. now intros qs Hqs.
Qed.

Lemma clauses_nonempty : clauses cls <> [].
Proof.
  unfold clauses, has_primary_key.
  destruct (_fields cls); simpl; [discriminate|].
  now destruct (primary_key _ || _).
Qed.

Lemma clauses_parse :
  mapM sqlite3.parse_column
    (sqlite3.split_on sqlite3.is_comma
       (join_lists [sqlite3.TComma] (map piece_tokens (clauses cls))))
  = Some (table_columns cls).
Proof.
  rewrite split_on_join.
  - apply mapM_Some. unfold clauses, table_columns. rewrite map_app.
    apply Forall2_app.
    + destruct (has_primary_key cls); repeat constructor.
    + rewrite map_map. apply Forall2_fmap. apply Forall_Forall2_diag.
      apply List.Forall_forall. intros item Hin. now apply clause_tokens.
  - reflexivity.
  - pose proof clauses_nonempty. now destruct (clauses cls).
  - unfold clauses. rewrite map_app. apply Forall_app. split.
    + destruct (has_primary_key cls); repeat constructor.
    + apply List.Forall_forall. intros ts Hin.
      apply in_map_iff in Hin as (ps & <- & Hin).
      apply in_map_iff in Hin as (item & <- & Hin).
      now apply clause_tokens.
Qed.

Lemma prepare_create :
  sqlite3.prepare (OrmModelMeta.create_table_sql cls)
  = Some (sqlite3.CreateTable (_table_name cls) (table_columns cls)).
Proof.
  unfold sqlite3.prepare.
  rewrite create_table_sql_render by (now apply names_nonempty).
  rewrite (lex_render _ create_spaced). simpl mbind.
  unfold create_pieces. cbn [piece_tokens]. simpl sqlite3.delimiter.
  cbn [sqlite3.emit]. rewrite piece_tokens_app, piece_tokens_join.
  simpl piece_tokens.
  unfold sqlite3.parse. simpl sqlite3.kw. cbn iota.
  unfold sqlite3.parse_create. simpl sqlite3.kw. rewrite Hname. cbn iota. simpl andb.
  rewrite unsnoc_app. rewrite clauses_parse. reflexivity.
Qed.

End CreateTable.

(** ** Creation of the table *)

Lemma filter_primary_key (fields : dict OrmField) :
  List.filter sqlite3.col_pk (map field_column fields)
  = map field_column (List.filter (fun item => primary_key (snd item)) fields).
Proof.
  induction fields as [|item fields IH]; [reflexivity|]. simpl.
  destruct (primary_key (snd item)); simpl; now rewrite IH.
Qed.

Lemma no_primary_key (fields : dict OrmField) :
  existsb (fun item => primary_key (snd item)) fields = false ->
  List.filter (fun item => primary_key (snd item)) fields = [].
Proof.
  induction fields as [|item fields IH]; [reflexivity|]. simpl.
  destruct (primary_key (snd item)); [discriminate|]. exact IH.
Qed.

Lemma table_columns_checks cls :
  schema_ok cls = true ->
  (1 <? length (List.filter sqlite3.col_pk (table_columns cls)))%nat = false
  /\ existsb (fun c => sqlite3.col_auto c
                       && negb (sqlite3.kw "integer" (sqlite3.col_type c)))
       (table_columns cls) = false
  /\ forallb (fun c => bool_decide (is_Some (sqlite3.affinity_of (sqlite3.col_type c))))
       (table_columns cls) = true.
Proof.
  unfold schema_ok. intros H.
  apply andb_prop in H as [H Hpk]. apply andb_prop in H as [H _].
  apply andb_prop in H as [_ Hfields]. apply Nat.leb_le in Hpk.
  unfold table_columns, has_primary_key. repeat split.
  - apply Nat.ltb_ge.
    rewrite List.filter_app, List.length_app, filter_primary_key, List.length_map.
    destruct (existsb _ (_fields cls)) eqn:E; simpl; [lia|].
    now rewrite (no_primary_key _ E).
  - rewrite existsb_app. apply orb_false_iff. split.
    + now destruct (existsb _ (_fields cls)).
    + apply not_true_iff_false. intros Hex.
      apply existsb_exists in Hex as (col & Hin & Hitem).
      apply in_map_iff in Hin as (item & <- & Hin).
      unfold field_column in Hitem. simpl in Hitem.
      apply andb_prop in Hitem as [Hauto Hkw]. apply andb_prop in Hauto as [_ Hty].
      apply String.eqb_eq in Hty. rewrite Hty in Hkw. discriminate.
  - rewrite forallb_app. apply andb_true_iff. split.
    + now destruct (existsb _ (_fields cls)).
    + apply forallb_forall. intros col Hin.
      apply in_map_iff in Hin as (item & <- & Hin).
      rewrite forallb_forall in Hfields. specialize (Hfields _ Hin).
      apply andb_prop in Hfields as [_ Hd].
      unfold field_column. simpl.
      now destruct (declared_sql_type _ Hd) as [E|[E|E]]; rewrite E.
Qed.

Lemma create_table_ok cls (d : gmap string sqlite3.table) :
  schema_ok cls = true ->
  d !! lower (_table_name cls) = None ->
  sqlite3.create_table (_table_name cls) (table_columns cls) d
  = Ok (<[lower (_table_name cls) := sqlite3.mk_table (table_columns cls) []]> d).
Proof.
  intros Hok Hnone. destruct (table_columns_checks _ Hok) as (Hpk & Hauto & Haff).
  unfold schema_ok in Hok.
  apply andb_prop in Hok as [Hok _]. apply andb_prop in Hok as [Hok Hdup].
  apply andb_prop in Hok as [Hok _]. apply andb_prop in Hok as [_ Hint].
  apply negb_true_iff in Hdup, Hint.
  unfold sqlite3.create_table. now rewrite Hint, Hnone, Hdup, Hpk, Hauto, Haff.
Qed.

Lemma schema_ok_names cls :
  schema_ok cls = true ->
  sqlite3.sql_name (_table_name cls) = true
  /\ sqlite3.internal_name (_table_name cls) = false
  /\ forallb (fun item => sqlite3.sql_name (fst item) && declared (snd item))
       (_fields cls) = true.
Proof.
  unfold schema_ok. intros H.
  apply andb_prop in H as [H _]. apply andb_prop in H as [H _].
  apply andb_prop in H as [H Hf]. apply andb_prop in H as [Hn Hi].
  apply negb_true_iff in Hi. now repeat split.
Qed.

Lemma create_table_runs cls c :
  schema_ok cls = true ->
  table_of cls c = None ->
  OrmModelMeta._create_table cls c
  = (Ok tt,
     sqlite3.mk_connection
       (<[lower (_table_name cls) := sqlite3.mk_table (table_columns cls) []]>
          (sqlite3.tables c))
       (sqlite3.trace c
        ++ [sqlite3.Execute (OrmModelMeta.create_table_sql cls) []; sqlite3.Commit])).
Proof.
  intros Hok Hnone. destruct (schema_ok_names _ Hok) as (Hn & _ & Hf).
  unfold OrmModelMeta._create_table, mbind, M_bind, execute, commit, sqlite3.run.
  rewrite (prepare_create _ Hn Hf). simpl.
  rewrite (create_table_ok _ _ Hok Hnone). simpl.
  now rewrite <- app_assoc.
Qed.

(** ** Declaration of a record type *)

Lemma snd_bind_ret {A B} (m : M A) (b : B) c :
  snd ((m ≫= fun _ => mret b) c) = snd (m c).
Proof. unfold mbind, M_bind. now destruct (m c) as [[a|e] c']. Qed.

(** C1. For every record type whose field names are non-empty, the
    column clauses of its CREATE TABLE statement are exactly one clause
    per declared field, in declaration order, preceded by the synthesized
    [id INTEGER PRIMARY KEY AUTOINCREMENT] clause if and only if no
    declared field is marked primary key.  Declaring a record type (other
    than the base type) whose schema the database accepts, while the
    database has no table of that name, returns the type and creates the
    table, with no rows and with exactly these columns: one column per
    declared field, after the synthesized [id] primary-key column if and
    only if no declared field is marked primary key. *)
Theorem declare_creates_table (name : string) (dct : dict attribute)
    (c : sqlite3.connection) :
  let cls := mk_class name (OrmModelMeta.own_fields dct) (lower name) in
  (Forall (fun item => fst item <> EmptyString) (_fields cls) ->
   OrmModelMeta.column_clauses cls
   = (if existsb (fun item => primary_key (snd item)) (_fields cls)
      then [] else ["id INTEGER PRIMARY KEY AUTOINCREMENT"])
     ++ map (fun item => OrmModelMeta.field_definition (fst item) (snd item))
          (_fields cls))
  /\ (name <> "OrmModel" ->
      schema_ok cls = true ->
      table_of cls c = None ->
      exists c',
        OrmModelMeta.__new__ name dct c = (Ok cls, c')
        /\ table_of cls c' = Some (sqlite3.mk_table (table_columns cls) [])
        /\ table_columns cls
           = (if existsb (fun item => primary_key (snd item)) (_fields cls)
              then [] else [sqlite3.mk_column "id" "INTEGER" true true])
             ++ map field_column (_fields cls)
        /\ map sqlite3.col_name (table_columns cls)
           = (if existsb (fun item => primary_key (snd item)) (_fields cls)
              then [] else ["id"])
             ++ keys (_fields cls)).
Proof.
  intros cls. split; [apply column_clauses_spec|].
  intros Hname Hok Hnone.
  unfold OrmModelMeta.__new__. fold cls.
  apply String.eqb_neq in Hname. rewrite Hname. change (negb false) with true. cbv iota.
  unfold mbind at 1, M_bind at 1. rewrite (create_table_runs cls c Hok Hnone).
  eexists. split; [reflexivity|]. split; [|split].
  - unfold table_of. simpl. apply lookup_insert_eq.
  - reflexivity.
  - unfold table_columns, has_primary_key, keys. rewrite map_app, map_map.
    now destruct (existsb _ (_fields cls)).
Qed.

Lemma declare_creates_table_witness :
  OrmModelMeta.column_clauses Person
  = ["id INTEGER PRIMARY KEY AUTOINCREMENT"; "name TEXT"; "age INTEGER"; "score REAL"]
  /\ exists c',
       OrmModelMeta.__new__ "Person" person_dct new_file = (Ok Person, c')
       /\ table_of Person c' = Some (sqlite3.mk_table (table_columns Person) [])
       /\ table_columns Person
          = [sqlite3.mk_column "id" "INTEGER" true true;
             sqlite3.mk_column "name" "TEXT" false false;
             sqlite3.mk_column "age" "INTEGER" false false;
             sqlite3.mk_column "score" "REAL" false false]
       /\ map sqlite3.col_name (table_columns Person) = ["id"; "name"; "age"; "score"].
Proof.
  split.
  - apply (proj1 (declare_creates_table "Person" person_dct new_file)).
    repeat constructor; discriminate.
  - apply (proj2 (declare_creates_table "Person" person_dct new_file));
      [discriminate | vm_compute; reflexivity | reflexivity].
Defined.

(** C5. In a record type whose field names are non-empty and one of whose
    fields is marked primary key, the column clauses are exactly the
    clauses of the declared fields, so that no [id] column is synthesized;
    the clause of the primary-key field is [name TYPE] followed by
    [PRIMARY KEY AUTOINCREMENT] when the SQL type is INTEGER and by
    [PRIMARY KEY] for any other SQL type; and when the schema is one that
    the database accepts, the statement text denotes a table with these
    columns, in which the column of that field is a primary key,
    auto-incrementing exactly when its type is INTEGER. *)
Theorem primary_key_clause (cls : class) (n : string) (f : OrmField) :
  In (n, f) (_fields cls) ->
  primary_key f = true ->
  Forall (fun item => fst item <> EmptyString) (_fields cls) ->
  OrmModelMeta.column_clauses cls
  = map (fun item => OrmModelMeta.field_definition (fst item) (snd item))
      (_fields cls)
  /\ OrmModelMeta.field_definition n f
     = n +:+ " " +:+ sql_type f
       +:+ (if String.eqb (sql_type f) "INTEGER"
            then " PRIMARY KEY AUTOINCREMENT" else " PRIMARY KEY")
  /\ In (OrmModelMeta.field_definition n f) (OrmModelMeta.column_clauses cls)
  /\ (schema_ok cls = true ->
      sqlite3.prepare (OrmModelMeta.create_table_sql cls)
      = Some (sqlite3.CreateTable (_table_name cls) (map field_column (_fields cls)))
      /\ In (sqlite3.mk_column n (sql_type f) true (String.eqb (sql_type f) "INTEGER"))
           (map field_column (_fields cls))).
Proof.
  intros Hin Hpk Hne.
  assert (Hhas : has_primary_key cls = true).
  { apply existsb_exists. now exists (n, f). }
  assert (Hclauses : OrmModelMeta.column_clauses cls
            = map (fun item => OrmModelMeta.field_definition (fst item) (snd item))
                (_fields cls)).
  { rewrite (column_clauses_spec _ Hne). unfold has_primary_key in Hhas.
    now rewrite Hhas. }
  split; [exact Hclauses|]. split; [|split].
  - unfold OrmModelMeta.field_definition. rewrite Hpk.
    destruct (String.eqb (sql_type f) "INTEGER"); now rewrite !append_assoc.
  - rewrite Hclauses. apply in_map_iff. now exists (n, f).
  - intros Hok. destruct (schema_ok_names _ Hok) as (Hn & _ & Hf). split.
    + rewrite (prepare_create _ Hn Hf). unfold table_columns. now rewrite Hhas.
    + apply in_map_iff. exists (n, f). split; [|assumption].
      unfold field_column. simpl. now rewrite Hpk.
Qed.

Lemma primary_key_clause_witness :
  OrmModelMeta.column_clauses SomeTable
  = ["pk INTEGER PRIMARY KEY AUTOINCREMENT"; "field_1 TEXT";
     "field_2 INTEGER"; "field_3 REAL"]
  /\ OrmModelMeta.column_clauses Tag = ["code TEXT PRIMARY KEY"; "label TEXT"].
Proof.
  split.
  - apply (primary_key_clause SomeTable "pk" (OrmInteger true));
      [now left | reflexivity | repeat constructor; discriminate].
  - apply (primary_key_clause Tag "code" (OrmText true));
      [now left | reflexivity | repeat constructor; discriminate].
Defined.


(** ** Validation *)

Lemma forallb_eq {A} (p q : A -> bool) (l : list A) :
  (forall x, p x = q x) -> forallb p l = forallb q l.
Proof.
  intros H. induction l as [|a l IH]; [reflexivity|]. simpl. now rewrite H, IH.
Qed.

(** Whenever some field fails the check, [save] raises the error of the
    first such field and leaves the connection as it was. *)
Lemma save_raises_first (self : instance) (c : sqlite3.connection) :
  existsb (mismatch self) (_fields (__class__ self)) = true ->
  exists n f,
    In (n, f) (_fields (__class__ self))
    /\ primary_key f = false
    /\ isinstance (getattr self n) (expected_type f) = false
    /\ OrmModel.save self c
       = (Raise (TypeError (OrmModel.type_error n f (getattr self n))), c).
Proof.
  intros Hex.
  destruct (first_split _ _ Hex) as (pre & [n f] & post & Hf & Hpre & Hbad).
  exists n, f. split; [|split; [|split]].
  - rewrite Hf. apply in_or_app. right. now left.
  - unfold mismatch in Hbad. simpl in Hbad. apply andb_prop in Hbad as [H _].
    now apply negb_true_iff in H.
  - unfold mismatch in Hbad. simpl in Hbad. apply andb_prop in Hbad as [_ H].
    now apply negb_true_iff in H.
  - now apply save_raises with pre post.
Qed.



Lemma collect_ok_inv self items acc d :
  OrmModel.collect self items acc = Ok d ->
  forallb (fun item => negb (mismatch self item)) items = true.
Proof.
  revert acc. induction items as [|[n f] items IH]; intros acc H; [reflexivity|].
  simpl in H. simpl. unfold mismatch at 1. simpl.
  destruct (negb (primary_key f) && negb (isinstance (getattr self n) (expected_type f)));
    [discriminate|]. simpl. now apply IH with (dict_set acc n (getattr self n)).
Qed.

Lemma save_ok_collect self c :
  fst (OrmModel.save self c) = Ok tt ->
  exists d, OrmModel.collect self (_fields (__class__ self)) [] = Ok d.
Proof.
  unfold OrmModel.save.
  destruct (OrmModel.collect self (_fields (__class__ self)) []) as [d|e].
  - now exists d.
  - discriminate.
Qed.

(** C3. When some non-primary-key field of the instance holds a value
    that is not an instance of its expected type, [save] raises the
    [TypeError] and leaves the connection exactly as it was: no statement
    has been executed and the tables are unchanged, so that [all] returns
    afterwards what it returned before. *)
Theorem save_mismatch_changes_nothing (self : instance) (c : sqlite3.connection) :
  existsb (mismatch self) (_fields (__class__ self)) = true ->
  exists msg,
    OrmModel.save self c = (Raise (TypeError msg), c)
    /\ statements (snd (OrmModel.save self c)) = statements c
    /\ sqlite3.tables (snd (OrmModel.save self c)) = sqlite3.tables c
    /\ OrmModel.all (__class__ self) (snd (OrmModel.save self c))
       = OrmModel.all (__class__ self) c.
Proof.
  intros Hex.
  destruct (save_raises_first self c Hex) as (n & f & _ & _ & _ & Hsave).
  eexists. split; [exact Hsave|]. now rewrite Hsave.
Qed.

Lemma save_mismatch_changes_nothing_witness :
  exists msg,
    OrmModel.save ill_typed new_file = (Raise (TypeError msg), new_file)
    /\ statements (snd (OrmModel.save ill_typed new_file)) = statements new_file
    /\ sqlite3.tables (snd (OrmModel.save ill_typed new_file)) = sqlite3.tables new_file
    /\ OrmModel.all (__class__ ill_typed) (snd (OrmModel.save ill_typed new_file))
       = OrmModel.all (__class__ ill_typed) new_file.
Proof.
  apply (save_mismatch_changes_nothing ill_typed new_file). vm_compute. reflexivity.
Defined.

(** ** Fields left unspecified *)

Lemma declared_not_none f : declared f = true -> isinstance PyNone (expected_type f) = false.
Proof. unfold declared. now destruct (expected_type f). Qed.

(** C9. Let an instance be constructed without a value for a
    non-primary-key field made by one of the three field classes.  Then
    the field holds [None], [save] raises the type-mismatch error, for the
    first field in declaration order that fails the check, and for that
    very field, with [NoneType] as the actual type, when no earlier field
    fails.  Consequently, when [save] of a freshly constructed instance of
    a type with such fields succeeds, every non-primary-key field was
    supplied to the constructor with an instance of its expected type. *)
Theorem unspecified_field_rejected (cls : class) (kwargs : dict PyValue)
    (c : sqlite3.connection) :
  let self := OrmModel.__init__ cls kwargs in
  (forall pre n f post,
      _fields cls = pre ++ (n, f) :: post ->
      primary_key f = false ->
      declared f = true ->
      dict_get kwargs n = None ->
      getattr self n = PyNone
      /\ (exists m g,
            In (m, g) (_fields cls) /\ primary_key g = false
            /\ isinstance (getattr self m) (expected_type g) = false
            /\ OrmModel.save self c
               = (Raise (TypeError (OrmModel.type_error m g (getattr self m))), c))
      /\ (forallb (fun item => negb (mismatch self item)) pre = true ->
          OrmModel.save self c
          = (Raise (TypeError
                      ("Поле '" +:+ n +:+ "' должно соответствовать типу "
                       +:+ type_repr (expected_type f)
                       +:+ ", получен <class 'NoneType'>.")), c)))
  /\ (forallb (fun item => declared (snd item)) (_fields cls) = true ->
      fst (OrmModel.save self c) = Ok tt ->
      Forall (fun item =>
                primary_key (snd item) = false ->
                exists v, dict_get kwargs (fst item) = Some v
                          /\ isinstance v (expected_type (snd item)) = true)
        (_fields cls)).
Proof.
  intros self.
  assert (Hcls : __class__ self = cls) by apply init_class.
  assert (Hget : forall n f, In (n, f) (_fields cls) ->
                             getattr self n = kwargs_get kwargs n).
  { intros n f Hin. apply getattr_init. unfold keys.
    apply in_map_iff. now exists (n, f). }
  split.
  - intros pre n f post Hf Hpk Hdecl Hnone.
    assert (Hin : In (n, f) (_fields cls)).
    { rewrite Hf. apply in_or_app. right. now left. }
    assert (Hval : getattr self n = PyNone).
    { rewrite (Hget _ _ Hin). unfold kwargs_get. now rewrite Hnone. }
    assert (Hbad : mismatch self (n, f) = true).
    { unfold mismatch. simpl. rewrite Hpk, Hval. now rewrite declared_not_none. }
    split; [exact Hval|]. split.
    + destruct (save_raises_first self c) as (m & g & H).
      { rewrite Hcls. apply existsb_exists. now exists (n, f). }
      rewrite Hcls in H. now exists m, g.
    + intros Hpre.
      rewrite (save_raises self c pre n f post); [now rewrite Hval| |exact Hpre|exact Hbad].
      now rewrite Hcls.
  - intros Hdecl Hok. destruct (save_ok_collect _ _ Hok) as [d Hd].
    apply collect_ok_inv in Hd. rewrite Hcls in Hd.
    apply List.Forall_forall. intros [n f] Hin Hpk. simpl in *.
    rewrite forallb_forall in Hd, Hdecl.
    specialize (Hd _ Hin). specialize (Hdecl _ Hin). simpl in Hdecl.
    unfold mismatch in Hd. simpl in Hd. rewrite Hpk, (Hget _ _ Hin) in Hd.
    simpl in Hd. apply negb_true_iff, negb_false_iff in Hd.
    unfold kwargs_get in Hd. destruct (dict_get kwargs n) as [v|].
    + now exists v.
    + now rewrite declared_not_none in Hd.
Qed.

Lemma unspecified_field_rejected_witness :
  OrmModel.save (OrmModel.__init__ Person [("name", PyStr "Ann")]) new_file
  = (Raise (TypeError
       "Поле 'age' должно соответствовать типу <class 'int'>, получен <class 'NoneType'>."),
     new_file)
  /\ Forall (fun item =>
               primary_key (snd item) = false ->
               exists v,
                 dict_get [("name", PyStr "Ann"); ("age", PyInt 30);
                           ("score", PyFloat f4_5)] (fst item) = Some v
                 /\ isinstance v (expected_type (snd item)) = true)
       (_fields Person).
Proof.
  split.
  - apply (proj2 (proj2 (proj1 (unspecified_field_rejected Person
                                  [("name", PyStr "Ann")] new_file)
                           [("name", OrmText false)] "age" (OrmInteger false)
                           [("score", OrmFloat false)]
                           eq_refl eq_refl eq_refl eq_refl))).
    vm_compute. reflexivity.
  - apply (proj2 (unspecified_field_rejected Person
                    [("name", PyStr "Ann"); ("age", PyInt 30);
                     ("score", PyFloat f4_5)] person_db));
      vm_compute; reflexivity.
Defined.

(** ** The SELECT statements *)

Lemma select_sql_render tn : OrmModel.select_sql tn = render (select_pieces tn).
Proof.
  unfold OrmModel.select_sql, select_pieces. simpl render.
  now rewrite append_nil_r.
Qed.

Lemma prepare_select tn :
  sqlite3.sql_name tn = true ->
  sqlite3.prepare (OrmModel.select_sql tn) = Some (sqlite3.Select tn []).
Proof.
  intros Hn. unfold sqlite3.prepare. rewrite select_sql_render, lex_render.
  - simpl. unfold sqlite3.parse_select. simpl sqlite3.kw. now rewrite Hn.
  - simpl. now rewrite (sql_name_word _ Hn).
Qed.

Lemma filter_sql_render tn (kwargs : dict PyValue) :
  OrmModel.filter_sql tn kwargs = render (filter_pieces tn (keys kwargs)).
Proof.
  unfold OrmModel.filter_sql, filter_pieces, select_pieces.
  rewrite render_app. simpl render at 1.
  change (render (?a :: ?l)) with (render_piece a +:+ render l).
  cbn [render]. rewrite render_join, !map_map. simpl render. simpl render_piece.
  rewrite ?append_assoc. reflexivity.
Qed.

Lemma filter_spaced tn cols :
  sqlite3.sql_name tn = true ->
  forallb sqlite3.sql_name cols = true ->
  spaced (filter_pieces tn cols) = true.
Proof.
  intros Hn Hcols. unfold filter_pieces, select_pieces. simpl.
  rewrite (sql_name_word _ Hn). simpl.
  apply spaced_join.
  - apply List.Forall_forall. intros ps Hin.
    apply in_map_iff in Hin as (n & <- & Hin).
    rewrite forallb_forall in Hcols. simpl.
    now rewrite (sql_name_word _ (Hcols _ Hin)).
  - intros qs Hqs. simpl. rewrite Hqs. now destruct qs as [|[|] ?].
Qed.

Lemma filter_tokens tn cols :
  piece_tokens (filter_pieces tn cols)
  = sqlite3.TWord "SELECT" :: sqlite3.TStar :: sqlite3.TWord "FROM"
    :: sqlite3.TWord tn :: sqlite3.TWord "WHERE"
    :: join_lists [sqlite3.TWord "AND"]
         (map (fun n => [sqlite3.TWord n; sqlite3.TEq; sqlite3.TQMark]) cols).
Proof.
  unfold filter_pieces. rewrite piece_tokens_app. simpl.
  now rewrite piece_tokens_join, map_map.
Qed.

Lemma conditions_parse cols :
  cols <> [] ->
  forallb sqlite3.sql_name cols = true ->
  mapM sqlite3.parse_condition
    (sqlite3.split_on sqlite3.is_and
       (join_lists [sqlite3.TWord "AND"]
          (map (fun n => [sqlite3.TWord n; sqlite3.TEq; sqlite3.TQMark]) cols)))
  = Some cols.
Proof.
  intros Hne Hcols. rewrite forallb_forall in Hcols. rewrite split_on_join.
  - apply mapM_Some. apply Forall2_fmap_l. apply Forall_Forall2_diag.
    apply List.Forall_forall. intros n Hin. simpl. now rewrite (Hcols _ Hin).
  - reflexivity.
  - now destruct cols.
  - apply List.Forall_forall. intros ts Hin.
    apply in_map_iff in Hin as (n & <- & Hin). simpl.
    now rewrite (sql_name_not_keyword "and" n eq_refl (Hcols _ Hin)).
Qed.

Lemma prepare_filter tn (kwargs : dict PyValue) :
  sqlite3.sql_name tn = true ->
  forallb sqlite3.sql_name (keys kwargs) = true ->
  sqlite3.prepare (OrmModel.filter_sql tn kwargs)
  = match kwargs with
    | [] => None
    | _ => Some (sqlite3.Select tn (keys kwargs))
    end.
Proof.
  intros Hn Hcols. unfold sqlite3.prepare.
  rewrite filter_sql_render, (lex_render _ (filter_spaced _ _ Hn Hcols)).
  rewrite filter_tokens. simpl mbind.
  unfold sqlite3.parse. simpl sqlite3.kw. cbv iota.
  unfold sqlite3.parse_select. simpl sqlite3.kw. rewrite Hn. cbv iota. simpl andb.
  cbv iota.
  destruct kwargs as [|kv kwargs]; [reflexivity|].
  rewrite conditions_parse; [reflexivity|discriminate|assumption].
Qed.

(** C8. [filter] without criteria builds the text
    [SELECT * FROM <table> WHERE ], whose WHERE clause has no condition;
    the database rejects it with a syntax error, whatever tables it has,
    and no row is returned. *)
Theorem filter_without_criteria (cls : class) (c : sqlite3.connection) :
  sqlite3.sql_name (_table_name cls) = true ->
  OrmModel.filter_sql (_table_name cls) []
  = "SELECT * FROM " +:+ _table_name cls +:+ " WHERE "
  /\ sqlite3.prepare (OrmModel.filter_sql (_table_name cls) []) = None
  /\ OrmModel.filter cls [] c
     = (Raise (OperationalError SyntaxError),
        sqlite3.mk_connection (sqlite3.tables c)
          (sqlite3.trace c
           ++ [sqlite3.Execute ("SELECT * FROM " +:+ _table_name cls +:+ " WHERE ") []])).
Proof.
  intros Hn.
  assert (Hprep : sqlite3.prepare (OrmModel.filter_sql (_table_name cls) []) = None)
    by now rewrite (prepare_filter _ [] Hn eq_refl).
  assert (Htext : OrmModel.filter_sql (_table_name cls) []
                  = "SELECT * FROM " +:+ _table_name cls +:+ " WHERE ").
  { unfold OrmModel.filter_sql. simpl join. now rewrite append_nil_r. }
  split; [exact Htext|]. split; [exact Hprep|].
  unfold OrmModel.filter, mbind, M_bind, execute, sqlite3.run.
  rewrite Hprep. simpl. now rewrite Htext.
Qed.

Lemma filter_without_criteria_witness :
  OrmModel.filter_sql "person" [] = "SELECT * FROM person WHERE "
  /\ sqlite3.prepare (OrmModel.filter_sql "person" []) = None
  /\ OrmModel.filter Person [] person_db
     = (Raise (OperationalError SyntaxError),
        sqlite3.mk_connection (sqlite3.tables person_db)
          (sqlite3.trace person_db
           ++ [sqlite3.Execute "SELECT * FROM person WHERE " []])).
Proof.
  apply (filter_without_criteria Person person_db). vm_compute. reflexivity.
Defined.

(** ** The INSERT statement *)

Lemma map_render_words cols : map render (map (fun n => [Word n]) cols) = cols.
Proof.
  rewrite map_map. simpl. rewrite <- (map_id cols) at 2.
  apply map_ext. intros n. apply append_nil_r.
Qed.

Lemma map_repeat {A B} (f : A -> B) x n : map f (repeat x n) = repeat (f x) n.
Proof. induction n as [|n IH]; [reflexivity|]. simpl. now rewrite IH. Qed.

Lemma insert_sql_render tn (d : dict PyValue) :
  OrmModel.insert_sql tn d = render (insert_pieces tn (keys d)).
Proof.
  unfold OrmModel.insert_sql, insert_pieces.
  change (render (?a :: ?l)) with (render_piece a +:+ render l).
  cbn [render]. rewrite render_app.
  change (render (?a :: ?l)) with (render_piece a +:+ render l).
  cbn [render]. rewrite render_app, !render_join.
  rewrite map_render_words, map_repeat.
  unfold keys at 3. rewrite List.length_map.
  simpl render. simpl render_piece. rewrite ?append_assoc. reflexivity.
Qed.

Lemma join_lists_forallb {A} (p : A -> bool) sep (ls : list (list A)) :
  forallb p sep = true -> Forall (fun l => forallb p l = true) ls ->
  forallb p (join_lists sep ls) = true.
Proof.
  intros Hsep Hall. induction Hall as [|l ls Hl Hall IH]; [reflexivity|].
  destruct ls as [|l' ls]; [exact Hl|].
  change (join_lists sep (l :: l' :: ls)) with (l ++ sep ++ join_lists sep (l' :: ls)).
  now rewrite !forallb_app, Hl, Hsep, IH.
Qed.

Section Insert.

Variable tn : string.
Variable cols : list string.
Hypothesis Hname : sqlite3.sql_name tn = true.
Hypothesis Hcols : forallb sqlite3.sql_name cols = true.

Lemma insert_spaced : spaced (insert_pieces tn cols) = true.
Proof.
  unfold insert_pieces. cbn [spaced]. rewrite (sql_name_word _ Hname). simpl.
  apply spaced_app_delim.
  - apply spaced_join; [|now intros qs Hqs].
    apply List.Forall_forall. intros ps Hin.
    apply in_map_iff in Hin as (n & <- & Hin).
    rewrite forallb_forall in Hcols. simpl.
    now rewrite (sql_name_word _ (Hcols _ Hin)).
  - simpl. apply spaced_app_delim; [|reflexivity].
    apply spaced_join; [|now intros qs Hqs].
    apply List.Forall_forall. intros ps Hin. now apply repeat_spec in Hin as ->.
Qed.

Lemma insert_tokens :
  piece_tokens (insert_pieces tn cols)
  = sqlite3.TWord "INSERT" :: sqlite3.TWord "INTO" :: sqlite3.TWord tn
    :: sqlite3.TLParen
    :: join_lists [sqlite3.TComma] (map (fun n => [sqlite3.TWord n]) cols)
    ++ sqlite3.TRParen :: sqlite3.TWord "VALUES" :: sqlite3.TLParen
    :: join_lists [sqlite3.TComma] (repeat [sqlite3.TQMark] (length cols))
    ++ [sqlite3.TRParen].
Proof.
  unfold insert_pieces. simpl. rewrite piece_tokens_app. simpl.
  rewrite piece_tokens_app, !piece_tokens_join, map_map, map_repeat.
  reflexivity.
Qed.

Lemma prepare_insert_pieces :
  cols <> [] ->
  sqlite3.parse (piece_tokens (insert_pieces tn cols))
  = Some (sqlite3.Insert tn cols (length cols)).
Proof.
  intros Hne. rewrite insert_tokens.
  unfold sqlite3.parse. simpl sqlite3.kw. cbv iota.
  unfold sqlite3.parse_insert. simpl sqlite3.kw. rewrite Hname. simpl andb. cbv iota.
  rewrite until_rparen_app.
  2:{ apply join_lists_forallb; [reflexivity|].
      apply List.Forall_forall. intros ts Hin.
      now apply in_map_iff in Hin as (n & <- & Hin). }
  simpl sqlite3.kw. cbv iota. rewrite unsnoc_app.
  rewrite (split_on_join sqlite3.is_comma sqlite3.TComma
             (map (fun n => [sqlite3.TWord n]) cols)).
  2: reflexivity.
  2: now destruct cols.
  2:{ apply List.Forall_forall. intros ts Hin.
      now apply in_map_iff in Hin as (n & <- & Hin). }
  rewrite (split_on_join sqlite3.is_comma sqlite3.TComma
             (repeat [sqlite3.TQMark] (length cols))).
  2: reflexivity.
  2: now destruct cols.
  2:{ apply List.Forall_forall. intros ts Hin. now apply repeat_spec in Hin as ->. }
  assert (H1 : mapM sqlite3.parse_name (map (fun n => [sqlite3.TWord n]) cols) = Some cols).
  { apply mapM_Some. apply Forall2_fmap_l. apply Forall_Forall2_diag.
    apply List.Forall_forall. intros n Hin. rewrite forallb_forall in Hcols.
    simpl. now rewrite (Hcols _ Hin). }
  assert (H2 : mapM sqlite3.parse_placeholder (repeat [sqlite3.TQMark] (length cols))
               = Some (repeat tt (length cols))).
  { rewrite <- (map_repeat (fun _ : list sqlite3.token => tt) [sqlite3.TQMark]).
    apply mapM_map.
    apply List.Forall_forall. intros ts Hin. now apply repeat_spec in Hin as ->. }
  rewrite H1, H2. simpl. now rewrite repeat_length.
Qed.

End Insert.

Lemma prepare_insert tn (d : dict PyValue) :
  sqlite3.sql_name tn = true ->
  forallb sqlite3.sql_name (keys d) = true ->
  d <> [] ->
  sqlite3.prepare (OrmModel.insert_sql tn d)
  = Some (sqlite3.Insert tn (keys d) (length d)).
Proof.
  intros Hn Hcols Hne. unfold sqlite3.prepare.
  rewrite insert_sql_render, (lex_render _ (insert_spaced _ _ Hn Hcols)).
  change (Some ?x ≫= ?f) with (f x). cbv beta.
  rewrite (prepare_insert_pieces _ _ Hn Hcols).
  - unfold keys. now rewrite List.length_map.
  - now destruct d.
Qed.

(** ** Binding of parameters *)

Lemma adapt_value_of v x : sqlite3.adapt v = Ok x -> x = value_of v.
Proof.
  destruct v as [|b|z|f|s|o]; simpl; try congruence.
  - destruct (sqlite3.int64 z); congruence.
  - destruct f; congruence.
Qed.

Lemma adapt_all_ok vs xs : sqlite3.adapt_all vs = Ok xs -> xs = map value_of vs.
Proof.
  revert xs. induction vs as [|v vs IH]; simpl; intros xs H; [congruence|].
  destruct (sqlite3.adapt v) as [x|e] eqn:Hv; [|discriminate].
  destruct (sqlite3.adapt_all vs) as [ys|e]; [|discriminate].
  injection H as <-. now rewrite (adapt_value_of _ _ Hv), (IH ys).
Qed.

Lemma adapt_all_bindable vs :
  forallb bindable vs = true -> sqlite3.adapt_all vs = Ok (map value_of vs).
Proof.
  induction vs as [|v vs IH]; simpl; intros H; [reflexivity|].
  apply andb_prop in H as [Hv Hvs]. unfold bindable in Hv.
  destruct (sqlite3.adapt v) as [x|e] eqn:Hx; [|discriminate].
  now rewrite (IH Hvs), (adapt_value_of _ _ Hx).
Qed.

(** ** The dictionary built by [save] *)

Lemma dict_set_fresh {V} (d : dict V) k v :
  ~ In k (keys d) -> dict_set d k v = d ++ [(k, v)].
Proof.
  induction d as [|[k' v'] d IH]; simpl; intros Hk; [reflexivity|].
  destruct (String.eqb k' k) eqn:E.
  - apply String.eqb_eq in E. tauto.
  - rewrite IH; [reflexivity|tauto].
Qed.

Lemma collect_spec self items acc :
  List.NoDup (keys acc ++ keys items) ->
  forallb (fun item => negb (mismatch self item)) items = true ->
  OrmModel.collect self items acc
  = Ok (acc ++ map (fun item => (fst item, getattr self (fst item))) items).
Proof.
  revert acc. induction items as [|[n f] items IH]; intros acc Hnd Hall; simpl.
  - now rewrite app_nil_r.
  - simpl in Hall. apply andb_prop in Hall as [Hm Hall].
    unfold mismatch in Hm. simpl in Hm. apply negb_true_iff in Hm. rewrite Hm.
    unfold keys in Hnd. simpl in Hnd.
    rewrite dict_set_fresh.
    + rewrite IH; [now rewrite <- app_assoc| |assumption].
      unfold keys. rewrite map_app. simpl. now rewrite <- app_assoc.
    + apply NoDup_remove_2 in Hnd. intros Hin. apply Hnd.
      apply in_or_app. now left.
Qed.

(** ** Columns named by an insert *)

Lemma has_dup_NoDup l : sqlite3.has_dup l = false -> List.NoDup l.
Proof.
  induction l as [|x l IH]; simpl; intros H; [constructor|].
  apply orb_false_iff in H as [Hx Hl]. constructor; [|now apply IH].
  intros Hin. apply not_true_iff_false in Hx. apply Hx.
  apply existsb_exists. exists x. split; [assumption|apply String.eqb_refl].
Qed.

Lemma NoDup_map_inv {A B} (f : A -> B) l : List.NoDup (map f l) -> List.NoDup l.
Proof.
  induction l as [|x l IH]; simpl; intros H; [constructor|].
  inversion H as [|? ? Hx Hl]; subst. constructor; [|now apply IH].
  intros Hin. apply Hx. now apply in_map.
Qed.

Lemma supplied_absent cols vals n :
  ~ In (lower n) (map lower cols) -> sqlite3.supplied cols vals n = sqlite3.Null.
Proof.
  revert vals. induction cols as [|c cols IH]; intros vals Hn; [reflexivity|].
  destruct vals as [|v vals]; [reflexivity|]. simpl in *.
  unfold sqlite3.name_eqb. destruct (String.eqb (lower c) (lower n)) eqn:E.
  - apply String.eqb_eq in E. tauto.
  - apply IH. tauto.
Qed.

Lemma supplied_map cols vals :
  List.NoDup (map lower cols) -> length vals = length cols ->
  map (sqlite3.supplied cols vals) cols = vals.
Proof.
  revert vals. induction cols as [|c cols IH]; intros vals Hnd Hlen.
  - now destruct vals.
  - destruct vals as [|v vals]; [discriminate|]. simpl in Hnd, Hlen.
    inversion Hnd as [|? ? Hc Hcols]; subst.
    simpl. unfold sqlite3.name_eqb at 1. rewrite String.eqb_refl. f_equal.
    transitivity (map (sqlite3.supplied cols vals) cols);
      [|apply IH; [assumption|lia]].
    apply map_ext_in. intros n Hin. simpl.
    unfold sqlite3.name_eqb. destruct (String.eqb (lower c) (lower n)) eqn:E;
      [|reflexivity].
    apply String.eqb_eq in E. exfalso. apply Hc. rewrite E. now apply in_map.
Qed.

Lemma find_column_some cols c :
  In c cols -> is_Some (sqlite3.find_column cols (sqlite3.col_name c)).
Proof.
  induction cols as [|c' cols IH]; simpl; [tauto|]. intros Hin.
  destruct (sqlite3.name_eqb (sqlite3.col_name c') (sqlite3.col_name c)) eqn:E.
  - eauto.
  - destruct Hin as [->|Hin].
    + unfold sqlite3.name_eqb in E. now rewrite String.eqb_refl in E.
    + destruct (IH Hin) as [x ->]. simpl. eauto.
Qed.

(** ** The primary-key field of a record type *)

Lemma pk_split (fields : dict OrmField) :
  (length (List.filter is_pk fields) <= 1)%nat ->
  existsb is_pk fields = true ->
  exists pre item post,
    fields = pre ++ item :: post /\ is_pk item = true
    /\ forallb (fun x => negb (is_pk x)) pre = true
    /\ forallb (fun x => negb (is_pk x)) post = true.
Proof.
  intros Hlen Hex.
  destruct (first_split _ _ Hex) as (pre & item & post & -> & Hpre & Hitem).
  exists pre, item, post. repeat split; try assumption.
  rewrite List.filter_app in Hlen. simpl in Hlen. rewrite Hitem in Hlen.
  rewrite List.length_app in Hlen. simpl in Hlen.
  assert (Hpost : List.filter is_pk post = [])
    by (destruct (List.filter is_pk post); [reflexivity|simpl in Hlen; lia]).
  apply forallb_forall. intros x Hx. apply negb_true_iff, not_true_iff_false.
  intros Hpk. assert (Hin : In x (List.filter is_pk post)) by now apply filter_In.
  rewrite Hpost in Hin. exact Hin.
Qed.

Lemma pk_column_fields pre item post :
  forallb (fun x => negb (is_pk x)) pre = true ->
  is_pk item = true ->
  sqlite3.pk_column (map field_column (pre ++ item :: post))
  = Some (length pre, field_column item).
Proof.
  intros Hpre Hitem. induction pre as [|x pre IH]; simpl.
  - unfold is_pk in Hitem. now rewrite Hitem.
  - simpl in Hpre. apply andb_prop in Hpre as [Hx Hpre].
    apply negb_true_iff in Hx. unfold is_pk in Hx. rewrite Hx.
    now rewrite (IH Hpre).
Qed.

Lemma stored_not_pk rid (g : string * OrmField -> PyValue) l :
  forallb (fun x => negb (is_pk x)) l = true ->
  map (fun item => stored_value rid item (g item)) l
  = map (fun item => value_of (g item)) l.
Proof.
  intros H. apply map_ext_in. intros item Hin.
  rewrite forallb_forall in H. specialize (H _ Hin).
  apply negb_true_iff in H. unfold is_pk in H. unfold stored_value.
  now rewrite H.
Qed.

Lemma insert_middle {A} (l1 l2 : list A) x y :
  <[length l1 := y]> (l1 ++ x :: l2) = l1 ++ y :: l2.
Proof. induction l1 as [|a l1 IH]; [reflexivity|]. simpl. now rewrite IH. Qed.

Lemma fold_max_bound b (rs : list sqlite3.row) m :
  (m < b)%Z -> Forall (fun r => (fst r < b)%Z) rs ->
  (fold_right (fun r m => Z.max (fst r) m) m rs < b)%Z.
Proof.
  intros Hm Hall. induction Hall as [|r rs Hr _ IH]; simpl; [assumption|]. lia.
Qed.

Lemma next_rowid_available auto rs :
  Forall (fun r => (fst r < sqlite3.max_rowid)%Z) rs ->
  exists rid, sqlite3.next_rowid auto rs = Ok rid.
Proof.
  intros Hall. unfold sqlite3.next_rowid, sqlite3.largest_rowid.
  destruct rs as [|r rs]; [now exists 1%Z|].
  inversion Hall as [|? ? Hr Hrs]; subst.
  pose proof (fold_max_bound _ rs (fst r) Hr Hrs) as Hb.
  destruct auto.
  - assert (H : (Z.max 0 (fold_right (fun r m => Z.max (fst r) m) (fst r) rs)
                 <? sqlite3.max_rowid)%Z = true).
    { apply Z.ltb_lt. unfold sqlite3.max_rowid in *. lia. }
    rewrite H. eauto.
  - apply Z.ltb_lt in Hb. rewrite Hb. eauto.
Qed.

Lemma value_fits n f v :
  declared f = true ->
  value_of v = sqlite3.Null \/ isinstance v (expected_type f) = true ->
  sqlite3.fits_column (field_column (n, f)) (value_of v) = true.
Proof.
  intros Hd Hv. unfold sqlite3.fits_column, field_column. simpl.
  unfold declared in Hd.
  destruct (expected_type f) eqn:Ht; try discriminate;
    apply String.eqb_eq in Hd; rewrite Hd; simpl;
    (destruct Hv as [->|Hv]; [reflexivity|]);
    destruct v as [|b|z|x|s|o]; try discriminate Hv; try reflexivity.
  now destruct x.
Qed.

(** ** [save] on a declared table *)

Section Save.

Variable self : instance.
Variable c : sqlite3.connection.
Variable t : sqlite3.table.

Hypothesis Hok : schema_ok (__class__ self) = true.
Hypothesis Htable : table_of (__class__ self) c = Some t.
Hypothesis Hcolumns : sqlite3.columns t = table_columns (__class__ self).

Lemma column_names_lower :
  map (fun col => lower (sqlite3.col_name col)) (table_columns (__class__ self))
  = (if has_primary_key (__class__ self) then [] else ["id"])
    ++ map lower (keys (_fields (__class__ self))).
Proof.
  unfold table_columns, keys. rewrite map_app, !map_map.
  now destruct (has_primary_key (__class__ self)).
Qed.

Lemma names_distinct :
  List.NoDup (map lower (keys (_fields (__class__ self))))
  /\ (has_primary_key (__class__ self) = false ->
      ~ In "id" (map lower (keys (_fields (__class__ self))))).
Proof.
  pose proof Hok as H. unfold schema_ok in H.
  apply andb_prop in H as [H _]. apply andb_prop in H as [_ H].
  apply negb_true_iff, has_dup_NoDup in H. rewrite column_names_lower in H.
  split.
  - now apply NoDup_app_remove_l in H.
  - intros Hpk. rewrite Hpk in H. simpl in H. now inversion H.
Qed.

Lemma save_collect :
  forallb (fun item => negb (mismatch self item)) (_fields (__class__ self)) = true ->
  OrmModel.collect self (_fields (__class__ self)) [] = Ok (fields_to_insert self).
Proof.
  intros Hall. rewrite collect_spec; [reflexivity| |assumption].
  simpl. destruct names_distinct as [H _]. now apply NoDup_map_inv in H.
Qed.

Lemma fields_to_insert_keys : keys (fields_to_insert self) = keys (_fields (__class__ self)).
Proof. unfold fields_to_insert, keys. now rewrite map_map. Qed.

Lemma fields_to_insert_values : values (fields_to_insert self) = current_values self.
Proof. unfold fields_to_insert, values, current_values. now rewrite map_map. Qed.

Lemma fields_to_insert_length :
  length (fields_to_insert self) = length (_fields (__class__ self)).
Proof. unfold fields_to_insert. now rewrite List.length_map. Qed.

Lemma compile_insert :
  sqlite3.compile
    (sqlite3.Insert (_table_name (__class__ self)) (keys (_fields (__class__ self)))
       (length (_fields (__class__ self)))) (sqlite3.tables c)
  = Ok tt.
Proof.
  destruct (schema_ok_names _ Hok) as (_ & Hint & _).
  unfold sqlite3.compile. rewrite Hint. unfold table_of in Htable. rewrite Htable.
  rewrite Hcolumns.
  assert (Hfind : forallb (fun n => bool_decide
                     (is_Some (sqlite3.find_column (table_columns (__class__ self)) n)))
                    (keys (_fields (__class__ self))) = true).
  { apply forallb_forall. intros n Hin. apply bool_decide_eq_true_2.
    unfold keys in Hin. apply in_map_iff in Hin as (item & <- & Hin).
    apply (find_column_some _ (field_column item)).
    unfold table_columns. apply in_or_app. right. now apply in_map. }
  rewrite Hfind. unfold keys. rewrite List.length_map, Nat.eqb_refl. reflexivity.
Qed.

Lemma stored_values vals :
  length vals = length (_fields (__class__ self)) ->
  map (fun col => sqlite3.supplied (keys (_fields (__class__ self))) vals
                    (sqlite3.col_name col))
    (table_columns (__class__ self))
  = pad_null (__class__ self) ++ vals.
Proof.
  intros Hlen. destruct names_distinct as [Hnd Hid].
  unfold table_columns, pad_null. rewrite map_app. f_equal.
  - destruct (has_primary_key (__class__ self)); [reflexivity|]. simpl.
    now rewrite supplied_absent by (now apply Hid).
  - rewrite map_map. simpl.
    transitivity (map (sqlite3.supplied (keys (_fields (__class__ self))) vals)
                    (keys (_fields (__class__ self)))).
    + unfold keys. now rewrite map_map.
    + apply supplied_map; [assumption|]. unfold keys. now rewrite List.length_map.
Qed.

Lemma insert_unfold vals :
  length vals = length (_fields (__class__ self)) ->
  sqlite3.insert (_table_name (__class__ self)) (keys (_fields (__class__ self)))
    vals (sqlite3.tables c)
  = if forallb (fun x => sqlite3.fits_column (fst x) (snd x))
         (combine (table_columns (__class__ self)) (pad_null (__class__ self) ++ vals))
    then r ← sqlite3.new_row t (pad_null (__class__ self) ++ vals);
         Ok (<[lower (_table_name (__class__ self))
               := sqlite3.mk_table (table_columns (__class__ self))
                    (sqlite3.insert_row r (sqlite3.rows t))]> (sqlite3.tables c))
    else Raise Unmodelled.
Proof.
  intros Hlen. unfold sqlite3.insert. unfold table_of in Htable. rewrite Htable.
  rewrite Hcolumns, <- (stored_values vals Hlen).
  set (g := fun col => sqlite3.supplied _ vals (sqlite3.col_name col)).
  assert (Hf : forall l, forallb (fun col => sqlite3.fits_column col (g col)) l
               = forallb (fun x => sqlite3.fits_column (fst x) (snd x))
                   (combine l (map g l))).
  { induction l as [|a l IH]; [reflexivity|]. simpl. now rewrite IH. }
  now rewrite Hf.
Qed.

Lemma save_unfold :
  _fields (__class__ self) <> [] ->
  forallb (fun item => negb (mismatch self item)) (_fields (__class__ self)) = true ->
  OrmModel.save self c
  = match insert_outcome self c with
    | Ok d =>
        (Ok tt,
         sqlite3.mk_connection d
           (sqlite3.trace c
            ++ [sqlite3.Execute
                  (OrmModel.insert_sql (_table_name (__class__ self)) (fields_to_insert self))
                  (current_values self);
                sqlite3.Commit]))
    | Raise e =>
        (Raise e,
         sqlite3.mk_connection (sqlite3.tables c)
           (sqlite3.trace c
            ++ [sqlite3.Execute
                  (OrmModel.insert_sql (_table_name (__class__ self)) (fields_to_insert self))
                  (current_values self)]))
    end.
Proof.
  intros Hne Hall. destruct (schema_ok_names _ Hok) as (Hn & _ & Hf).
  unfold OrmModel.save. rewrite (save_collect Hall).
  unfold mbind at 1, M_bind, execute, commit, sqlite3.run.
  rewrite prepare_insert.
  - rewrite fields_to_insert_keys, fields_to_insert_length, compile_insert.
    rewrite fields_to_insert_values.
    unfold current_values at 1. rewrite List.length_map.
    simpl sqlite3.placeholders. rewrite Nat.eqb_refl.
    unfold insert_outcome. simpl sqlite3.step.
    destruct (sqlite3.adapt_all (current_values self)) as [vals|e]; simpl;
      [|reflexivity].
    destruct (sqlite3.insert _ _ vals _) as [d|e]; simpl; [|reflexivity].
    now rewrite <- app_assoc.
  - exact Hn.
  - rewrite fields_to_insert_keys. apply forallb_forall. intros n Hin.
    unfold keys in Hin. apply in_map_iff in Hin as (item & <- & Hin).
    rewrite forallb_forall in Hf. specialize (Hf _ Hin).
    now apply andb_prop in Hf as [H _].
  - unfold fields_to_insert. now destruct (_fields (__class__ self)).
Qed.

Lemma pk_count :
  (length (List.filter is_pk (_fields (__class__ self))) <= 1)%nat.
Proof.
  pose proof Hok as H. unfold schema_ok in H.
  apply andb_prop in H as [_ H]. now apply Nat.leb_le in H.
Qed.

Lemma field_declared item :
  In item (_fields (__class__ self)) -> declared (snd item) = true.
Proof.
  intros Hin. destruct (schema_ok_names _ Hok) as (_ & _ & Hf).
  rewrite forallb_forall in Hf. specialize (Hf _ Hin).
  now apply andb_prop in Hf as [_ H].
Qed.

Lemma nth_map_middle {A B} (g : A -> B) pre x rest d :
  nth (length pre) (map g pre ++ x :: rest) d = x.
Proof.
  rewrite <- (List.length_map g pre). apply nth_middle.
Qed.

Ltac case_existsb :=
  match goal with
  | |- context [existsb ?p ?l] => destruct (existsb p l)
  end.

(** The row that the engine builds is the expected row. *)
Lemma new_row_result r :
  sqlite3.new_row t (pad_null (__class__ self) ++ map value_of (current_values self))
  = Ok r ->
  snd r = expected_row self (fst r).
Proof.
  unfold sqlite3.new_row, expected_row, pad_null, current_values.
  rewrite Hcolumns. unfold table_columns.
  destruct (has_primary_key (__class__ self)) eqn:Hpk.
  - destruct (pk_split _ pk_count Hpk) as (pre & [n f] & post & Hf & Hitem & Hpre & Hpost).
    assert (Hd : declared f = true).
    { apply (field_declared (n, f)). rewrite Hf. apply in_or_app. right. now left. }
    rewrite Hf. simpl app. rewrite (pk_column_fields _ _ _ Hpre Hitem).
    rewrite !map_app. simpl map. rewrite !map_map.
    rewrite (stored_not_pk _ _ pre Hpre), (stored_not_pk _ _ post Hpost).
    replace (length pre)
      with (length (map (fun x => value_of (getattr self (fst x))) pre))
      by apply List.length_map.
    rewrite nth_middle. unfold is_pk in Hitem. simpl in Hitem.
    unfold sqlite3.is_rowid_alias, field_column, stored_value. simpl.
    rewrite Hitem. simpl.
    destruct (declared_sql_type _ Hd) as [E|[E|E]]; rewrite E; simpl.
    + destruct (value_of (getattr self n)) eqn:Hv; simpl.
      * destruct (sqlite3.next_rowid true (sqlite3.rows t)) as [rid|e]; simpl;
          [|discriminate].
        intros [= <-]. simpl. now rewrite insert_middle.
      * case_existsb; [discriminate|].
        now intros [= <-].
      * discriminate.
      * discriminate.
    + case_existsb; [discriminate|].
      destruct (sqlite3.next_rowid false (sqlite3.rows t)) as [rid|e]; simpl;
        [|discriminate].
      now intros [= <-].
    + case_existsb; [discriminate|].
      destruct (sqlite3.next_rowid false (sqlite3.rows t)) as [rid|e]; simpl;
        [|discriminate].
      now intros [= <-].
  - simpl.
    destruct (sqlite3.next_rowid true (sqlite3.rows t)) as [rid|e]; simpl;
      [|discriminate].
    intros [= <-]. simpl. f_equal. rewrite map_map. symmetry.
    apply stored_not_pk. apply forallb_forall. intros x Hx.
    apply negb_true_iff, not_true_iff_false. intros Hx'.
    unfold has_primary_key in Hpk. apply not_true_iff_false in Hpk. apply Hpk.
    apply existsb_exists. now exists x.
Qed.

(** The engine accepts the row when the primary key, if supplied, is not
    taken, and the rowids in use leave room for one more. *)
Lemma new_row_accepts :
  Forall (fun item =>
            primary_key (snd item) = true ->
            (value_of (getattr self (fst item)) = sqlite3.Null
             \/ isinstance (getattr self (fst item)) (expected_type (snd item)) = true)
            /\ key_taken t (value_of (getattr self (fst item))) = false)
    (_fields (__class__ self)) ->
  Forall (fun r => (fst r < sqlite3.max_rowid)%Z) (sqlite3.rows t) ->
  exists r,
    sqlite3.new_row t (pad_null (__class__ self) ++ map value_of (current_values self))
    = Ok r.
Proof.
  intros Hkey Hroom.
  unfold sqlite3.new_row, pad_null, current_values.
  unfold key_taken in Hkey. rewrite Hcolumns in *. unfold table_columns in *.
  destruct (has_primary_key (__class__ self)) eqn:Hpk.
  - destruct (pk_split _ pk_count Hpk) as (pre & [n f] & post & Hf & Hitem & Hpre & Hpost).
    assert (Hin : In (n, f) (_fields (__class__ self))).
    { rewrite Hf. apply in_or_app. right. now left. }
    pose proof (field_declared _ Hin) as Hd. simpl in Hd.
    rewrite List.Forall_forall in Hkey. specialize (Hkey _ Hin Hitem).
    simpl in Hkey. destruct Hkey as [Hclass Hfree].
    rewrite Hf in *. simpl app in *. rewrite (pk_column_fields _ _ _ Hpre Hitem) in *.
    rewrite !map_app. simpl map. rewrite !map_map.
    rewrite nth_map_middle. unfold is_pk in Hitem. simpl in Hitem.
    unfold sqlite3.is_rowid_alias, field_column in *. simpl in *.
    rewrite Hitem in *. simpl in *.
    destruct (next_rowid_available true _ Hroom) as [rid1 H1].
    destruct (next_rowid_available false _ Hroom) as [rid2 H2].
    unfold declared in Hd.
    destruct (expected_type f) eqn:Ht; try discriminate;
      apply String.eqb_eq in Hd; rewrite Hd in *; simpl in *.
    + destruct Hclass as [Hnull|Hinst].
      * rewrite Hnull, H1. simpl. eauto.
      * destruct (getattr self n) as [|b|z|x|s|o]; try discriminate Hinst;
          simpl in *; rewrite Hfree; eauto.
    + rewrite Hfree, H2. simpl. eauto.
    + rewrite Hfree, H2. simpl. eauto.
  - simpl. destruct (next_rowid_available true _ Hroom) as [rid1 H1].
    rewrite H1. simpl. eauto.
Qed.

(** The values of the fields fit their columns. *)
Lemma values_fit :
  forallb (fun item => negb (mismatch self item)) (_fields (__class__ self)) = true ->
  Forall (fun item =>
            primary_key (snd item) = true ->
            value_of (getattr self (fst item)) = sqlite3.Null
            \/ isinstance (getattr self (fst item)) (expected_type (snd item)) = true)
    (_fields (__class__ self)) ->
  forallb (fun x => sqlite3.fits_column (fst x) (snd x))
    (combine (table_columns (__class__ self))
       (pad_null (__class__ self) ++ map value_of (current_values self))) = true.
Proof.
  intros Hall Hkey. unfold table_columns, pad_null, current_values.
  assert (Hf : forallb (fun x => sqlite3.fits_column (fst x) (snd x))
                 (combine (map field_column (_fields (__class__ self)))
                    (map value_of (map (fun item => getattr self (fst item))
                                     (_fields (__class__ self))))) = true).
  { rewrite map_map.
    assert (Hi : forall item, In item (_fields (__class__ self)) ->
                   sqlite3.fits_column (field_column item)
                     (value_of (getattr self (fst item))) = true).
    { intros [n f] Hin. apply value_fits; [now apply (field_declared (n, f))|].
      rewrite List.Forall_forall in Hkey. specialize (Hkey _ Hin).
      rewrite forallb_forall in Hall. specialize (Hall _ Hin).
      unfold mismatch in Hall. simpl in *.
      destruct (primary_key f); [now apply Hkey|].
      simpl in Hall. apply negb_true_iff, negb_false_iff in Hall. now right. }
    revert Hi. generalize (_fields (__class__ self)). intros l.
    induction l as [|item l IH]; intros Hi; [reflexivity|].
    simpl. rewrite Hi by now left. apply IH. intros x Hx. apply Hi. now right. }
  destruct (has_primary_key (__class__ self)); [exact Hf|].
  simpl. exact Hf.
Qed.

End Save.

(** ** The row added by [save] *)


Lemma insert_row_perm r rs : Permutation (sqlite3.insert_row r rs) (r :: rs).
Proof.
  induction rs as [|r' rs IH]; [reflexivity|]. simpl.
  destruct (fst r <? fst r')%Z; [reflexivity|].
  rewrite IH. apply perm_swap.
Qed.

Lemma well_typed_no_mismatch self :
  well_typed self = true ->
  forallb (fun item => negb (mismatch self item)) (_fields (__class__ self)) = true.
Proof.
  intros H. rewrite <- H. apply forallb_eq. intros [n f]. unfold mismatch. simpl.
  now destruct (primary_key f), (isinstance _ _).
Qed.


(** A successful [save] adds the expected row and changes nothing else. *)
Lemma save_adds_row (self : instance) (c : sqlite3.connection) (t : sqlite3.table) :
  schema_ok (__class__ self) = true ->
  _fields (__class__ self) <> [] ->
  table_of (__class__ self) c = Some t ->
  sqlite3.columns t = table_columns (__class__ self) ->
  fst (OrmModel.save self c) = Ok tt ->
  exists rid,
    table_of (__class__ self) (snd (OrmModel.save self c))
    = Some (sqlite3.mk_table (sqlite3.columns t)
              (sqlite3.insert_row (rid, expected_row self rid) (sqlite3.rows t)))
    /\ forall k, k <> lower (_table_name (__class__ self)) ->
         sqlite3.tables (snd (OrmModel.save self c)) !! k = sqlite3.tables c !! k.
Proof.
  intros Hok Hne Htable Hcolumns Hfst.
  assert (Hall : forallb (fun item => negb (mismatch self item))
                   (_fields (__class__ self)) = true).
  { destruct (save_ok_collect _ _ Hfst) as [d Hd]. now apply collect_ok_inv in Hd. }
  pose proof (save_unfold self c t Hok Htable Hcolumns Hne Hall) as Hsave.
  assert (Hlen : length (map value_of (current_values self))
                 = length (_fields (__class__ self))).
  { unfold current_values. now rewrite !List.length_map. }
  rewrite Hsave in Hfst |- *.
  unfold insert_outcome in *.
  destruct (sqlite3.adapt_all (current_values self)) as [vals|e] eqn:Hvals;
    [|discriminate]. simpl in *.
  apply adapt_all_ok in Hvals. subst vals.
  rewrite (insert_unfold self c t Hok Htable Hcolumns _ Hlen) in *.
  destruct (forallb _ (combine (table_columns (__class__ self)) _)); [|discriminate].
  destruct (sqlite3.new_row t _) as [[rid vals]|e] eqn:Hrow; [|discriminate].
  simpl in *.
  apply (new_row_result self t Hok Hcolumns) in Hrow. simpl in Hrow.
  subst vals. exists rid. split.
  - unfold table_of. simpl. rewrite lookup_insert_eq. now rewrite Hcolumns.
  - intros k Hk. simpl. now rewrite lookup_insert_ne.
Qed.




(** ** [all] *)






(** ** [filter] *)

Lemma combine_criteria (kwargs : dict PyValue) :
  combine (keys kwargs) (map value_of (values kwargs))
  = map (fun kv => (fst kv, value_of (snd kv))) kwargs.
Proof.
  unfold keys, values.
  induction kwargs as [|[k v] kwargs IH]; [reflexivity|]. simpl. now rewrite IH.
Qed.

Lemma forallb_map_eq {A B} (f : A -> B) (p : B -> bool) l :
  forallb p (map f l) = forallb (fun x => p (f x)) l.
Proof. induction l as [|a l IH]; [reflexivity|]. simpl. now rewrite IH. Qed.

Lemma eqb_null x : sqlite3.eqb x sqlite3.Null = false.
Proof. now destruct x. Qed.

Lemma filter_runs cls (kwargs : dict PyValue) c t :
  sqlite3.sql_name (_table_name cls) = true ->
  sqlite3.internal_name (_table_name cls) = false ->
  table_of cls c = Some t ->
  kwargs <> [] ->
  forallb (criterion_ok t) kwargs = true ->
  OrmModel.filter cls kwargs c
  = (Ok (map tuple_of
           (List.filter (fun r => forallb (criterion_holds t r) kwargs)
              (sqlite3.rows t))),
     sqlite3.mk_connection (sqlite3.tables c)
       (sqlite3.trace c
        ++ [sqlite3.Execute (OrmModel.filter_sql (_table_name cls) kwargs)
              (values kwargs)])).
Proof.
  intros Hn Hint Htable Hne Hok. unfold table_of in Htable.
  assert (Hnames : forallb sqlite3.sql_name (keys kwargs) = true).
  { unfold keys. rewrite forallb_map_eq.
    apply forallb_forall. intros kv Hin. rewrite forallb_forall in Hok.
    specialize (Hok _ Hin). unfold criterion_ok in Hok.
    apply andb_prop in Hok as [Hok _]. now apply andb_prop in Hok as [Hok _]. }
  assert (Hbind : forallb bindable (values kwargs) = true).
  { unfold values. rewrite forallb_map_eq.
    apply forallb_forall. intros kv Hin. rewrite forallb_forall in Hok.
    specialize (Hok _ Hin). unfold criterion_ok in Hok.
    apply andb_prop in Hok as [Hok _]. now apply andb_prop in Hok as [_ Hok]. }
  assert (Hcols : forallb (fun n => bool_decide
                    (is_Some (sqlite3.find_column (sqlite3.columns t) n)))
                    (keys kwargs) = true).
  { unfold keys. rewrite forallb_map_eq.
    apply forallb_forall. intros kv Hin. rewrite forallb_forall in Hok.
    specialize (Hok _ Hin). unfold criterion_ok in Hok.
    apply andb_prop in Hok as [_ Hok]. apply bool_decide_eq_true_2.
    destruct (sqlite3.find_column (sqlite3.columns t) (fst kv)); [eauto|discriminate]. }
  assert (Hfits : forallb (fun '(n, v) =>
                    match sqlite3.find_column (sqlite3.columns t) n with
                    | Some (_, col) => sqlite3.fits_column col v
                    | None => false
                    end) (combine (keys kwargs) (map value_of (values kwargs))) = true).
  { rewrite combine_criteria, forallb_map_eq.
    apply forallb_forall. intros kv Hin. rewrite forallb_forall in Hok.
    specialize (Hok _ Hin). unfold criterion_ok in Hok.
    now apply andb_prop in Hok as [_ Hok]. }
  assert (Hprep : sqlite3.prepare (OrmModel.filter_sql (_table_name cls) kwargs)
                  = Some (sqlite3.Select (_table_name cls) (keys kwargs))).
  { rewrite (prepare_filter _ _ Hn Hnames). now destruct kwargs. }
  assert (Hlen : (length (values kwargs) =? length (keys kwargs))%nat = true).
  { unfold values, keys. rewrite !List.length_map. apply Nat.eqb_refl. }
  assert (Hrun : sqlite3.run (OrmModel.filter_sql (_table_name cls) kwargs)
                   (values kwargs) (sqlite3.tables c)
                 = Ok (sqlite3.tables c,
                       map snd (List.filter
                                  (fun r => forallb (criterion_holds t r) kwargs)
                                  (sqlite3.rows t)))).
  { unfold sqlite3.run. rewrite Hprep.
    unfold sqlite3.compile. rewrite Hint, Htable, Hcols.
    change (negb true) with false. cbv iota.
    change (Ok tt ≫= ?f) with (f tt). cbv beta.
    unfold sqlite3.placeholders. rewrite Hlen, (adapt_all_bindable _ Hbind).
    change (Ok ?x ≫= ?f) with (f x). cbv beta.
    unfold sqlite3.step, sqlite3.select. rewrite Htable, Hfits.
    change (Ok ?x ≫= ?f) with (f x). cbv beta.
    rewrite (filter_ext (sqlite3.satisfies t (keys kwargs) (map value_of (values kwargs)))
               (fun r => forallb (criterion_holds t r) kwargs)); [reflexivity|].
    intros r. unfold sqlite3.satisfies. now rewrite combine_criteria, forallb_map_eq. }
  unfold OrmModel.filter, mbind, M_bind, execute. rewrite Hrun.
  unfold fetchall, mret, M_ret, tuple_of. now rewrite map_map.
Qed.





(** * Further properties of the program *)

(** ** Statements by their first word *)

Lemma tokenize_word w s :
  is_word w = true ->
  sqlite3.tokenize (w +:+ " " +:+ s) = cons (sqlite3.TWord w) <$> sqlite3.tokenize s.
Proof.
  intros Hw. unfold sqlite3.tokenize.
  assert (Ha : sqlite3.all_chars sqlite3.ident_char w = true).
  { destruct w; [discriminate|exact Hw]. }
  rewrite (lex_word _ _ _ Ha). rewrite append_nil_l.
  rewrite append_cons, append_nil_l.
  cbn [sqlite3.lex]. 
  change (sqlite3.ident_char " ") with false. cbv iota.
  change (sqlite3.delimiter " ") with (Some (@None sqlite3.token)). cbv iota.
  destruct (sqlite3.lex "" s) as [ts|]; [|reflexivity].
  simpl. destruct w; [discriminate|reflexivity].
Qed.

Lemma parse_create_kind ts st :
  sqlite3.parse_create ts = Some st -> exists n cols, st = sqlite3.CreateTable n cols.
Proof.
  unfold sqlite3.parse_create. intros H.
  repeat match type of H with
         | context [match ?x with _ => _ end] => destruct x; try discriminate
         end.
  destruct (mapM sqlite3.parse_column _) as [cols|]; [|discriminate].
  injection H as <-. eauto.
Qed.

Lemma parse_insert_kind ts st :
  sqlite3.parse_insert ts = Some st -> exists n cols k, st = sqlite3.Insert n cols k.
Proof.
  unfold sqlite3.parse_insert. intros H.
  repeat match type of H with
         | context [match ?x with _ => _ end] => destruct x; try discriminate
         end.
  destruct (mapM sqlite3.parse_name _) as [cols|]; [|discriminate].
  simpl in H. destruct (mapM sqlite3.parse_placeholder _) as [ps|]; [|discriminate].
  injection H as <-. eauto.
Qed.

Lemma parse_select_kind ts st :
  sqlite3.parse_select ts = Some st -> exists n conds, st = sqlite3.Select n conds.
Proof.
  unfold sqlite3.parse_select. intros H.
  repeat match type of H with
         | context [match ?x with _ => _ end] => destruct x; try discriminate
         end.
  - injection H as <-. eauto.
  - destruct (mapM sqlite3.parse_condition _) as [cs|]; [|discriminate].
    injection H as <-. eauto.
Qed.

Lemma prepare_word w s st :
  is_word w = true ->
  sqlite3.prepare (w +:+ " " +:+ s) = Some st ->
  exists ts, sqlite3.parse (sqlite3.TWord w :: ts) = Some st.
Proof.
  intros Hw. unfold sqlite3.prepare. rewrite (tokenize_word _ _ Hw).
  destruct (sqlite3.tokenize s) as [ts|]; [|discriminate].
  simpl. eauto.
Qed.

Lemma prepare_create_kind s st :
  sqlite3.prepare ("CREATE " +:+ s) = Some st ->
  exists n cols, st = sqlite3.CreateTable n cols.
Proof.
  intros H. apply (prepare_word "CREATE") in H as [ts H]; [|reflexivity].
  now apply parse_create_kind in H.
Qed.

Lemma prepare_insert_kind s st :
  sqlite3.prepare ("INSERT " +:+ s) = Some st ->
  exists n cols k, st = sqlite3.Insert n cols k.
Proof.
  intros H. apply (prepare_word "INSERT") in H as [ts H]; [|reflexivity].
  now apply parse_insert_kind in H.
Qed.

Lemma prepare_select_kind s st :
  sqlite3.prepare ("SELECT " +:+ s) = Some st ->
  exists n conds, st = sqlite3.Select n conds.
Proof.
  intros H. apply (prepare_word "SELECT") in H as [ts H]; [|reflexivity].
  now apply parse_select_kind in H.
Qed.

(** A statement that reads leaves the tables as they are. *)
Lemma execute_select s params c :
  sqlite3.tables (snd (execute ("SELECT " +:+ s) params c)) = sqlite3.tables c.
Proof.
  unfold execute.
  destruct (sqlite3.run _ params (sqlite3.tables c)) as [[d rs]|e] eqn:Hrun;
    [|reflexivity].
  simpl. unfold sqlite3.run in Hrun.
  destruct (sqlite3.prepare _) as [st|] eqn:Hp; [|discriminate].
  apply prepare_select_kind in Hp as (n & conds & ->).
  destruct (sqlite3.compile _ _); [|discriminate]. simpl in Hrun.
  destruct (_ =? _)%nat; [|discriminate].
  destruct (sqlite3.adapt_all params) as [vals|]; [|discriminate].
  simpl in Hrun. destruct (sqlite3.select _ _ _ _); [|discriminate].
  simpl in Hrun. now injection Hrun as <- _.
Qed.

Lemma execute_trace sql params c :
  sqlite3.trace (snd (execute sql params c))
  = sqlite3.trace c ++ [sqlite3.Execute sql params].
Proof.
  unfold execute. now destruct (sqlite3.run _ _ _) as [[d rs]|e].
Qed.

Lemma snd_bind_fetchall (m : M sqlite3.cursor) c :
  snd ((m ≫= fun cur => mret (fetchall cur)) c) = snd (m c).
Proof.
  unfold mbind, M_bind. now destruct (m c) as [[cur|e] c'].
Qed.

(** X12. [all] executes one statement, the SELECT, makes no commit and
    leaves every table as it was, for every record type and database,
    whether it returns or raises. *)
Theorem all_reads_only (cls : class) (c : sqlite3.connection) :
  sqlite3.tables (snd (OrmModel.all cls c)) = sqlite3.tables c
  /\ sqlite3.trace (snd (OrmModel.all cls c))
     = sqlite3.trace c
       ++ [sqlite3.Execute ("SELECT * FROM " +:+ _table_name cls) []].
Proof.
  unfold OrmModel.all. rewrite snd_bind_fetchall. split.
  - apply (execute_select ("* FROM " +:+ _table_name cls)).
  - apply execute_trace.
Qed.

(** X13. [filter] executes one statement, the SELECT with one
    [name = ?] condition per keyword argument and the argument values as
    parameters, makes no commit and leaves every table as it was, for all
    arguments, whether it returns or raises. *)
Theorem filter_reads_only (cls : class) (kwargs : dict PyValue)
    (c : sqlite3.connection) :
  sqlite3.tables (snd (OrmModel.filter cls kwargs c)) = sqlite3.tables c
  /\ sqlite3.trace (snd (OrmModel.filter cls kwargs c))
     = sqlite3.trace c
       ++ [sqlite3.Execute
             ("SELECT * FROM " +:+ _table_name cls +:+ " WHERE "
              +:+ join " AND " (map (fun k => k +:+ " = ?") (keys kwargs)))
             (values kwargs)].
Proof.
  unfold OrmModel.filter. rewrite snd_bind_fetchall. split.
  - apply (execute_select ("* FROM " +:+ _table_name cls +:+ " WHERE "
              +:+ join " AND " (map (fun k => k +:+ " = ?") (keys kwargs)))).
  - apply execute_trace.
Qed.

Lemma execute_raises sql params c e :
  fst (execute sql params c) = Raise e ->
  sqlite3.tables (snd (execute sql params c)) = sqlite3.tables c.
Proof.
  unfold execute. now destruct (sqlite3.run _ _ _) as [[d rs]|e'].
Qed.

Lemma execute_insert s params c cur :
  fst (execute ("INSERT " +:+ s) params c) = Ok cur ->
  exists k t r,
    sqlite3.tables c !! k = Some t
    /\ sqlite3.tables (snd (execute ("INSERT " +:+ s) params c))
       = <[k := sqlite3.mk_table (sqlite3.columns t)
                  (sqlite3.insert_row r (sqlite3.rows t))]> (sqlite3.tables c).
Proof.
  unfold execute.
  destruct (sqlite3.run _ params (sqlite3.tables c)) as [[d rs]|e] eqn:Hrun;
    [|discriminate].
  intros _. simpl. unfold sqlite3.run in Hrun.
  destruct (sqlite3.prepare _) as [st|] eqn:Hp; [|discriminate].
  apply prepare_insert_kind in Hp as (n & cols & k & ->).
  destruct (sqlite3.compile _ _); [|discriminate]. simpl in Hrun.
  destruct (_ =? _)%nat; [|discriminate].
  destruct (sqlite3.adapt_all params) as [vals|]; [|discriminate].
  simpl in Hrun. unfold sqlite3.insert in Hrun.
  destruct (sqlite3.tables c !! lower n) as [t|] eqn:Ht; [|discriminate].
  destruct (forallb _ _); [|discriminate].
  destruct (sqlite3.new_row _ _) as [r|]; [|discriminate].
  simpl in Hrun. injection Hrun as <- _. now exists (lower n), t, r.
Qed.

Lemma execute_create s params c :
  sqlite3.tables (snd (execute ("CREATE " +:+ s) params c)) = sqlite3.tables c
  \/ exists k cols,
       sqlite3.tables c !! k = None
       /\ sqlite3.tables (snd (execute ("CREATE " +:+ s) params c))
          = <[k := sqlite3.mk_table cols []]> (sqlite3.tables c).
Proof.
  unfold execute.
  destruct (sqlite3.run _ params (sqlite3.tables c)) as [[d rs]|e] eqn:Hrun;
    [|now left].
  simpl. unfold sqlite3.run in Hrun.
  destruct (sqlite3.prepare _) as [st|] eqn:Hp; [|discriminate].
  apply prepare_create_kind in Hp as (n & cols & ->).
  destruct (sqlite3.compile _ _); [|discriminate]. simpl in Hrun.
  destruct (_ =? _)%nat; [|discriminate].
  destruct (sqlite3.adapt_all params) as [vals|]; [|discriminate].
  simpl in Hrun. unfold sqlite3.create_table in Hrun.
  destruct (sqlite3.internal_name n); [discriminate|].
  destruct (sqlite3.tables c !! lower n) as [t|] eqn:Ht.
  - injection Hrun as <- _. now left.
  - repeat match type of Hrun with
           | context [if ?b then _ else _] => destruct b; try discriminate
           end.
    simpl in Hrun. injection Hrun as <- _. right. now exists (lower n), cols.
Qed.

Lemma bind_commit_ok (m : M sqlite3.cursor) c :
  fst ((m ≫= fun _ => commit) c) = Ok tt ->
  exists cur, fst (m c) = Ok cur
    /\ sqlite3.tables (snd ((m ≫= fun _ => commit) c)) = sqlite3.tables (snd (m c))
    /\ sqlite3.trace (snd ((m ≫= fun _ => commit) c))
       = sqlite3.trace (snd (m c)) ++ [sqlite3.Commit].
Proof.
  unfold mbind, M_bind. destruct (m c) as [[cur|e] c']; [|discriminate].
  intros _. now exists cur.
Qed.

Lemma bind_commit_raise (m : M sqlite3.cursor) c e :
  fst ((m ≫= fun _ => commit) c) = Raise e ->
  fst (m c) = Raise e /\ snd ((m ≫= fun _ => commit) c) = snd (m c).
Proof.
  unfold mbind, M_bind. destruct (m c) as [[cur|e'] c']; [discriminate|].
  simpl. intros [= ->]. now split.
Qed.

(** X7. For every instance and database: when [save] returns, exactly
    one row has been added to exactly one table, whose columns and other
    rows are kept, and the connection has executed one statement and
    committed once; when [save] raises, for whatever reason, every table
    is as it was and nothing was committed (at most the one statement was
    attempted). *)
Theorem save_changes_one_table (self : instance) (c : sqlite3.connection) :
  (fst (OrmModel.save self c) = Ok tt ->
   (exists k t r,
      sqlite3.tables c !! k = Some t
      /\ sqlite3.tables (snd (OrmModel.save self c))
         = <[k := sqlite3.mk_table (sqlite3.columns t)
                    (sqlite3.insert_row r (sqlite3.rows t))]> (sqlite3.tables c))
   /\ exists sql params,
        sqlite3.trace (snd (OrmModel.save self c))
        = sqlite3.trace c ++ [sqlite3.Execute sql params; sqlite3.Commit])
  /\ (forall e,
        fst (OrmModel.save self c) = Raise e ->
        sqlite3.tables (snd (OrmModel.save self c)) = sqlite3.tables c
        /\ (sqlite3.trace (snd (OrmModel.save self c)) = sqlite3.trace c
            \/ exists sql params,
                 sqlite3.trace (snd (OrmModel.save self c))
                 = sqlite3.trace c ++ [sqlite3.Execute sql params])).
Proof.
  unfold OrmModel.save.
  destruct (OrmModel.collect self _ []) as [d|e0].
  - set (sql := OrmModel.insert_sql _ d). split.
    + intros Hok. apply bind_commit_ok in Hok as (cur & Hex & Ht & Htr).
      rewrite Ht, Htr, execute_trace. split.
      * apply (execute_insert
                 ("INTO " +:+ _table_name (__class__ self) +:+ " ("
                  +:+ join ", " (keys d) +:+ ")" +:+ "VALUES ("
                  +:+ join ", " (repeat "?" (length d)) +:+ ")") _ _ cur).
        exact Hex.
      * exists sql, (values d). now rewrite <- app_assoc.
    + intros e He. apply bind_commit_raise in He as [He ->].
      split; [now apply execute_raises with e|].
      right. exists sql, (values d). apply execute_trace.
  - split; [discriminate|]. intros e _. split; [reflexivity|now left].
Qed.

(** X2. Declaring a record type, whatever its name and attributes and
    whether it succeeds or raises, keeps every table of the database with
    its columns and rows: the tables afterwards are the tables before, or
    the tables before with one new, empty table under a name that was
    free. *)
Theorem declaration_keeps_tables (name : string) (dct : dict attribute)
    (c : sqlite3.connection) :
  (forall k t,
      sqlite3.tables c !! k = Some t ->
      sqlite3.tables (snd (OrmModelMeta.__new__ name dct c)) !! k = Some t)
  /\ (sqlite3.tables (snd (OrmModelMeta.__new__ name dct c)) = sqlite3.tables c
      \/ exists k cols,
           sqlite3.tables c !! k = None
           /\ sqlite3.tables (snd (OrmModelMeta.__new__ name dct c))
              = <[k := sqlite3.mk_table cols []]> (sqlite3.tables c)).
Proof.
  assert (H : sqlite3.tables (snd (OrmModelMeta.__new__ name dct c)) = sqlite3.tables c
      \/ exists k cols,
           sqlite3.tables c !! k = None
           /\ sqlite3.tables (snd (OrmModelMeta.__new__ name dct c))
              = <[k := sqlite3.mk_table cols []]> (sqlite3.tables c)).
  { unfold OrmModelMeta.__new__. destruct (negb _); [|now left].
    rewrite snd_bind_ret. unfold OrmModelMeta._create_table.
    set (cls := mk_class _ _ _).
    pose proof (execute_create
                  ("TABLE IF NOT EXISTS " +:+ _table_name cls +:+ " ("
                   +:+ join ", " (OrmModelMeta.column_clauses cls) +:+ ")") [] c) as He.
    change ("CREATE " +:+ _) with (OrmModelMeta.create_table_sql cls) in He.
    unfold mbind, M_bind.
    destruct (execute (OrmModelMeta.create_table_sql cls) [] c) as [[cur|e] c'];
      exact He. }
  split; [|exact H]. intros k t Hk.
  destruct H as [->|(k' & cols & Hnone & ->)]; [exact Hk|].
  rewrite lookup_insert_ne; [exact Hk|]. intros ->. congruence.
Qed.

(** ** Declarations that the database refuses or ignores *)

Lemma create_table_outcome cls c :
  sqlite3.sql_name (_table_name cls) = true ->
  forallb (fun item => sqlite3.sql_name (fst item) && declared (snd item))
    (_fields cls) = true ->
  OrmModelMeta._create_table cls c
  = match sqlite3.create_table (_table_name cls) (table_columns cls)
            (sqlite3.tables c) with
    | Ok d =>
        (Ok tt,
         sqlite3.mk_connection d
           (sqlite3.trace c
            ++ [sqlite3.Execute (OrmModelMeta.create_table_sql cls) [];
                sqlite3.Commit]))
    | Raise e =>
        (Raise e,
         sqlite3.mk_connection (sqlite3.tables c)
           (sqlite3.trace c
            ++ [sqlite3.Execute (OrmModelMeta.create_table_sql cls) []]))
    end.
Proof.
  intros Hname Hfields.
  unfold OrmModelMeta._create_table, mbind, M_bind, execute, sqlite3.run.
  rewrite (prepare_create cls Hname Hfields).
  unfold sqlite3.compile, sqlite3.step.
  destruct (sqlite3.create_table _ _ _) as [d|e]; simpl; [|reflexivity].
  unfold commit. simpl. now rewrite <- app_assoc.
Qed.

Lemma new_outcome name dct c :
  name <> "OrmModel" ->
  OrmModelMeta.__new__ name dct c
  = let cls := mk_class name (OrmModelMeta.own_fields dct) (lower name) in
    match OrmModelMeta._create_table cls c with
    | (Ok _, c') => (Ok cls, c')
    | (Raise e, c') => (Raise e, c')
    end.
Proof.
  intros Hname. unfold OrmModelMeta.__new__.
  apply String.eqb_neq in Hname. rewrite Hname.
  change (negb false) with true. cbv iota.
  unfold mbind at 1, M_bind at 1.
  now destruct (OrmModelMeta._create_table _ c) as [[[]|e] c'].
Qed.

(** X3. Declaring a record type whose table already exists succeeds and
    leaves the database as it was ([CREATE TABLE IF NOT EXISTS]): the
    table keeps its columns and rows, whatever fields the declaration
    lists, be they other fields than those of the table. *)
Theorem redeclaration_changes_nothing (name : string) (dct : dict attribute)
    (c : sqlite3.connection) (t : sqlite3.table) :
  let cls := mk_class name (OrmModelMeta.own_fields dct) (lower name) in
  sqlite3.sql_name (_table_name cls) = true ->
  sqlite3.internal_name (_table_name cls) = false ->
  forallb (fun item => sqlite3.sql_name (fst item) && declared (snd item))
    (_fields cls) = true ->
  table_of cls c = Some t ->
  fst (OrmModelMeta.__new__ name dct c) = Ok cls
  /\ sqlite3.tables (snd (OrmModelMeta.__new__ name dct c)) = sqlite3.tables c.
Proof.
  intros cls Hname Hint Hfields Ht.
  destruct (String.eqb_spec name "OrmModel") as [->|Hne].
  - now split.
  - rewrite (new_outcome _ _ _ Hne). fold cls. cbv zeta.
    rewrite (create_table_outcome cls c Hname Hfields).
    unfold sqlite3.create_table. rewrite Hint.
    unfold table_of in Ht. rewrite Ht. now split.
Qed.


Lemma redeclaration_changes_nothing_witness :
  fst (OrmModelMeta.__new__ "Person" person_v2_dct people_db) = Ok Person_v2
  /\ sqlite3.tables (snd (OrmModelMeta.__new__ "Person" person_v2_dct people_db))
     = sqlite3.tables people_db.
Proof.
  apply (redeclaration_changes_nothing "Person" person_v2_dct people_db
           (sqlite3.mk_table (table_columns Person)
              [(1, [sqlite3.Integer 1; sqlite3.Text "Ann"; sqlite3.Integer 30;
                    sqlite3.Real f4_5]);
               (2, [sqlite3.Integer 2; sqlite3.Text "Bo"; sqlite3.Integer 25;
                    sqlite3.Real f3_0])]));
    vm_compute; reflexivity.
Defined.

Lemma has_dup_in x l : In x l -> sqlite3.has_dup (x :: l) = true.
Proof.
  intros Hin. simpl. apply orb_true_iff. left.
  apply existsb_exists. exists x. split; [exact Hin|apply String.eqb_refl].
Qed.

(** X4. A record type with more than one field marked primary key has
    no synthesized [id], and each of these fields carries [PRIMARY KEY];
    when its table does not exist yet, the declaration executes the
    CREATE TABLE statement, the database refuses it with an operational
    error (more than one primary key), nothing is committed and no table
    is created. *)
Theorem two_primary_keys_rejected (name : string) (dct : dict attribute)
    (c : sqlite3.connection) :
  let cls := mk_class name (OrmModelMeta.own_fields dct) (lower name) in
  name <> "OrmModel" ->
  sqlite3.sql_name (_table_name cls) = true ->
  sqlite3.internal_name (_table_name cls) = false ->
  forallb (fun item => sqlite3.sql_name (fst item) && declared (snd item))
    (_fields cls) = true ->
  sqlite3.has_dup (map lower (keys (_fields cls))) = false ->
  (1 < length (List.filter (fun item => primary_key (snd item)) (_fields cls)))%nat ->
  table_of cls c = None ->
  OrmModelMeta.__new__ name dct c
  = (Raise (OperationalError MultiplePrimaryKeys),
     sqlite3.mk_connection (sqlite3.tables c)
       (sqlite3.trace c ++ [sqlite3.Execute (OrmModelMeta.create_table_sql cls) []])).
Proof.
  intros cls Hne Hname Hint Hfields Hdup Hpk Ht.
  rewrite (new_outcome _ _ _ Hne). fold cls. cbv zeta.
  rewrite (create_table_outcome cls c Hname Hfields).
  unfold sqlite3.create_table. rewrite Hint.
  unfold table_of in Ht. rewrite Ht.
  assert (Hhas : has_primary_key cls = true).
  { unfold has_primary_key. destruct (existsb _ _) eqn:He; [reflexivity|].
    rewrite (no_primary_key _ He) in Hpk. simpl in Hpk. lia. }
  unfold table_columns. rewrite Hhas.
  change ([] ++ ?l) with l.
  replace (map (fun col => lower (sqlite3.col_name col)) (map field_column (_fields cls)))
    with (map lower (keys (_fields cls)))
    by (unfold keys; now rewrite !map_map).
  rewrite Hdup. rewrite filter_primary_key, List.length_map.
  apply Nat.ltb_lt in Hpk. now rewrite Hpk.
Qed.

Lemma two_primary_keys_rejected_witness :
  OrmModelMeta.__new__ "Pair" two_keys_dct new_file
  = (Raise (OperationalError MultiplePrimaryKeys),
     sqlite3.mk_connection ∅
       [sqlite3.Execute
          "CREATE TABLE IF NOT EXISTS pair (a INTEGER PRIMARY KEY AUTOINCREMENT, b TEXT PRIMARY KEY)"
          []]).
Proof.
  apply (two_primary_keys_rejected "Pair" two_keys_dct new_file);
    [discriminate | reflexivity | reflexivity | reflexivity | reflexivity
    | simpl; lia | reflexivity].
Defined.

(** X5. A record type without a primary key that declares a field named
    [id] (in any case of the letters) collides with the synthesized [id]
    column: when its table does not exist yet, the declaration raises the
    operational error of a duplicate column name and creates no table. *)
Theorem id_field_clashes (name : string) (dct : dict attribute)
    (c : sqlite3.connection) (n : string) :
  let cls := mk_class name (OrmModelMeta.own_fields dct) (lower name) in
  name <> "OrmModel" ->
  sqlite3.sql_name (_table_name cls) = true ->
  sqlite3.internal_name (_table_name cls) = false ->
  forallb (fun item => sqlite3.sql_name (fst item) && declared (snd item))
    (_fields cls) = true ->
  existsb (fun item => primary_key (snd item)) (_fields cls) = false ->
  In n (keys (_fields cls)) ->
  lower n = "id" ->
  table_of cls c = None ->
  OrmModelMeta.__new__ name dct c
  = (Raise (OperationalError DuplicateColumn),
     sqlite3.mk_connection (sqlite3.tables c)
       (sqlite3.trace c ++ [sqlite3.Execute (OrmModelMeta.create_table_sql cls) []])).
Proof.
  intros cls Hne Hname Hint Hfields Hpk Hin Hid Ht.
  rewrite (new_outcome _ _ _ Hne). fold cls. cbv zeta.
  rewrite (create_table_outcome cls c Hname Hfields).
  unfold sqlite3.create_table. rewrite Hint.
  unfold table_of in Ht. rewrite Ht.
  unfold table_columns, has_primary_key. rewrite Hpk.
  change (map ?f ([id_column] ++ ?l)) with (f id_column :: map f l).
  rewrite has_dup_in; [reflexivity|].
  rewrite map_map. change (lower (sqlite3.col_name id_column)) with "id".
  rewrite <- Hid. unfold keys in Hin. apply in_map_iff in Hin as (item & <- & Hin).
  apply in_map_iff. now exists item.
Qed.

Lemma id_field_clashes_witness :
  OrmModelMeta.__new__ "Item" id_field_dct new_file
  = (Raise (OperationalError DuplicateColumn),
     sqlite3.mk_connection ∅
       [sqlite3.Execute
          "CREATE TABLE IF NOT EXISTS item (id INTEGER PRIMARY KEY AUTOINCREMENT, id INTEGER, name TEXT)"
          []]).
Proof.
  apply (id_field_clashes "Item" id_field_dct new_file "id");
    [discriminate | reflexivity | reflexivity | reflexivity | reflexivity
    | simpl; now left | reflexivity | reflexivity].
Defined.

(** ** Statements that the schema of the database refuses *)

Lemma execute_compile_error sql params c st e :
  sqlite3.prepare sql = Some st ->
  sqlite3.compile st (sqlite3.tables c) = Raise e ->
  execute sql params c
  = (Raise e,
     sqlite3.mk_connection (sqlite3.tables c)
       (sqlite3.trace c ++ [sqlite3.Execute sql params])).
Proof.
  intros Hp Hc. unfold execute, sqlite3.run. now rewrite Hp, Hc.
Qed.

Lemma bind_raise {A B} (m : M A) (f : A -> M B) c e c' :
  m c = (Raise e, c') -> (m ≫= f) c = (Raise e, c').
Proof. intros H. unfold mbind, M_bind. now rewrite H. Qed.

Lemma save_executes self c :
  List.NoDup (keys (_fields (__class__ self))) ->
  well_typed self = true ->
  OrmModel.save self c
  = (execute (OrmModel.insert_sql (_table_name (__class__ self)) (fields_to_insert self))
       (current_values self) ≫= fun _ => commit) c.
Proof.
  intros Hnd Hwt. unfold OrmModel.save.
  rewrite (collect_spec self _ []);
    [|exact Hnd|now apply well_typed_no_mismatch].
  change ([] ++ ?l) with l. fold (fields_to_insert self).
  now rewrite fields_to_insert_values.
Qed.

Lemma prepare_save self :
  sqlite3.sql_name (_table_name (__class__ self)) = true ->
  forallb sqlite3.sql_name (keys (_fields (__class__ self))) = true ->
  _fields (__class__ self) <> [] ->
  sqlite3.prepare
    (OrmModel.insert_sql (_table_name (__class__ self)) (fields_to_insert self))
  = Some (sqlite3.Insert (_table_name (__class__ self))
            (keys (_fields (__class__ self)))
            (length (_fields (__class__ self)))).
Proof.
  intros Hname Hkeys Hne.
  rewrite prepare_insert; rewrite ?fields_to_insert_keys; try assumption.
  - now rewrite fields_to_insert_length.
  - unfold fields_to_insert. intros H. apply map_eq_nil in H. contradiction.
Qed.

(** X16. On a database without the table of the record type, as for
    the base class [OrmModel] whose table is never created, [all] raises
    the operational error of a missing table, and so do [filter] with at
    least one criterion and [save] of a well-typed instance; [save] then
    leaves the database unchanged. *)
Theorem missing_table_raises (cls : class) (c : sqlite3.connection) :
  sqlite3.sql_name (_table_name cls) = true ->
  sqlite3.internal_name (_table_name cls) = false ->
  table_of cls c = None ->
  fst (OrmModel.all cls c) = Raise (OperationalError NoSuchTable)
  /\ (forall kwargs,
        kwargs <> [] ->
        forallb sqlite3.sql_name (keys kwargs) = true ->
        fst (OrmModel.filter cls kwargs c) = Raise (OperationalError NoSuchTable))
  /\ (forall self,
        __class__ self = cls ->
        _fields cls <> [] ->
        forallb sqlite3.sql_name (keys (_fields cls)) = true ->
        List.NoDup (keys (_fields cls)) ->
        well_typed self = true ->
        fst (OrmModel.save self c) = Raise (OperationalError NoSuchTable)
        /\ sqlite3.tables (snd (OrmModel.save self c)) = sqlite3.tables c).
Proof.
  intros Hname Hint Ht. unfold table_of in Ht.
  split; [|split].
  - unfold OrmModel.all.
    erewrite bind_raise; [reflexivity|].
    apply execute_compile_error with (st := sqlite3.Select (_table_name cls) []).
    + now apply prepare_select.
    + simpl. now rewrite Hint, Ht.
  - intros kwargs Hne Hkeys. unfold OrmModel.filter.
    erewrite bind_raise; [reflexivity|].
    apply execute_compile_error
      with (st := sqlite3.Select (_table_name cls) (keys kwargs)).
    + rewrite prepare_filter by assumption. now destruct kwargs.
    + simpl. now rewrite Hint, Ht.
  - intros self <- Hne Hkeys Hnd Hwt.
    rewrite (save_executes self c Hnd Hwt).
    rewrite (bind_raise _ _ c (OperationalError NoSuchTable)
               (sqlite3.mk_connection (sqlite3.tables c)
                  (sqlite3.trace c
                   ++ [sqlite3.Execute
                         (OrmModel.insert_sql (_table_name (__class__ self))
                            (fields_to_insert self))
                         (current_values self)]))); [now split|].
    apply execute_compile_error
      with (st := sqlite3.Insert (_table_name (__class__ self))
                    (keys (_fields (__class__ self)))
                    (length (_fields (__class__ self)))).
    + now apply prepare_save.
    + simpl. now rewrite Hint, Ht.
Qed.


Lemma missing_table_raises_witness :
  fst (OrmModel.all OrmModel_class new_file) = Raise (OperationalError NoSuchTable)
  /\ fst (OrmModel.filter OrmModel_class [("id", PyInt 1)] new_file)
     = Raise (OperationalError NoSuchTable)
  /\ fst (OrmModel.save ann new_file) = Raise (OperationalError NoSuchTable).
Proof.
  split; [|split].
  - apply (missing_table_raises OrmModel_class new_file); reflexivity.
  - apply (missing_table_raises OrmModel_class new_file);
      [reflexivity | reflexivity | reflexivity | discriminate | reflexivity].
  - apply (proj2 (proj2 (missing_table_raises Person new_file
                           eq_refl eq_refl eq_refl)) ann);
      [reflexivity | discriminate | reflexivity
      | repeat constructor; simpl; intuition discriminate | reflexivity].
Defined.

(** X14. [filter] with a keyword argument that names no column of the
    table raises the operational error of an unknown column; the database
    is unchanged. *)
Theorem filter_unknown_column (cls : class) (kwargs : dict PyValue)
    (c : sqlite3.connection) (t : sqlite3.table) (k : string) :
  sqlite3.sql_name (_table_name cls) = true ->
  sqlite3.internal_name (_table_name cls) = false ->
  table_of cls c = Some t ->
  forallb sqlite3.sql_name (keys kwargs) = true ->
  In k (keys kwargs) ->
  sqlite3.find_column (sqlite3.columns t) k = None ->
  OrmModel.filter cls kwargs c
  = (Raise (OperationalError NoSuchColumn),
     sqlite3.mk_connection (sqlite3.tables c)
       (sqlite3.trace c
        ++ [sqlite3.Execute (OrmModel.filter_sql (_table_name cls) kwargs)
              (values kwargs)])).
Proof.
  intros Hname Hint Ht Hkeys Hin Hk. unfold table_of in Ht.
  unfold OrmModel.filter. apply bind_raise.
  apply execute_compile_error
    with (st := sqlite3.Select (_table_name cls) (keys kwargs)).
  - rewrite prepare_filter by assumption.
    destruct kwargs; [destruct Hin|reflexivity].
  - simpl. rewrite Hint, Ht.
    replace (forallb _ (keys kwargs)) with false; [reflexivity|].
    symmetry. apply not_true_is_false. intros Hall.
    rewrite forallb_forall in Hall. specialize (Hall k Hin).
    apply bool_decide_eq_true in Hall. rewrite Hk in Hall.
    now destruct Hall.
Qed.

Lemma filter_unknown_column_witness :
  OrmModel.filter Person [("nam", PyStr "Ann")] people_db
  = (Raise (OperationalError NoSuchColumn),
     sqlite3.mk_connection (sqlite3.tables people_db)
       (sqlite3.trace people_db
        ++ [sqlite3.Execute "SELECT * FROM person WHERE nam = ?" [PyStr "Ann"]])).
Proof.
  apply (filter_unknown_column Person [("nam", PyStr "Ann")] people_db
           (sqlite3.mk_table (table_columns Person)
              [(1, [sqlite3.Integer 1; sqlite3.Text "Ann"; sqlite3.Integer 30;
                    sqlite3.Real f4_5]);
               (2, [sqlite3.Integer 2; sqlite3.Text "Bo"; sqlite3.Integer 25;
                    sqlite3.Real f3_0])]) "nam");
    [reflexivity | reflexivity | vm_compute; reflexivity | reflexivity
    | simpl; now left | reflexivity].
Defined.

(** X11. When the table of the record type lacks a column for one of
    the fields (the table was created by an earlier declaration with
    other fields), [save] of a well-typed instance raises the operational
    error of an unknown column; the INSERT is the only statement
    attempted and the database is unchanged. *)
Theorem save_unknown_column (self : instance) (c : sqlite3.connection)
    (t : sqlite3.table) (n : string) :
  let cls := __class__ self in
  sqlite3.sql_name (_table_name cls) = true ->
  sqlite3.internal_name (_table_name cls) = false ->
  table_of cls c = Some t ->
  forallb sqlite3.sql_name (keys (_fields cls)) = true ->
  List.NoDup (keys (_fields cls)) ->
  well_typed self = true ->
  In n (keys (_fields cls)) ->
  sqlite3.find_column (sqlite3.columns t) n = None ->
  OrmModel.save self c
  = (Raise (OperationalError NoSuchColumn),
     sqlite3.mk_connection (sqlite3.tables c)
       (sqlite3.trace c
        ++ [sqlite3.Execute
              (OrmModel.insert_sql (_table_name cls) (fields_to_insert self))
              (current_values self)])).
Proof.
  intros cls Hname Hint Ht Hkeys Hnd Hwt Hin Hn. unfold table_of in Ht.
  rewrite (save_executes self c Hnd Hwt). apply bind_raise.
  apply execute_compile_error
    with (st := sqlite3.Insert (_table_name cls) (keys (_fields cls))
                  (length (_fields cls))).
  - apply prepare_save; try assumption.
    intros H. fold cls in H. rewrite H in Hin. destruct Hin.
  - simpl. rewrite Hint, Ht.
    replace (forallb _ (keys (_fields cls))) with false; [reflexivity|].
    symmetry. apply not_true_is_false. intros Hall.
    rewrite forallb_forall in Hall. specialize (Hall n Hin).
    apply bool_decide_eq_true in Hall. rewrite Hn in Hall.
    now destruct Hall.
Qed.


Lemma save_unknown_column_witness :
  OrmModel.save ann_v2 people_db
  = (Raise (OperationalError NoSuchColumn),
     sqlite3.mk_connection (sqlite3.tables people_db)
       (sqlite3.trace people_db
        ++ [sqlite3.Execute
              "INSERT INTO person (name, age, score, email)VALUES (?, ?, ?, ?)"
              [PyStr "Ann"; PyInt 30; PyFloat f4_5; PyStr "ann@example.org"]])).
Proof.
  apply (save_unknown_column ann_v2 people_db
           (sqlite3.mk_table (table_columns Person)
              [(1, [sqlite3.Integer 1; sqlite3.Text "Ann"; sqlite3.Integer 30;
                    sqlite3.Real f4_5]);
               (2, [sqlite3.Integer 2; sqlite3.Text "Bo"; sqlite3.Integer 25;
                    sqlite3.Real f3_0])]) "email");
    [reflexivity | reflexivity | vm_compute; reflexivity | reflexivity
    | repeat constructor; simpl; intuition discriminate | reflexivity
    | simpl; tauto | reflexivity].
Defined.

(** ** The three field classes *)

(** X1. The three field classes.  An [OrmInteger] field declares an
    INTEGER column, an [OrmText] field a TEXT column and an [OrmFloat]
    field a REAL column; marked primary key, the clause ends in
    [PRIMARY KEY], followed by [AUTOINCREMENT] for [OrmInteger] only.  The
    check of [save] accepts, in a field that is not the primary key, an
    [int] or a [bool] for [OrmInteger], a [str] for [OrmText] and a
    [float] for [OrmFloat], and nothing else (an [int] is refused by
    [OrmFloat]); a field marked primary key passes the check with any
    value. *)
Theorem field_classes_accept (self : instance) (n : string) (pk : bool) :
  (OrmModelMeta.field_definition n (OrmInteger pk)
   = n +:+ (if pk then " INTEGER PRIMARY KEY AUTOINCREMENT" else " INTEGER")
   /\ (mismatch self (n, OrmInteger false) = false
       <-> (exists z, getattr self n = PyInt z)
           \/ (exists b, getattr self n = PyBool b)))
  /\ (OrmModelMeta.field_definition n (OrmText pk)
      = n +:+ (if pk then " TEXT PRIMARY KEY" else " TEXT")
      /\ (mismatch self (n, OrmText false) = false
          <-> exists s, getattr self n = PyStr s))
  /\ (OrmModelMeta.field_definition n (OrmFloat pk)
      = n +:+ (if pk then " REAL PRIMARY KEY" else " REAL")
      /\ (mismatch self (n, OrmFloat false) = false
          <-> exists f, getattr self n = PyFloat f))
  /\ mismatch self (n, OrmInteger true) = false
  /\ mismatch self (n, OrmText true) = false
  /\ mismatch self (n, OrmFloat true) = false.
Proof.
  unfold OrmModelMeta.field_definition, mismatch. simpl.
  repeat split; try (destruct pk; simpl; now rewrite ?append_assoc).
  all: try (destruct (getattr self n); simpl; intros H; try discriminate; now eauto).
  all: intros H; try destruct H as [H|H]; destruct H as [x ->]; reflexivity.
Qed.

(** ** Attributes set by [__init__] *)

Lemma dict_get_set_ne {V} (d : dict V) k v n :
  n <> k -> dict_get (dict_set d k v) n = dict_get d n.
Proof.
  intros Hne. induction d as [|[k' v'] d IH]; simpl.
  - destruct (String.eqb_spec k n); [congruence|reflexivity].
  - destruct (String.eqb_spec k' k) as [->|Hk]; simpl.
    + destruct (String.eqb_spec k n); [congruence|reflexivity].
    + destruct (String.eqb_spec k' n); [reflexivity|exact IH].
Qed.

Lemma init_dict cls kwargs n :
  __dict__ (OrmModel.__init__ cls kwargs) !! n
  = if bool_decide (n ∈ keys (_fields cls)) then Some (kwargs_get kwargs n)
    else None.
Proof.
  unfold OrmModel.__init__.
  destruct (init_fold kwargs (keys (_fields cls)) (mk_instance cls ∅)) as [_ Hd].
  rewrite Hd. now destruct (bool_decide _).
Qed.

Lemma init_agree cls kwargs kwargs' :
  (forall n, In n (keys (_fields cls)) -> kwargs_get kwargs n = kwargs_get kwargs' n) ->
  OrmModel.__init__ cls kwargs = OrmModel.__init__ cls kwargs'.
Proof.
  intros Hagree.
  pose proof (init_class cls kwargs) as Hc.
  pose proof (init_class cls kwargs') as Hc'.
  assert (Hd : __dict__ (OrmModel.__init__ cls kwargs)
               = __dict__ (OrmModel.__init__ cls kwargs')).
  { apply map_eq. intros n. rewrite !init_dict.
    destruct (decide (n ∈ keys (_fields cls))) as [Hin|Hin].
    - rewrite !bool_decide_eq_true_2 by assumption.
      f_equal. apply Hagree. now apply list_elem_of_In.
    - now rewrite !bool_decide_eq_false_2 by assumption. }
  destruct (OrmModel.__init__ cls kwargs), (OrmModel.__init__ cls kwargs').
  simpl in *. congruence.
Qed.

(** X6. [__init__] sets exactly the declared fields as attributes of the
    instance: each holds the keyword argument of its name, [None] when
    there is none.  Keyword arguments that name no field are ignored
    without error, and two calls whose arguments agree on the fields build
    the same instance. *)
Theorem init_sets_fields (cls : class) (kwargs : dict PyValue) :
  __class__ (OrmModel.__init__ cls kwargs) = cls
  /\ (forall n,
        __dict__ (OrmModel.__init__ cls kwargs) !! n
        = if bool_decide (n ∈ keys (_fields cls))
          then Some (match dict_get kwargs n with Some v => v | None => PyNone end)
          else None)
  /\ (forall k v,
        ~ In k (keys (_fields cls)) ->
        OrmModel.__init__ cls (dict_set kwargs k v) = OrmModel.__init__ cls kwargs)
  /\ (forall kwargs',
        (forall n, In n (keys (_fields cls)) -> dict_get kwargs n = dict_get kwargs' n) ->
        OrmModel.__init__ cls kwargs = OrmModel.__init__ cls kwargs').
Proof.
  split; [apply init_class|]. split; [apply init_dict|]. split.
  - intros k v Hk. apply init_agree. intros n Hin. unfold kwargs_get.
    rewrite dict_get_set_ne; [reflexivity|]. intros ->. contradiction.
  - intros kwargs' Hagree. apply init_agree. intros n Hin. unfold kwargs_get.
    now rewrite (Hagree n Hin).
Qed.

(** ** [save] in terms of the row that the engine builds *)

Lemma save_by_new_row (self : instance) (c : sqlite3.connection) (t : sqlite3.table) :
  schema_ok (__class__ self) = true ->
  _fields (__class__ self) <> [] ->
  table_of (__class__ self) c = Some t ->
  sqlite3.columns t = table_columns (__class__ self) ->
  forallb (fun item => negb (mismatch self item)) (_fields (__class__ self)) = true ->
  forallb bindable (current_values self) = true ->
  forallb (fun x => sqlite3.fits_column (fst x) (snd x))
    (combine (table_columns (__class__ self))
       (pad_null (__class__ self) ++ map value_of (current_values self))) = true ->
  OrmModel.save self c
  = match sqlite3.new_row t
            (pad_null (__class__ self) ++ map value_of (current_values self)) with
    | Ok r =>
        (Ok tt,
         sqlite3.mk_connection
           (<[lower (_table_name (__class__ self))
              := sqlite3.mk_table (table_columns (__class__ self))
                   (sqlite3.insert_row r (sqlite3.rows t))]> (sqlite3.tables c))
           (sqlite3.trace c
            ++ [sqlite3.Execute
                  (OrmModel.insert_sql (_table_name (__class__ self))
                     (fields_to_insert self))
                  (current_values self);
                sqlite3.Commit]))
    | Raise e =>
        (Raise e,
         sqlite3.mk_connection (sqlite3.tables c)
           (sqlite3.trace c
            ++ [sqlite3.Execute
                  (OrmModel.insert_sql (_table_name (__class__ self))
                     (fields_to_insert self))
                  (current_values self)]))
    end.
Proof.
  intros Hok Hne Htable Hcolumns Hall Hbind Hfit.
  rewrite (save_unfold self c t Hok Htable Hcolumns Hne Hall).
  unfold insert_outcome. rewrite (adapt_all_bindable _ Hbind).
  change (Ok ?x ≫= ?f) with (f x). cbv beta.
  rewrite (insert_unfold self c t Hok Htable Hcolumns).
  - rewrite Hfit. now destruct (sqlite3.new_row t _).
  - unfold current_values. now rewrite !List.length_map.
Qed.

Lemma save_ok_inv (self : instance) (c : sqlite3.connection) (t : sqlite3.table) :
  schema_ok (__class__ self) = true ->
  _fields (__class__ self) <> [] ->
  table_of (__class__ self) c = Some t ->
  sqlite3.columns t = table_columns (__class__ self) ->
  fst (OrmModel.save self c) = Ok tt ->
  forallb (fun item => negb (mismatch self item)) (_fields (__class__ self)) = true
  /\ forallb bindable (current_values self) = true
  /\ forallb (fun x => sqlite3.fits_column (fst x) (snd x))
       (combine (table_columns (__class__ self))
          (pad_null (__class__ self) ++ map value_of (current_values self))) = true.
Proof.
  intros Hok Hne Htable Hcolumns Hfst.
  assert (Hall : forallb (fun item => negb (mismatch self item))
                   (_fields (__class__ self)) = true).
  { destruct (save_ok_collect _ _ Hfst) as [d Hd]. now apply collect_ok_inv in Hd. }
  split; [exact Hall|].
  rewrite (save_unfold self c t Hok Htable Hcolumns Hne Hall) in Hfst.
  unfold insert_outcome in Hfst.
  destruct (sqlite3.adapt_all (current_values self)) as [vals|e] eqn:Hvals;
    [|discriminate].
  assert (Hb : forallb bindable (current_values self) = true).
  { clear Hfst. revert vals Hvals. generalize (current_values self). intros l.
    induction l as [|v l IH]; intros vals Hvals; [reflexivity|].
    simpl in Hvals. simpl. unfold bindable at 1.
    destruct (sqlite3.adapt v); [|discriminate]. simpl.
    destruct (sqlite3.adapt_all l) as [xs|]; [|discriminate]. now apply (IH xs). }
  split; [exact Hb|].
  apply adapt_all_ok in Hvals. subst vals.
  change (Ok ?x ≫= ?f) with (f x) in Hfst. cbv beta in Hfst.
  rewrite (insert_unfold self c t Hok Htable Hcolumns) in Hfst.
  - now destruct (forallb _ (combine _ _)).
  - unfold current_values. now rewrite !List.length_map.
Qed.

(** ** Keys already in use *)

Lemma SFeqb_refl f : f <> S754_nan -> SFeqb f f = true.
Proof.
  intros Hf. unfold SFeqb, SFcompare.
  destruct f as [s|s| |s m e]; try reflexivity; try congruence.
  - now destruct s.
  - rewrite Z.compare_refl, Pos.compare_cont_refl. now destruct s.
Qed.

Lemma eqb_value_of v :
  value_of v <> sqlite3.Null -> sqlite3.eqb (value_of v) (value_of v) = true.
Proof.
  destruct v as [|b|z|f|s|o]; simpl; try congruence; intros H.
  - apply Z.eqb_refl.
  - apply Z.eqb_refl.
  - destruct f; simpl in *; try congruence; now apply SFeqb_refl.
  - apply String.eqb_refl.
Qed.

Lemma in_insert_row r rs : In r (sqlite3.insert_row r rs).
Proof.
  apply (Permutation_in r (Permutation_sym (insert_row_perm r rs))). now left.
Qed.

Lemma new_row_key_taken t vals r0 vals' j col :
  sqlite3.pk_column (sqlite3.columns t) = Some (j, col) ->
  sqlite3.new_row t vals = Ok r0 ->
  nth j vals' sqlite3.Null = nth j vals sqlite3.Null ->
  nth j vals sqlite3.Null <> sqlite3.Null ->
  sqlite3.eqb (nth j vals sqlite3.Null) (nth j vals sqlite3.Null) = true ->
  sqlite3.new_row
    (sqlite3.mk_table (sqlite3.columns t) (sqlite3.insert_row r0 (sqlite3.rows t)))
    vals'
  = Raise IntegrityError.
Proof.
  intros Hpk Hrow Hsame Hnn Hrefl. unfold sqlite3.new_row in *. simpl.
  rewrite Hpk in *. rewrite Hsame.
  destruct (sqlite3.is_rowid_alias col).
  - destruct (nth j vals sqlite3.Null) as [|r|x|s] eqn:Hv;
      try congruence; try discriminate.
    match type of Hrow with
    | context [existsb ?p ?l] => destruct (existsb p l); [discriminate|]
    end.
    injection Hrow as <-.
    replace (existsb _ _) with true; [reflexivity|].
    symmetry. apply existsb_exists. exists (r, vals).
    split; [apply in_insert_row|apply Z.eqb_refl].
  - match type of Hrow with
    | context [existsb ?p ?l] => destruct (existsb p l); [discriminate|]
    end.
    destruct (sqlite3.next_rowid false (sqlite3.rows t)) as [rid|]; [|discriminate].
    simpl in Hrow. injection Hrow as <-.
    replace (existsb _ _) with true; [reflexivity|].
    symmetry. apply existsb_exists. exists (rid, vals).
    split; [apply in_insert_row|exact Hrefl].
Qed.

Lemma combine_map_map {A B C} (g : A -> B) (h : A -> C) l :
  combine (map g l) (map h l) = map (fun a => (g a, h a)) l.
Proof. induction l as [|a l IH]; [reflexivity|]. simpl. now rewrite IH. Qed.

Lemma fits_isinstance n f v :
  declared f = true ->
  sqlite3.fits_column (field_column (n, f)) (value_of v) = true ->
  value_of v <> sqlite3.Null ->
  isinstance v (expected_type f) = true.
Proof.
  intros Hd Hfit Hnn. unfold sqlite3.fits_column, field_column in Hfit.
  simpl in Hfit. unfold declared in Hd.
  destruct (expected_type f); try discriminate;
    apply String.eqb_eq in Hd; rewrite Hd in Hfit; simpl in Hfit;
    destruct v as [|b|z|x|s|o]; simpl in *; try congruence; try reflexivity;
    destruct x; simpl in *; congruence.
Qed.

Lemma pk_unique (fields : dict OrmField) a b :
  (length (List.filter is_pk fields) <= 1)%nat ->
  In a fields -> In b fields -> is_pk a = true -> is_pk b = true -> a = b.
Proof.
  intros Hlen Ha Hb Hpa Hpb.
  assert (He : existsb is_pk fields = true).
  { apply existsb_exists. now exists a. }
  destruct (pk_split _ Hlen He) as (pre & item & post & -> & Hitem & Hpre & Hpost).
  assert (Hone : forall x, In x (pre ++ item :: post) -> is_pk x = true -> x = item).
  { intros x Hx Hpx. apply in_app_or in Hx as [Hx|[Hx|Hx]].
    - rewrite forallb_forall in Hpre. specialize (Hpre _ Hx).
      rewrite Hpx in Hpre. discriminate.
    - now symmetry.
    - rewrite forallb_forall in Hpost. specialize (Hpost _ Hx).
      rewrite Hpx in Hpost. discriminate. }
  now rewrite (Hone a Ha Hpa), (Hone b Hb Hpb).
Qed.

(** X8. [save] inserts and never updates.  Once an instance with a
    primary-key value other than null has been saved, saving an instance
    of the same record type with the same primary-key value, the same
    instance in particular, raises an integrity error and leaves the
    database unchanged. *)
Theorem duplicate_key_rejected (self self' : instance) (c : sqlite3.connection)
    (t : sqlite3.table) (n : string) (f : OrmField) :
  let cls := __class__ self in
  schema_ok cls = true ->
  table_of cls c = Some t ->
  sqlite3.columns t = table_columns cls ->
  In (n, f) (_fields cls) ->
  primary_key f = true ->
  value_of (getattr self n) <> sqlite3.Null ->
  fst (OrmModel.save self c) = Ok tt ->
  __class__ self' = cls ->
  getattr self' n = getattr self n ->
  well_typed self' = true ->
  forallb bindable (current_values self') = true ->
  fst (OrmModel.save self' (snd (OrmModel.save self c))) = Raise IntegrityError
  /\ sqlite3.tables (snd (OrmModel.save self' (snd (OrmModel.save self c))))
     = sqlite3.tables (snd (OrmModel.save self c)).
Proof.
  intros cls Hok Htable Hcolumns Hin Hpk Hnn Hfst Hcls Hsame Hwt Hbind.
  subst cls.
  assert (Hne : _fields (__class__ self) <> []) by (intros E; rewrite E in Hin; destruct Hin).
  destruct (save_ok_inv self c t Hok Hne Htable Hcolumns Hfst) as (Hall & Hb & Hfit).
  pose proof (save_by_new_row self c t Hok Hne Htable Hcolumns Hall Hb Hfit) as Hsave.
  rewrite Hsave in Hfst |- *.
  destruct (sqlite3.new_row t _) as [r0|e] eqn:Hrow; [|discriminate].
  clear Hfst Hsave. cbn [snd].
  set (t1 := sqlite3.mk_table (table_columns (__class__ self))
               (sqlite3.insert_row r0 (sqlite3.rows t))).
  set (c1 := sqlite3.mk_connection _ _).
  assert (Hhas : has_primary_key (__class__ self) = true).
  { apply existsb_exists. now exists (n, f). }
  assert (Hcount : (length (List.filter is_pk (_fields (__class__ self))) <= 1)%nat)
    by apply (pk_count self Hok).
  destruct (pk_split _ Hcount Hhas) as (pre & item & post & Hf & Hitem & Hpre & Hpost).
  assert (Hitem_eq : item = (n, f)).
  { apply (pk_unique (_fields (__class__ self))); try assumption.
    rewrite Hf. apply in_or_app. right. now left. }
  subst item.
  assert (Hd : declared f = true) by apply (field_declared self Hok (n, f) Hin).
  assert (Hfit_key : sqlite3.fits_column (field_column (n, f))
                       (value_of (getattr self n)) = true).
  { unfold pad_null, table_columns, current_values in Hfit.
    rewrite Hhas in Hfit. simpl app in Hfit. rewrite map_map in Hfit.
    rewrite combine_map_map in Hfit. rewrite forallb_forall in Hfit.
    apply (Hfit (field_column (n, f), value_of (getattr self n))).
    apply in_map_iff. now exists (n, f). }
  assert (Htable1 : table_of (__class__ self') c1 = Some t1).
  { rewrite Hcls. unfold table_of, c1. simpl. apply lookup_insert_eq. }
  assert (Hok' : schema_ok (__class__ self') = true) by now rewrite Hcls.
  assert (Hne' : _fields (__class__ self') <> []) by now rewrite Hcls.
  assert (Hcolumns1 : sqlite3.columns t1 = table_columns (__class__ self'))
    by now rewrite Hcls.
  assert (Hall' := well_typed_no_mismatch self' Hwt).
  assert (Hfit' : forallb (fun x => sqlite3.fits_column (fst x) (snd x))
                    (combine (table_columns (__class__ self'))
                       (pad_null (__class__ self')
                        ++ map value_of (current_values self'))) = true).
  { apply (values_fit self' Hok' Hall'). apply List.Forall_forall.
    intros item Hi Hp. rewrite Hcls in Hi.
    assert (item = (n, f)) as ->.
    { apply (pk_unique (_fields (__class__ self))); assumption. }
    simpl. right. rewrite Hsame. now apply (fits_isinstance n). }
  rewrite (save_by_new_row self' c1 t1 Hok' Hne' Htable1 Hcolumns1 Hall' Hbind Hfit').
  assert (Hraise : sqlite3.new_row t1
                     (pad_null (__class__ self') ++ map value_of (current_values self'))
                   = Raise IntegrityError).
  { unfold t1. rewrite <- Hcolumns.
    assert (Hcol : sqlite3.pk_column (sqlite3.columns t)
                   = Some (length pre, field_column (n, f))).
    { rewrite Hcolumns. unfold table_columns.  rewrite Hhas, Hf.
      now apply pk_column_fields. }
    assert (Hnth : forall s, __class__ s = (__class__ self) ->
              nth (length pre)
                (pad_null (__class__ s) ++ map value_of (current_values s))
                sqlite3.Null
              = value_of (getattr s n)).
    { intros s Hs. unfold pad_null, current_values. rewrite Hs, Hhas, Hf.
      simpl app. rewrite !map_app. simpl map. rewrite !map_map.
      apply (nth_map_middle (fun x => value_of (getattr s (fst x)))). }
    apply (new_row_key_taken t _ r0 _ _ _ Hcol Hrow).
    - rewrite (Hnth self' Hcls), (Hnth self eq_refl). now rewrite Hsame.
    - now rewrite (Hnth self eq_refl).
    - rewrite (Hnth self eq_refl). now apply eqb_value_of. }
  rewrite Hraise. now split.
Qed.

Lemma duplicate_key_rejected_witness :
  fst (OrmModel.save keyed_record (snd (OrmModel.save keyed_record some_table_db)))
  = Raise IntegrityError
  /\ sqlite3.tables
       (snd (OrmModel.save keyed_record (snd (OrmModel.save keyed_record some_table_db))))
     = sqlite3.tables (snd (OrmModel.save keyed_record some_table_db)).
Proof.
  apply (duplicate_key_rejected keyed_record keyed_record some_table_db
           (sqlite3.mk_table (table_columns SomeTable) []) "pk" (OrmInteger true));
    [reflexivity | reflexivity | reflexivity | simpl; now left | reflexivity
    | discriminate | reflexivity | reflexivity | reflexivity | reflexivity
    | reflexivity].
Defined.

(** ** Keys assigned in sequence *)


Lemma fold_max_ge (rs : list sqlite3.row) init :
  (init <= fold_right (fun r m => Z.max (fst r) m) init rs)%Z
  /\ Forall (fun r => (fst r <= fold_right (fun r m => Z.max (fst r) m) init rs)%Z) rs.
Proof.
  induction rs as [|r rs [IH1 IH2]]; simpl.
  - split; [lia|constructor].
  - split; [lia|]. constructor; [lia|].
    eapply List.Forall_impl; [|exact IH2]. simpl. intros; lia.
Qed.

Lemma fold_max_in (rs : list sqlite3.row) init :
  fold_right (fun r m => Z.max (fst r) m) init rs = init
  \/ In (fold_right (fun r m => Z.max (fst r) m) init rs) (map fst rs).
Proof.
  induction rs as [|r rs IH]; simpl; [now left|].
  destruct (Z.max_spec (fst r) (fold_right (fun r m => Z.max (fst r) m) init rs))
    as [[_ ->]|[_ ->]]; [|now right; left].
  destruct IH as [IH|IH]; [now left|right; now right].
Qed.

Lemma largest_rowid_seq (rs : list sqlite3.row) m :
  map fst rs = map Z.of_nat (seq 1 m) ->
  sqlite3.largest_rowid rs = match m with O => None | _ => Some (Z.of_nat m) end.
Proof.
  intros Hrs. destruct rs as [|r rs].
  - destruct m; [reflexivity|discriminate].
  - destruct m as [|m]; [discriminate|].
    unfold sqlite3.largest_rowid. f_equal.
    set (F := fold_right _ _ _).
    assert (Hin : forall x, In x (fst r :: map fst rs) -> (1 <= x <= Z.of_nat (S m))%Z).
    { intros x Hx. change (fst r :: map fst rs) with (map fst (r :: rs)) in Hx.
      rewrite Hrs in Hx. apply in_map_iff in Hx as (i & <- & Hi).
      apply in_seq in Hi. lia. }
    assert (Hlast : In (Z.of_nat (S m)) (fst r :: map fst rs)).
    { change (fst r :: map fst rs) with (map fst (r :: rs)). rewrite Hrs.
      apply in_map. apply in_seq. lia. }
    destruct (fold_max_ge rs (fst r)) as [Hge1 Hge2]. fold F in Hge1, Hge2.
    assert (Hub : (F <= Z.of_nat (S m))%Z).
    { destruct (fold_max_in rs (fst r)) as [E|E]; fold F in E.
      - rewrite E. apply Hin. now left.
      - apply Hin. now right. }
    assert (Hlb : (Z.of_nat (S m) <= F)%Z).
    { destruct Hlast as [E|E]; [now rewrite <- E|].
      apply in_map_iff in E as (r' & E & Hr').
      rewrite List.Forall_forall in Hge2. specialize (Hge2 _ Hr'). now rewrite <- E. }
    lia.
Qed.

Lemma insert_row_last r0 rs :
  Forall (fun r => (fst r < fst r0)%Z) rs -> sqlite3.insert_row r0 rs = rs ++ [r0].
Proof.
  induction 1 as [|r rs Hr _ IH]; [reflexivity|]. simpl.
  destruct (Z.ltb_spec (fst r0) (fst r)); [lia|]. now rewrite IH.
Qed.

Lemma no_primary_key_fields cls :
  has_primary_key cls = false ->
  forallb (fun x => negb (is_pk x)) (_fields cls) = true.
Proof.
  intros Hpk. apply forallb_forall. intros x Hx.
  apply negb_true_iff, not_true_iff_false. intros Hx'.
  unfold has_primary_key in Hpk. apply not_true_iff_false in Hpk. apply Hpk.
  apply existsb_exists. now exists x.
Qed.

(** On a table whose keys are 1 to [m], a record type with a synthesized
    [id] gets the key [m + 1] for the next row, which is stored last. *)
Lemma save_appends (self : instance) (c : sqlite3.connection) (t : sqlite3.table) m :
  schema_ok (__class__ self) = true ->
  has_primary_key (__class__ self) = false ->
  _fields (__class__ self) <> [] ->
  table_of (__class__ self) c = Some t ->
  sqlite3.columns t = table_columns (__class__ self) ->
  map fst (sqlite3.rows t) = map Z.of_nat (seq 1 m) ->
  fst (OrmModel.save self c) = Ok tt ->
  table_of (__class__ self) (snd (OrmModel.save self c))
  = Some (sqlite3.mk_table (table_columns (__class__ self))
            (sqlite3.rows t ++ [keyed_row (self, Z.of_nat (S m))])).
Proof.
  intros Hok Hpk Hne Htable Hcolumns Hrows Hfst.
  destruct (save_ok_inv self c t Hok Hne Htable Hcolumns Hfst) as (Hall & Hb & Hfit).
  rewrite (save_by_new_row self c t Hok Hne Htable Hcolumns Hall Hb Hfit) in Hfst |- *.
  assert (Hrow : sqlite3.new_row t
                   (pad_null (__class__ self) ++ map value_of (current_values self))
                 = if (Z.of_nat m <? sqlite3.max_rowid)%Z
                   then Ok (keyed_row (self, Z.of_nat (S m)))
                   else Raise (OperationalError DatabaseFull)).
  { unfold sqlite3.new_row, pad_null. rewrite Hcolumns. unfold table_columns.
    rewrite Hpk. simpl. unfold sqlite3.next_rowid.
    rewrite (largest_rowid_seq _ m Hrows).
    destruct m as [|m]; [reflexivity|].
    replace (Z.max 0 (Z.of_nat (S m))) with (Z.of_nat (S m)) by lia.
    destruct (_ <? _)%Z; [|reflexivity]. simpl. unfold keyed_row. simpl.
    repeat f_equal; lia. }
  rewrite Hrow in Hfst |- *.
  destruct (_ <? _)%Z; [|discriminate].
  unfold table_of. simpl. rewrite lookup_insert_eq. do 2 f_equal.
  apply insert_row_last. apply List.Forall_forall. intros r Hr.
  assert (Hin : In (fst r) (map fst (sqlite3.rows t))) by now apply in_map.
  rewrite Hrows in Hin. apply in_map_iff in Hin as (i & <- & Hi).
  apply in_seq in Hi. simpl. lia.
Qed.

Lemma save_all_appends cls selfs :
  schema_ok cls = true ->
  has_primary_key cls = false ->
  _fields cls <> [] ->
  Forall (fun self => __class__ self = cls) selfs ->
  forall c t m,
    table_of cls c = Some t ->
    sqlite3.columns t = table_columns cls ->
    map fst (sqlite3.rows t) = map Z.of_nat (seq 1 m) ->
    fst (save_all selfs c) = Ok tt ->
    table_of cls (snd (save_all selfs c))
    = Some (sqlite3.mk_table (table_columns cls)
              (sqlite3.rows t
               ++ map keyed_row
                    (combine selfs (map Z.of_nat (seq (S m) (length selfs)))))).
Proof.
  intros Hok Hpk Hne Hcls. induction Hcls as [|self selfs Hself _ IH];
    intros c t m Htable Hcolumns Hrows Hfst.
  - simpl. rewrite app_nil_r, Htable, <- Hcolumns. now destruct t.
  - subst cls. simpl in Hfst |- *. unfold mbind, M_bind in Hfst |- *.
    pose proof (save_appends self c t m Hok Hpk Hne Htable Hcolumns Hrows) as Hs.
    destruct (OrmModel.save self c) as [[[]|e] c1]; [|discriminate].
    specialize (Hs eq_refl). simpl in Hs.
    rewrite (IH c1 _ (S m) Hs eq_refl); [| |exact Hfst].
    + simpl. now rewrite <- app_assoc.
    + cbn [sqlite3.rows]. rewrite seq_S, !List.map_app.
      apply (f_equal2 (@app Z)); [exact Hrows|reflexivity].
Qed.

Lemma tuple_of_keyed_row p : tuple_of (keyed_row p) = record_of p.
Proof. unfold tuple_of, keyed_row, record_of, read_back. simpl. now rewrite map_map. Qed.



Lemma declared_then_saved (name : string) (dct : dict attribute)
    (c : sqlite3.connection) (selfs : list instance) :
  let cls := mk_class name (OrmModelMeta.own_fields dct) (lower name) in
  name <> "OrmModel" ->
  schema_ok cls = true ->
  has_primary_key cls = false ->
  _fields cls <> [] ->
  table_of cls c = None ->
  Forall (fun self => __class__ self = cls) selfs ->
  fst (save_all selfs (snd (OrmModelMeta.__new__ name dct c))) = Ok tt ->
  table_of cls (snd (save_all selfs (snd (OrmModelMeta.__new__ name dct c))))
  = Some (sqlite3.mk_table (table_columns cls) (map keyed_row (numbered selfs))).
Proof.
  intros cls Hname Hok Hpk Hne Hnone Hcls Hfst.
  rewrite (new_outcome _ _ _ Hname) in Hfst |- *. fold cls in Hfst |- *.
  cbv zeta in Hfst |- *.
  rewrite (create_table_runs cls c Hok Hnone) in Hfst |- *.
  cbn [snd] in Hfst |- *.
  set (c1 := sqlite3.mk_connection _ _) in Hfst |- *.
  assert (Ht1 : table_of cls c1 = Some (sqlite3.mk_table (table_columns cls) [])).
  { unfold table_of, c1. simpl. apply lookup_insert_eq. }
  exact (save_all_appends cls selfs Hok Hpk Hne Hcls c1 _ O Ht1 eq_refl eq_refl Hfst).
Qed.



(** ** Lookup by the synthesized key *)

Lemma filter_keyed_rows (k : Z) (selfs : list instance) (a : nat) :
  List.filter (fun r : sqlite3.row => sqlite3.eqb (nth 0 (snd r) sqlite3.Null) (sqlite3.Integer k))
    (map keyed_row (combine selfs (map Z.of_nat (seq a (length selfs)))))
  = match (if (Z.of_nat a <=? k)%Z then nth_error selfs (Z.to_nat (k - Z.of_nat a))
           else None) with
    | Some self => [keyed_row (self, k)]
    | None => []
    end.
Proof.
  revert a. induction selfs as [|self selfs IH]; intros a.
  - simpl. destruct (_ <=? _)%Z; [|reflexivity].
    now destruct (Z.to_nat _).
  - simpl. rewrite (IH (S a)).
    destruct (Z.eqb_spec (Z.of_nat a) k) as [E|E].
    + subst k. rewrite Z.leb_refl, Z.sub_diag. simpl.
      destruct (Z.leb_spec (Z.of_nat (S a)) (Z.of_nat a)); [lia|reflexivity].
    + destruct (Z.leb_spec (Z.of_nat a) k) as [Hle|Hlt].
      * destruct (Z.leb_spec (Z.of_nat (S a)) k); [|lia].
        replace (Z.to_nat (k - Z.of_nat a)) with (S (Z.to_nat (k - Z.of_nat (S a))))
          by lia.
        reflexivity.
      * destruct (Z.leb_spec (Z.of_nat (S a)) k); [lia|reflexivity].
Qed.

(** X19. In the same setting, [filter(id=k)] for a 64-bit integer [k]
    returns exactly the tuple of the [k]-th instance saved, and no tuple
    when [k] is not between 1 and the number of instances saved. *)
Theorem lookup_by_id (name : string) (dct : dict attribute)
    (c : sqlite3.connection) (selfs : list instance) (k : Z) :
  let cls := mk_class name (OrmModelMeta.own_fields dct) (lower name) in
  name <> "OrmModel" ->
  schema_ok cls = true ->
  has_primary_key cls = false ->
  _fields cls <> [] ->
  table_of cls c = None ->
  Forall (fun self => __class__ self = cls) selfs ->
  fst (save_all selfs (snd (OrmModelMeta.__new__ name dct c))) = Ok tt ->
  sqlite3.int64 k = true ->
  fst (OrmModel.filter cls [("id", PyInt k)]
         (snd (save_all selfs (snd (OrmModelMeta.__new__ name dct c)))))
  = Ok match (if (1 <=? k)%Z then nth_error selfs (Z.to_nat (k - 1)) else None) with
       | Some self => [record_of (self, k)]
       | None => []
       end.
Proof.
  intros cls Hname Hok Hpk Hne Hnone Hcls Hfst Hk.
  pose proof (declared_then_saved name dct c selfs Hname Hok Hpk Hne Hnone Hcls Hfst)
    as Ht2.
  destruct (schema_ok_names _ Hok) as (Hn & Hi & _).
  assert (Hcols : table_columns cls = id_column :: map field_column (_fields cls)).
  { unfold table_columns. now rewrite Hpk. }
  rewrite (filter_runs cls _ _ _ Hn Hi Ht2); [|discriminate|].
  - cbn [fst sqlite3.rows]. f_equal.
    match goal with
    | |- context [List.filter ?f _] =>
        rewrite (filter_ext f (fun r => sqlite3.eqb (nth 0 (snd r) sqlite3.Null)
                                          (sqlite3.Integer k)))
    end.
    + unfold numbered. rewrite (filter_keyed_rows k selfs 1).
      change (Z.of_nat 1) with 1%Z.
      destruct (if (1 <=? k)%Z then _ else _); [|reflexivity].
      simpl. now rewrite tuple_of_keyed_row.
    + intros r. unfold criterion_holds. cbn [sqlite3.columns forallb fst snd].
      fold cls. rewrite Hcols. simpl. now rewrite andb_true_r.
  - unfold criterion_ok. cbn [sqlite3.columns forallb fst snd].
    fold cls. rewrite Hcols. unfold bindable. simpl. now rewrite Hk.
Qed.

Lemma lookup_by_id_witness :
  fst (OrmModel.filter Person [("id", PyInt 2)]
         (snd (save_all [ann; bo; ann]
                 (snd (OrmModelMeta.__new__ "Person" person_dct new_file)))))
  = Ok [[PyInt 2; PyStr "Bo"; PyInt 25; PyFloat f3_0]].
Proof.
  apply (lookup_by_id "Person" person_dct new_file [ann; bo; ann] 2
           ltac:(discriminate) eq_refl eq_refl ltac:(discriminate) eq_refl
           ltac:(repeat constructor) eq_refl eq_refl).
Defined.

(** ** A saved record is found by [filter] *)

Lemma find_column_middle A x B n :
  List.NoDup (map (fun col => lower (sqlite3.col_name col)) (A ++ x :: B)) ->
  sqlite3.col_name x = n ->
  sqlite3.find_column (A ++ x :: B) n = Some (length A, x).
Proof.
  intros Hnd Hx. induction A as [|a A IH]; simpl.
  - unfold sqlite3.name_eqb. now rewrite Hx, String.eqb_refl.
  - simpl in Hnd. apply List.NoDup_cons_iff in Hnd as [Hnot Hnd].
    replace (sqlite3.name_eqb (sqlite3.col_name a) n) with false.
    + now rewrite (IH Hnd).
    + symmetry. apply String.eqb_neq. intros E. apply Hnot.
      rewrite E, <- Hx. apply in_map_iff. exists x. split; [reflexivity|].
      apply in_or_app. right. now left.
Qed.

Lemma nth_app_middle {A} (l1 l2 : list A) x d k :
  length l1 = k -> nth k (l1 ++ x :: l2) d = x.
Proof. intros <-. apply nth_middle. Qed.

Lemma fields_fit (self : instance) item :
  forallb (fun x => sqlite3.fits_column (fst x) (snd x))
    (combine (table_columns (__class__ self))
       (pad_null (__class__ self) ++ map value_of (current_values self))) = true ->
  In item (_fields (__class__ self)) ->
  sqlite3.fits_column (field_column item) (value_of (getattr self (fst item))) = true.
Proof.
  intros Hfit Hin. unfold table_columns, pad_null, current_values in Hfit.
  assert (H : forallb (fun x => sqlite3.fits_column (fst x) (snd x))
                (combine (map field_column (_fields (__class__ self)))
                   (map value_of (map (fun item => getattr self (fst item))
                                    (_fields (__class__ self))))) = true).
  { destruct (has_primary_key (__class__ self)); [exact Hfit|].
    simpl in Hfit. exact Hfit. }
  rewrite map_map, combine_map_map, forallb_forall in H.
  apply (H (field_column item, value_of (getattr self (fst item)))).
  apply in_map_iff. now exists item.
Qed.

(** X17. A saved record is found again: after a successful [save],
    [filter] on any field of the instance whose value is not null, with
    that value, returns a list that contains the tuple of the row just
    added. *)
Theorem saved_record_found (self : instance) (c : sqlite3.connection)
    (t : sqlite3.table) (n : string) (f : OrmField) :
  let cls := __class__ self in
  schema_ok cls = true ->
  table_of cls c = Some t ->
  sqlite3.columns t = table_columns cls ->
  In (n, f) (_fields cls) ->
  value_of (getattr self n) <> sqlite3.Null ->
  fst (OrmModel.save self c) = Ok tt ->
  exists rid found,
    table_of cls (snd (OrmModel.save self c))
    = Some (sqlite3.mk_table (sqlite3.columns t)
              (sqlite3.insert_row (rid, expected_row self rid) (sqlite3.rows t)))
    /\ fst (OrmModel.filter cls [(n, getattr self n)] (snd (OrmModel.save self c)))
       = Ok found
    /\ In (map sqlite3.to_python (expected_row self rid)) found.
Proof.
  intros cls Hok Htable Hcolumns Hin Hnn Hfst. subst cls.
  assert (Hne : _fields (__class__ self) <> [])
    by (intros E; rewrite E in Hin; destruct Hin).
  destruct (save_ok_inv self c t Hok Hne Htable Hcolumns Hfst) as (Hall & Hb & Hfit).
  rewrite (save_by_new_row self c t Hok Hne Htable Hcolumns Hall Hb Hfit) in Hfst |- *.
  destruct (sqlite3.new_row t _) as [[rid vals]|e] eqn:Hrow; [|discriminate].
  clear Hfst. cbn [snd].
  apply (new_row_result self t Hok Hcolumns) in Hrow. simpl in Hrow. subst vals.
  set (r0 := (rid, expected_row self rid)).
  set (t1 := sqlite3.mk_table (table_columns (__class__ self))
               (sqlite3.insert_row r0 (sqlite3.rows t))).
  set (c1 := sqlite3.mk_connection _ _).
  destruct (schema_ok_names _ Hok) as (Hn & Hi & Hf).
  assert (Ht1 : table_of (__class__ self) c1 = Some t1).
  { unfold table_of, c1. simpl. apply lookup_insert_eq. }
  destruct (in_split _ _ Hin) as (pre & post & Hsplit).
  set (padc := if has_primary_key (__class__ self) then [] else [id_column]).
  assert (Hcols : table_columns (__class__ self)
                  = (padc ++ map field_column pre)
                    ++ field_column (n, f) :: map field_column post).
  { unfold table_columns. fold padc. rewrite Hsplit, map_app, <- app_assoc. reflexivity. }
  assert (Hnd : List.NoDup (map (fun col => lower (sqlite3.col_name col))
                              (table_columns (__class__ self)))).
  { apply has_dup_NoDup. unfold schema_ok in Hok.
    apply andb_prop in Hok as [Hok _]. apply andb_prop in Hok as [_ Hok].
    now apply negb_true_iff in Hok. }
  assert (Hfind : sqlite3.find_column (table_columns (__class__ self)) n
                  = Some (length (padc ++ map field_column pre), field_column (n, f))).
  { rewrite Hcols. apply find_column_middle; [now rewrite <- Hcols|reflexivity]. }
  assert (Hnth : nth (length (padc ++ map field_column pre)) (expected_row self rid)
                   sqlite3.Null
                 = value_of (getattr self n)).
  { unfold expected_row. rewrite Hsplit, map_app. simpl map. rewrite app_assoc.
    rewrite nth_app_middle.
    - unfold stored_value. simpl.
      destruct (value_of (getattr self n)); [congruence| | |];
        now rewrite andb_false_r.
    - unfold padc. rewrite !List.length_app, !List.length_map.
      now destruct (has_primary_key (__class__ self)). }
  exists rid. eexists. split; [|split].
  - fold r0. rewrite Hcolumns. exact Ht1.
  - rewrite (filter_runs (__class__ self) _ c1 t1 Hn Hi Ht1); [reflexivity|discriminate|].
    unfold criterion_ok. cbn [forallb fst snd sqlite3.columns t1].
    rewrite Hfind, andb_true_r.
    apply andb_true_iff. split; [apply andb_true_iff; split|].
    + rewrite forallb_forall in Hf. specialize (Hf _ Hin).
      now apply andb_prop in Hf as [Hf _].
    + rewrite forallb_forall in Hb. apply Hb. unfold current_values.
      apply in_map_iff. now exists (n, f).
    + apply (fields_fit self (n, f) Hfit Hin).
  - cbn [fst]. apply in_map_iff. exists r0. split; [reflexivity|].
    apply filter_In. split; [apply in_insert_row|].
    cbn [forallb]. rewrite andb_true_r. unfold criterion_holds.
    cbn [fst snd sqlite3.columns t1 r0]. rewrite Hfind, Hnth.
    now apply eqb_value_of.
Qed.

Lemma saved_record_found_witness :
  exists rid found,
    table_of Person (snd (OrmModel.save ann person_db))
    = Some (sqlite3.mk_table (table_columns Person)
              (sqlite3.insert_row (rid, expected_row ann rid) []))
    /\ fst (OrmModel.filter Person [("age", PyInt 30)]
              (snd (OrmModel.save ann person_db)))
       = Ok found
    /\ In (map sqlite3.to_python (expected_row ann rid)) found.
Proof.
  apply (saved_record_found ann person_db (sqlite3.mk_table (table_columns Person) [])
           "age" (OrmInteger false));
    [reflexivity | reflexivity | reflexivity | simpl; tauto | discriminate | reflexivity].
Defined.

(** ** Several criteria *)

Lemma to_python_inj x y : sqlite3.to_python x = sqlite3.to_python y -> x = y.
Proof. destruct x, y; simpl; congruence. Qed.

Lemma tuple_of_inj r r' : tuple_of r = tuple_of r' -> snd r = snd r'.
Proof.
  unfold tuple_of. generalize (snd r) (snd r'). intros l.
  induction l as [|x l IH]; intros [|y l'] H; try discriminate; [reflexivity|].
  simpl in H. injection H as Hx Hl. apply to_python_inj in Hx. subst y.
  f_equal. now apply IH.
Qed.

Lemma criteria_hold_snd t r r' (kwargs : dict PyValue) :
  snd r = snd r' ->
  forallb (criterion_holds t r) kwargs = forallb (criterion_holds t r') kwargs.
Proof.
  intros E. apply forallb_eq. intros kv. unfold criterion_holds. now rewrite E.
Qed.

(** X15. Criteria are combined by conjunction: [filter] with the
    criteria of two calls together returns exactly the tuples that both
    calls return, and the order in which the criteria are given does not
    change the result. *)
Theorem filter_conjunction (cls : class) (k1 k2 : dict PyValue)
    (c : sqlite3.connection) (t : sqlite3.table) :
  sqlite3.sql_name (_table_name cls) = true ->
  sqlite3.internal_name (_table_name cls) = false ->
  table_of cls c = Some t ->
  k1 <> [] ->
  k2 <> [] ->
  forallb (criterion_ok t) k1 = true ->
  forallb (criterion_ok t) k2 = true ->
  exists r1 r2 r12,
    fst (OrmModel.filter cls k1 c) = Ok r1
    /\ fst (OrmModel.filter cls k2 c) = Ok r2
    /\ fst (OrmModel.filter cls (k1 ++ k2) c) = Ok r12
    /\ fst (OrmModel.filter cls (k2 ++ k1) c) = Ok r12
    /\ forall tuple, In tuple r12 <-> In tuple r1 /\ In tuple r2.
Proof.
  intros Hn Hi Ht H1 H2 Hok1 Hok2.
  assert (Hok12 : forallb (criterion_ok t) (k1 ++ k2) = true)
    by (rewrite forallb_app, Hok1, Hok2; reflexivity).
  assert (Hok21 : forallb (criterion_ok t) (k2 ++ k1) = true)
    by (rewrite forallb_app, Hok1, Hok2; reflexivity).
  assert (H12 : k1 ++ k2 <> []) by (destruct k1; [congruence|discriminate]).
  assert (H21 : k2 ++ k1 <> []) by (destruct k2; [congruence|discriminate]).
  rewrite (filter_runs cls k1 c t Hn Hi Ht H1 Hok1).
  rewrite (filter_runs cls k2 c t Hn Hi Ht H2 Hok2).
  rewrite (filter_runs cls (k1 ++ k2) c t Hn Hi Ht H12 Hok12).
  rewrite (filter_runs cls (k2 ++ k1) c t Hn Hi Ht H21 Hok21).
  cbn [fst]. do 3 eexists.
  split; [reflexivity|]. split; [reflexivity|]. split; [reflexivity|]. split.
  - do 2 f_equal. apply filter_ext. intros r.
    rewrite !forallb_app. apply andb_comm.
  - intros tuple. rewrite !in_map_iff. split.
    + intros (r & <- & Hr). apply filter_In in Hr as [Hr Hp].
      rewrite forallb_app in Hp. apply andb_prop in Hp as [Hp1 Hp2].
      split; exists r; (split; [reflexivity|]); apply filter_In; now split.
    + intros [(r & <- & Hr) (r' & E & Hr')].
      apply filter_In in Hr as [Hr Hp]. apply filter_In in Hr' as [_ Hp'].
      exists r. split; [reflexivity|]. apply filter_In. split; [exact Hr|].
      rewrite forallb_app, Hp. simpl.
      rewrite (criteria_hold_snd t r r'); [exact Hp'|].
      symmetry. now apply tuple_of_inj.
Qed.

Lemma filter_conjunction_witness :
  exists r1 r2 r12,
    fst (OrmModel.filter Person [("name", PyStr "Ann")] people_db) = Ok r1
    /\ fst (OrmModel.filter Person [("age", PyInt 25)] people_db) = Ok r2
    /\ fst (OrmModel.filter Person [("name", PyStr "Ann"); ("age", PyInt 25)] people_db)
       = Ok r12
    /\ fst (OrmModel.filter Person [("age", PyInt 25); ("name", PyStr "Ann")] people_db)
       = Ok r12
    /\ forall tuple, In tuple r12 <-> In tuple r1 /\ In tuple r2.
Proof.
  apply (filter_conjunction Person [("name", PyStr "Ann")] [("age", PyInt 25)] people_db
           (sqlite3.mk_table (table_columns Person)
              [(1, [sqlite3.Integer 1; sqlite3.Text "Ann"; sqlite3.Integer 30;
                    sqlite3.Real f4_5]);
               (2, [sqlite3.Integer 2; sqlite3.Text "Bo"; sqlite3.Integer 25;
                    sqlite3.Real f3_0])]));
    [reflexivity | reflexivity | vm_compute; reflexivity | discriminate | discriminate
    | reflexivity | reflexivity].
Defined.

(** ** Integers beyond 64 bits *)

Lemma adapt_all_overflow vs z :
  Forall (fun v => forall o, v <> PyObj o) vs ->
  In (PyInt z) vs ->
  sqlite3.int64 z = false ->
  sqlite3.adapt_all vs = Raise OverflowError.
Proof.
  intros Hobj Hin Hz. induction Hobj as [|v vs Hv _ IH]; [destruct Hin|].
  simpl. destruct Hin as [->|Hin].
  - simpl. now rewrite Hz.
  - specialize (IH Hin).
    destruct v as [|b|z'|x|s|o]; simpl; try (now rewrite IH).
    + destruct (sqlite3.int64 z'); [now rewrite IH|reflexivity].
    + destruct x; now rewrite IH.
    + now destruct (Hv o).
Qed.

(** X10. An integer outside the range of 64-bit signed integers is an
    [int] and passes the check of [save], but cannot be bound: [save]
    raises [OverflowError] and the database is unchanged. *)
Theorem save_integer_out_of_range (self : instance) (c : sqlite3.connection)
    (t : sqlite3.table) (n : string) (f : OrmField) (z : Z) :
  let cls := __class__ self in
  schema_ok cls = true ->
  table_of cls c = Some t ->
  sqlite3.columns t = table_columns cls ->
  well_typed self = true ->
  Forall (fun v => forall o, v <> PyObj o) (current_values self) ->
  In (n, f) (_fields cls) ->
  getattr self n = PyInt z ->
  (z < - 2 ^ 63 \/ 2 ^ 63 <= z)%Z ->
  fst (OrmModel.save self c) = Raise OverflowError
  /\ sqlite3.tables (snd (OrmModel.save self c)) = sqlite3.tables c.
Proof.
  intros cls Hok Htable Hcolumns Hwt Hobj Hin Hv Hz. subst cls.
  assert (Hne : _fields (__class__ self) <> [])
    by (intros E; rewrite E in Hin; destruct Hin).
  rewrite (save_unfold self c t Hok Htable Hcolumns Hne (well_typed_no_mismatch _ Hwt)).
  unfold insert_outcome. rewrite (adapt_all_overflow _ z Hobj).
  - now split.
  - unfold current_values. rewrite <- Hv. apply in_map_iff. now exists (n, f).
  - unfold sqlite3.int64. apply andb_false_iff.
    destruct Hz as [Hz|Hz]; [left; apply Z.leb_gt|right; apply Z.ltb_ge]; exact Hz.
Qed.

Lemma save_integer_out_of_range_witness :
  fst (OrmModel.save large_record some_table_db) = Raise OverflowError
  /\ sqlite3.tables (snd (OrmModel.save large_record some_table_db))
     = sqlite3.tables some_table_db.
Proof.
  apply (save_integer_out_of_range large_record some_table_db
           (sqlite3.mk_table (table_columns SomeTable) []) "field_2" (OrmInteger false)
           (2 ^ 63));
    [reflexivity | reflexivity | reflexivity | reflexivity
    | repeat constructor; discriminate | simpl; tauto | reflexivity | right; lia].
Defined.

(** ** A primary key that is left unset and is not an INTEGER *)

Lemma key_taken_null t : key_taken t sqlite3.Null = false.
Proof.
  unfold key_taken. destruct (sqlite3.pk_column _) as [[j col]|]; [|reflexivity].
  destruct (sqlite3.is_rowid_alias col); [reflexivity|].
  apply not_true_is_false. intros H. apply existsb_exists in H as (r & _ & H).
  now rewrite eqb_null in H.
Qed.

(** X9. A primary key that is not an INTEGER is not assigned by the
    database: when such a key is left unset (null), [save] succeeds
    whatever rows the table holds, also rows whose key is null, and the
    row that it adds holds null in the key column. *)
Theorem unset_key_stored_null (self : instance) (c : sqlite3.connection)
    (t : sqlite3.table) (n : string) (f : OrmField) :
  let cls := __class__ self in
  schema_ok cls = true ->
  table_of cls c = Some t ->
  sqlite3.columns t = table_columns cls ->
  In (n, f) (_fields cls) ->
  primary_key f = true ->
  sql_type f <> "INTEGER" ->
  value_of (getattr self n) = sqlite3.Null ->
  well_typed self = true ->
  forallb bindable (current_values self) = true ->
  Forall (fun r => (fst r < sqlite3.max_rowid)%Z) (sqlite3.rows t) ->
  fst (OrmModel.save self c) = Ok tt
  /\ exists rid,
       table_of cls (snd (OrmModel.save self c))
       = Some (sqlite3.mk_table (sqlite3.columns t)
                 (sqlite3.insert_row (rid, expected_row self rid) (sqlite3.rows t)))
       /\ stored_value rid (n, f) (getattr self n) = sqlite3.Null.
Proof.
  intros cls Hok Htable Hcolumns Hin Hpk Hty Hnull Hwt Hbind Hroom. subst cls.
  assert (Hne : _fields (__class__ self) <> [])
    by (intros E; rewrite E in Hin; destruct Hin).
  assert (Hkeys : forall item,
            In item (_fields (__class__ self)) -> primary_key (snd item) = true ->
            item = (n, f)).
  { intros item Hi Hp.
    apply (pk_unique (_fields (__class__ self))); try assumption.
    apply (pk_count self Hok). }
  assert (Hfst : fst (OrmModel.save self c) = Ok tt).
  { assert (Hall := well_typed_no_mismatch self Hwt).
    assert (Hfit : forallb (fun x => sqlite3.fits_column (fst x) (snd x))
                     (combine (table_columns (__class__ self))
                        (pad_null (__class__ self)
                         ++ map value_of (current_values self))) = true).
    { apply (values_fit self Hok Hall). apply List.Forall_forall.
      intros item Hi Hp. rewrite (Hkeys item Hi Hp). now left. }
    rewrite (save_by_new_row self c t Hok Hne Htable Hcolumns Hall Hbind Hfit).
    destruct (new_row_accepts self t Hok Hcolumns) as [r Hr]; [|exact Hroom|].
    - apply List.Forall_forall. intros item Hi Hp. rewrite (Hkeys item Hi Hp).
      simpl. rewrite Hnull. split; [now left|apply key_taken_null].
    - now rewrite Hr. }
  split; [exact Hfst|].
  destruct (save_adds_row self c t Hok Hne Htable Hcolumns Hfst) as (rid & Ht & _).
  exists rid. split; [exact Ht|].
  unfold stored_value. simpl. rewrite Hnull.
  apply String.eqb_neq in Hty. now rewrite Hty, andb_false_r.
Qed.

Lemma unset_key_stored_null_witness :
  fst (OrmModel.save (OrmModel.__init__ Tag [("label", PyStr "a")]) tag_saved) = Ok tt
  /\ exists rid,
       table_of Tag
         (snd (OrmModel.save (OrmModel.__init__ Tag [("label", PyStr "a")]) tag_saved))
       = Some (sqlite3.mk_table (table_columns Tag)
                 (sqlite3.insert_row
                    (rid, expected_row (OrmModel.__init__ Tag [("label", PyStr "a")]) rid)
                    [(1, [sqlite3.Null; sqlite3.Text "a"])]))
       /\ stored_value rid ("code", OrmText true)
            (getattr (OrmModel.__init__ Tag [("label", PyStr "a")]) "code")
          = sqlite3.Null.
Proof.
  apply (unset_key_stored_null (OrmModel.__init__ Tag [("label", PyStr "a")]) tag_saved
           (sqlite3.mk_table (table_columns Tag) [(1, [sqlite3.Null; sqlite3.Text "a"])])
           "code" (OrmText true));
    [reflexivity | vm_compute; reflexivity | reflexivity | simpl; tauto | reflexivity
    | discriminate | reflexivity | reflexivity | reflexivity
    | repeat constructor].
Defined.
